(** * The analytics engine and metrics collector of the guest-management app

    A shallow embedding of [AIAnalyticsEngine] (the AI analytics module) and
    [AdvancedChangeLogger] (src/lib/advanced-change-logger.ts), followed by
    the properties of their anomaly and insight rules, trend heuristic,
    score formulas, retention caps and analytics tables.

    Conventions of the embedding:
    - a JavaScript [number] is an exact rational ([Q]); results that are
      numbers are compared with [==].  Rounding of IEEE doubles, [NaN] and
      the infinities are outside the model;
    - an ISO timestamp string is the millisecond count it denotes
      ([new Date(s).getTime()]), an integer;
    - [Date.now()], [new Date()], [performance.now()] and [Math.random()]
      are readings of the environment, passed in explicitly;
    - an array is a list, oldest element first ([push] appends at the end);
    - an object field of type [any] is an association list of named values. *)

From Stdlib Require Import String Ascii List ZArith QArith Qminmax Bool Arith.
From Stdlib Require Import Qabs Qround Lia Lqa DecimalString Sorted Permutation.
Import ListNotations.

Open Scope string_scope.
Open Scope list_scope.
Open Scope Q_scope.

(** ** JavaScript numbers, strings and arrays *)

Definition number := Q.

(** [x > y] on numbers. *)
Definition gtb (x y : number) : bool := negb (Qle_bool x y).

(** [x < y] on numbers. *)
Definition ltb (x y : number) : bool := gtb y x.

Notation "x >? y" := (gtb x y) (at level 70, no associativity) : Q_scope.
Notation "x <? y" := (ltb x y) (at level 70, no associativity) : Q_scope.

(** [array.length] as a number. *)
Definition len {A : Type} (l : list A) : number := inject_Z (Z.of_nat (length l)).

(** A non-negative count as a number. *)
Definition ofNat (n : nat) : number := inject_Z (Z.of_nat n).

(** [array.slice(-n)] for a positive [n], as at every call site: the last
    [n] elements, the whole array when it has fewer. *)
Definition sliceLast {A : Type} (n : nat) (l : list A) : list A :=
  skipn (length l - n) l.

(** [array.find(p)]. *)
Definition find_first {A : Type} (p : A -> bool) (l : list A) : option A :=
  find p l.

(** Decimal rendering of an integer, as template literals do. *)
Definition showZ (z : Z) : string := NilZero.string_of_int (Z.to_int z).

(** Values stored in untyped ([any]) object fields. *)
Inductive JsValue : Type :=
| JNum (q : number)
| JStr (s : string)
| JBool (b : bool).

Definition JsObject := list (string * JsValue).

(** [obj[field]] read as a number: [None] when the field is absent or is not
    a number. *)
Fixpoint getNum (field : string) (o : JsObject) : option number :=
  match o with
  | [] => None
  | (k, v) :: rest =>
      if String.eqb k field
      then match v with JNum q => Some q | _ => None end
      else getNum field rest
  end.

(** A run of [n] zero digits. *)
Fixpoint zeros (n : nat) : string :=
  match n with O => "" | S k => String "0" (zeros k) end.

(** [x.toFixed(f)]: the decimal numeral with [f] fraction digits nearest to
    [x], the larger magnitude on a tie. *)
Definition toFixed (f : nat) (x : number) : string :=
  let ax := Qabs x in
  let n := Qfloor (ax * inject_Z (10 ^ Z.of_nat f) + (1 # 2)) in
  let digits := showZ n in
  let padded := (zeros (S f - String.length digits) ++ digits)%string in
  let k := String.length padded in
  let whole := substring 0 (k - f) padded in
  let body :=
    match f with
    | O => whole
    | _ => (whole ++ "." ++ substring (k - f) f padded)%string
    end in
  if x <? 0 then ("-" ++ body)%string else body.

(** [{...obj, key: v}]: the key keeps its place when present, and is added
    at the end otherwise. *)
Fixpoint setField (key : string) (v : JsValue) (o : JsObject) : JsObject :=
  match o with
  | [] => [(key, v)]
  | (k, w) :: rest =>
      if String.eqb k key then (k, v) :: rest else (k, w) :: setField key v rest
  end.

(** ** The trend-direction heuristic (calculateTrendDirection) *)

(** [values[i]]; the loop below never reads out of range. *)
Definition at_index (values : list number) (i : nat) : number := nth i values 0.

(** One iteration of the loop body:
    [if (values[i] > values[i - 1]) increases++]. *)
Definition trend_step (values : list number) (increases i : nat) : nat :=
  if at_index values i >? at_index values (i - 1) then S increases else increases.

(** The loop [for (let i = 1; i < values.length; i++)]. *)
Definition count_loop (values : list number) : nat :=
  fold_left (trend_step values) (seq 1 (length values - 1)) 0%nat.

Definition calculateTrendDirection (values : list number) : number :=
  if (length values <? 2)%nat then 0
  else (ofNat (count_loop values) / ofNat (length values - 1)) * 100.

(** The reference reading of the heuristic: the number of indices [i] in
    [1 .. n-1] with [v[i] > v[i-1]], as a percentage of the [n-1]
    consecutive pairs. *)
Definition is_increase (values : list number) (i : nat) : bool :=
  at_index values i >? at_index values (i - 1).

Definition consecutive_increases (values : list number) : nat :=
  length (filter (is_increase values) (seq 1 (length values - 1))).

Definition trend_direction_reference (values : list number) : number :=
  100 * ofNat (consecutive_increases values) / ofNat (length values - 1).

(** ** The data model of the engine *)

Inductive Severity : Type := low | medium | high | critical.

Inductive AnomalyType : Type :=
| performance_spike
| error_burst
| unusual_pattern
| capacity_issue
| user_behavior_anomaly.

Inductive InsightType : Type :=
| insight_performance
| insight_behavior
| insight_system
| insight_optimization.

Inductive Category : Type :=
| table_assignment
| system_optimization
| user_experience
| category_performance
| capacity_planning.

Inductive Priority : Type :=
| priority_low
| priority_medium
| priority_high
| priority_urgent.

Inductive Effort : Type := effort_low | effort_medium | effort_high.

Inductive TrendStatus : Type := improving | stable | declining.

Scheme Equality for AnomalyType.
Scheme Equality for InsightType.
Scheme Equality for Category.

(** The readings a constructor of a rule output takes from the environment:
    [Date.now()] and [Math.random().toString(36).substr(2, 9)] for the id,
    [new Date()] for the creation stamp, and [Date.now()] again for the
    expiry of insights and recommendations. *)
Record Readings : Type := mkReadings {
  idTime : Z;
  idRandom : string;
  stampTime : Z;
  expiryBase : Z
}.

Definition freshId (prefix : string) (r : Readings) : string :=
  (prefix ++ showZ (idTime r) ++ "_" ++ idRandom r)%string.

Module Anomaly.

(** interface AnomalyDetection *)
Record AnomalyDetection : Type := mk {
  id : string;
  type : AnomalyType;
  severity : Severity;
  confidence : number;
  title : string;
  description : string;
  detectedAt : Z;
  affectedMetrics : list string;
  baseline : JsObject;
  current : JsObject;
  deviation : number;
  suggestedActions : list string;
  autoResolved : bool;
  resolvedAt : option Z
}.

(** The argument of [addAnomaly]: of [Partial<AnomalyDetection>], the ten
    fields that each of its eight call sites supplies. *)
Record Data : Type := mkData {
  d_type : AnomalyType;
  d_severity : Severity;
  d_confidence : number;
  d_title : string;
  d_description : string;
  d_affectedMetrics : list string;
  d_baseline : JsObject;
  d_current : JsObject;
  d_deviation : number;
  d_suggestedActions : list string
}.

End Anomaly.

Module Insight.

(** The [impact] object of an insight. *)
Record Impact : Type := mkImpact {
  performance : option number;
  efficiency : option number;
  userExperience : option number;
  systemStability : option number
}.

(** interface PredictiveInsight *)
Record PredictiveInsight : Type := mk {
  id : string;
  type : InsightType;
  severity : Severity;
  confidence : number;
  title : string;
  description : string;
  prediction : string;
  recommendedActions : list string;
  timeframe : string;
  impact : Impact;
  dataPoints : list JsObject;
  createdAt : Z;
  expiresAt : Z
}.

(** The argument of [addInsight], as its call sites build it. *)
Record Data : Type := mkData {
  d_type : InsightType;
  d_severity : Severity;
  d_confidence : number;
  d_title : string;
  d_description : string;
  d_prediction : string;
  d_recommendedActions : list string;
  d_timeframe : string;
  d_impact : Impact;
  d_dataPoints : list JsObject
}.

End Insight.

Module Recommendation.

(** The [estimatedImpact] object of a recommendation. *)
Record EstimatedImpact : Type := mkImpact {
  efficiency : option number;
  performance : option number;
  userSatisfaction : option number;
  resourceUtilization : option number
}.

(** interface SmartRecommendation *)
Record SmartRecommendation : Type := mk {
  id : string;
  category : Category;
  priority : Priority;
  title : string;
  description : string;
  rationale : string;
  expectedBenefit : string;
  implementationEffort : Effort;
  estimatedImpact : EstimatedImpact;
  actionSteps : list string;
  prerequisites : list string;
  risks : list string;
  createdAt : Z;
  validUntil : Z;
  implemented : bool;
  implementedAt : option Z;
  actualImpact : option JsObject
}.

(** The argument of [addRecommendation], as its call sites build it. *)
Record Data : Type := mkData {
  d_category : Category;
  d_priority : Priority;
  d_title : string;
  d_description : string;
  d_rationale : string;
  d_expectedBenefit : string;
  d_implementationEffort : Effort;
  d_estimatedImpact : EstimatedImpact;
  d_actionSteps : list string;
  d_prerequisites : list string;
  d_risks : list string
}.

End Recommendation.

(** The three collections held by the engine object. *)
Record AIAnalyticsEngine : Type := mkEngine {
  insights : list Insight.PredictiveInsight;
  anomalies : list Anomaly.AnomalyDetection;
  recommendations : list Recommendation.SmartRecommendation
}.

(** [new AIAnalyticsEngine()]: the three collections start empty. *)
Definition newEngine : AIAnalyticsEngine := mkEngine [] [] [].

(** ** Adding, pruning, expiring and resolving rule outputs *)

Definition DAY_MS : Z := (24 * 60 * 60 * 1000)%Z.

Definition pruneAnomalies (e : AIAnalyticsEngine) : AIAnalyticsEngine :=
  if (100 <? length (anomalies e))%nat
  then mkEngine (insights e) (sliceLast 100 (anomalies e)) (recommendations e)
  else e.

Definition pruneInsights (e : AIAnalyticsEngine) : AIAnalyticsEngine :=
  if (50 <? length (insights e))%nat
  then mkEngine (sliceLast 50 (insights e)) (anomalies e) (recommendations e)
  else e.

Definition pruneRecommendations (e : AIAnalyticsEngine) : AIAnalyticsEngine :=
  if (30 <? length (recommendations e))%nat
  then mkEngine (insights e) (anomalies e) (sliceLast 30 (recommendations e))
  else e.

(** The object literal of [addAnomaly]: generated id and stamp,
    [autoResolved: false], then the spread of the rule's data. *)
Definition newAnomaly (r : Readings) (d : Anomaly.Data) : Anomaly.AnomalyDetection :=
  Anomaly.mk
    (freshId "anomaly_" r)
    (Anomaly.d_type d)
    (Anomaly.d_severity d)
    (Anomaly.d_confidence d)
    (Anomaly.d_title d)
    (Anomaly.d_description d)
    (stampTime r)
    (Anomaly.d_affectedMetrics d)
    (Anomaly.d_baseline d)
    (Anomaly.d_current d)
    (Anomaly.d_deviation d)
    (Anomaly.d_suggestedActions d)
    false
    None.

(** The predicate of the [find] in [addAnomaly]:
    [a.type === anomaly.type && a.title === anomaly.title && !a.autoResolved]. *)
Definition similarAnomaly (ty : AnomalyType) (ti : string)
    (a : Anomaly.AnomalyDetection) : bool :=
  AnomalyType_beq (Anomaly.type a) ty
  && String.eqb (Anomaly.title a) ti
  && negb (Anomaly.autoResolved a).

Definition addAnomaly (r : Readings) (anomalyData : Anomaly.Data)
    (e : AIAnalyticsEngine) : AIAnalyticsEngine :=
  let anomaly := newAnomaly r anomalyData in
  match find_first (similarAnomaly (Anomaly.type anomaly) (Anomaly.title anomaly))
          (anomalies e) with
  | Some _ => e
  | None =>
      pruneAnomalies (mkEngine (insights e) (anomalies e ++ [anomaly]) (recommendations e))
  end.

Definition newInsight (r : Readings) (d : Insight.Data) : Insight.PredictiveInsight :=
  Insight.mk
    (freshId "insight_" r)
    (Insight.d_type d)
    (Insight.d_severity d)
    (Insight.d_confidence d)
    (Insight.d_title d)
    (Insight.d_description d)
    (Insight.d_prediction d)
    (Insight.d_recommendedActions d)
    (Insight.d_timeframe d)
    (Insight.d_impact d)
    (Insight.d_dataPoints d)
    (stampTime r)
    (expiryBase r + DAY_MS)%Z.

Definition similarInsight (ty : InsightType) (ti : string)
    (i : Insight.PredictiveInsight) : bool :=
  InsightType_beq (Insight.type i) ty && String.eqb (Insight.title i) ti.

Definition addInsight (r : Readings) (insightData : Insight.Data)
    (e : AIAnalyticsEngine) : AIAnalyticsEngine :=
  let insight := newInsight r insightData in
  match find_first (similarInsight (Insight.type insight) (Insight.title insight))
          (insights e) with
  | Some _ => e
  | None =>
      pruneInsights (mkEngine (insights e ++ [insight]) (anomalies e) (recommendations e))
  end.

Definition newRecommendation (r : Readings) (d : Recommendation.Data)
    : Recommendation.SmartRecommendation :=
  Recommendation.mk
    (freshId "rec_" r)
    (Recommendation.d_category d)
    (Recommendation.d_priority d)
    (Recommendation.d_title d)
    (Recommendation.d_description d)
    (Recommendation.d_rationale d)
    (Recommendation.d_expectedBenefit d)
    (Recommendation.d_implementationEffort d)
    (Recommendation.d_estimatedImpact d)
    (Recommendation.d_actionSteps d)
    (Recommendation.d_prerequisites d)
    (Recommendation.d_risks d)
    (stampTime r)
    (expiryBase r + 7 * DAY_MS)%Z
    false
    None
    None.

Definition similarRecommendation (c : Category) (ti : string)
    (r : Recommendation.SmartRecommendation) : bool :=
  Category_beq (Recommendation.category r) c
  && String.eqb (Recommendation.title r) ti
  && negb (Recommendation.implemented r).

Definition addRecommendation (r : Readings) (recommendationData : Recommendation.Data)
    (e : AIAnalyticsEngine) : AIAnalyticsEngine :=
  let recommendation := newRecommendation r recommendationData in
  match find_first
          (similarRecommendation (Recommendation.category recommendation)
             (Recommendation.title recommendation))
          (recommendations e) with
  | Some _ => e
  | None =>
      pruneRecommendations
        (mkEngine (insights e) (anomalies e) (recommendations e ++ [recommendation]))
  end.

(** [now] is the reading of [Date.now()]. *)
Definition cleanupOldAnomalies (now : Z) (e : AIAnalyticsEngine) : AIAnalyticsEngine :=
  let cutoff := (now - DAY_MS)%Z in
  mkEngine (insights e)
    (filter (fun anomaly =>
               (cutoff <? Anomaly.detectedAt anomaly)%Z || negb (Anomaly.autoResolved anomaly))
       (anomalies e))
    (recommendations e).

Definition cleanupOldInsights (now : Z) (e : AIAnalyticsEngine) : AIAnalyticsEngine :=
  mkEngine
    (filter (fun insight => (now <? Insight.expiresAt insight)%Z) (insights e))
    (anomalies e)
    (recommendations e).

Definition cleanupOldRecommendations (now : Z) (e : AIAnalyticsEngine) : AIAnalyticsEngine :=
  mkEngine (insights e) (anomalies e)
    (filter (fun rec => (now <? Recommendation.validUntil rec)%Z) (recommendations e)).

(** The two assignments of [resolveAnomaly] on the object found. *)
Definition markResolved (now : Z) (a : Anomaly.AnomalyDetection) : Anomaly.AnomalyDetection :=
  Anomaly.mk (Anomaly.id a) (Anomaly.type a) (Anomaly.severity a) (Anomaly.confidence a)
    (Anomaly.title a) (Anomaly.description a) (Anomaly.detectedAt a)
    (Anomaly.affectedMetrics a) (Anomaly.baseline a) (Anomaly.current a)
    (Anomaly.deviation a) (Anomaly.suggestedActions a)
    true (Some now).

(** Assignment to fields of the object that [find] returned: the array holds
    that object, so the first element satisfying the predicate changes in
    place. *)
Fixpoint updateFirst {A : Type} (p : A -> bool) (f : A -> A) (l : list A) : list A :=
  match l with
  | [] => []
  | x :: rest => if p x then f x :: rest else x :: updateFirst p f rest
  end.

(** [now] is the reading of [new Date()]. *)
Definition resolveAnomaly (now : Z) (anomalyId : string) (e : AIAnalyticsEngine)
    : AIAnalyticsEngine :=
  let hasId := fun a => String.eqb (Anomaly.id a) anomalyId in
  match find_first hasId (anomalies e) with
  | Some _ =>
      mkEngine (insights e) (updateFirst hasId (markResolved now) (anomalies e))
        (recommendations e)
  | None => e
  end.

Definition markImplemented (now : Z) (actualImpact : option JsObject)
    (r : Recommendation.SmartRecommendation) : Recommendation.SmartRecommendation :=
  Recommendation.mk (Recommendation.id r) (Recommendation.category r)
    (Recommendation.priority r) (Recommendation.title r) (Recommendation.description r)
    (Recommendation.rationale r) (Recommendation.expectedBenefit r)
    (Recommendation.implementationEffort r) (Recommendation.estimatedImpact r)
    (Recommendation.actionSteps r) (Recommendation.prerequisites r)
    (Recommendation.risks r) (Recommendation.createdAt r) (Recommendation.validUntil r)
    true (Some now)
    (match actualImpact with
     | Some impact => Some impact
     | None => Recommendation.actualImpact r
     end).

Definition markRecommendationImplemented (now : Z) (recommendationId : string)
    (actualImpact : option JsObject) (e : AIAnalyticsEngine) : AIAnalyticsEngine :=
  let hasId := fun r => String.eqb (Recommendation.id r) recommendationId in
  match find_first hasId (recommendations e) with
  | Some _ =>
      mkEngine (insights e) (anomalies e)
        (updateFirst hasId (markImplemented now actualImpact) (recommendations e))
  | None => e
  end.

(** [getAnomalies()]: a copy of the array. *)
Definition getAnomalies (e : AIAnalyticsEngine) : list Anomaly.AnomalyDetection :=
  anomalies e.

(** ** The metrics collector (AdvancedChangeLogger) *)

(** interface PerformanceMetrics ([dbQueries] is never set). *)
Record PerformanceMetrics : Type := mkPerformanceMetrics {
  operationId : string;
  operation : string;
  startTime : number;
  endTime : number;
  duration : number;
  success : bool;
  errorType : option string;
  resourcesAffected : number;
  pm_memoryUsage : number
}.

Record Viewport : Type := mkViewport { width : number; height : number }.

Record DeviceInfo : Type := mkDeviceInfo {
  userAgent : string;
  viewport : Viewport;
  connection : option string
}.

(** interface UserBehaviorMetrics ([userId] is never set). *)
Record UserBehaviorMetrics : Type := mkUserBehaviorMetrics {
  sessionId : string;
  ub_timestamp : Z;
  action : string;
  ub_duration : number;
  clickPath : list string;
  errorEncountered : bool;
  deviceInfo : DeviceInfo
}.

(** interface SystemHealthMetrics ([cpuUsage] is never set). *)
Record SystemHealthMetrics : Type := mkSystemHealthMetrics {
  timestamp : Z;
  memoryUsage : number;
  activeUsers : number;
  operationsPerMinute : number;
  errorRate : number;
  averageResponseTime : number;
  databaseConnections : number;
  cacheHitRate : number
}.

(** The fields of the collector object. *)
Record AdvancedChangeLogger : Type := mkLogger {
  performanceMetrics : list PerformanceMetrics;
  userBehaviorMetrics : list UserBehaviorMetrics;
  systemHealthMetrics : list SystemHealthMetrics;
  currentSession : string;
  currentClickPath : list string
}.

(** [new AdvancedChangeLogger()]: empty series, a generated session id. *)
Definition newLogger (r : Readings) : AdvancedChangeLogger :=
  mkLogger [] [] [] (freshId "session_" r) [].

Definition pruneMetrics (c : AdvancedChangeLogger) : AdvancedChangeLogger :=
  let c1 :=
    if (1000 <? length (performanceMetrics c))%nat
    then mkLogger (sliceLast 1000 (performanceMetrics c)) (userBehaviorMetrics c)
           (systemHealthMetrics c) (currentSession c) (currentClickPath c)
    else c in
  let c2 :=
    if (1000 <? length (userBehaviorMetrics c1))%nat
    then mkLogger (performanceMetrics c1) (sliceLast 1000 (userBehaviorMetrics c1))
           (systemHealthMetrics c1) (currentSession c1) (currentClickPath c1)
    else c1 in
  if (1000 <? length (systemHealthMetrics c2))%nat
  then mkLogger (performanceMetrics c2) (userBehaviorMetrics c2)
         (sliceLast 1000 (systemHealthMetrics c2)) (currentSession c2) (currentClickPath c2)
  else c2.

(** The click listener: push the element descriptor, keep the last ten. *)
Definition onClick (elementInfo : string) (c : AdvancedChangeLogger) : AdvancedChangeLogger :=
  let path := currentClickPath c ++ [elementInfo] in
  mkLogger (performanceMetrics c) (userBehaviorMetrics c) (systemHealthMetrics c)
    (currentSession c)
    (if (10 <? length path)%nat then tl path else path).

(** The [context] argument of [trackUserBehavior], and what it reads from
    the browser. *)
Record BehaviorContext : Type := mkBehaviorContext {
  ctx_duration : option number;
  ctx_error : option bool
}.

Record BrowserReadings : Type := mkBrowserReadings {
  br_now : Z;
  br_device : DeviceInfo
}.

(** [v || 0] on an optional number. *)
Definition orZero (v : option number) : number :=
  match v with
  | Some q => if Qeq_bool q 0 then 0 else q
  | None => 0
  end.

(** [v || false] on an optional boolean. *)
Definition orFalse (v : option bool) : bool :=
  match v with Some b => b | None => false end.

Definition trackUserBehavior (b : BrowserReadings) (act : string) (context : BehaviorContext)
    (c : AdvancedChangeLogger) : AdvancedChangeLogger :=
  let metrics :=
    mkUserBehaviorMetrics (currentSession c) (br_now b) act
      (orZero (ctx_duration context)) (currentClickPath c)
      (orFalse (ctx_error context)) (br_device b) in
  pruneMetrics
    (mkLogger (performanceMetrics c) (userBehaviorMetrics c ++ [metrics])
       (systemHealthMetrics c) (currentSession c) (currentClickPath c)).

(** [array.reduce((sum, x) => sum + f(x), 0)]. *)
Definition sumOf {A : Type} (f : A -> number) (l : list A) : number :=
  fold_left (fun sum x => sum + f x) l 0.

Definition getAverageResponseTime (c : AdvancedChangeLogger) : number :=
  let recentMetrics := sliceLast 10 (performanceMetrics c) in
  match recentMetrics with
  | [] => 0
  | _ => sumOf (fun m => orZero (Some (duration m))) recentMetrics / len recentMetrics
  end.

(** *** The change log the collector writes to and reads from *)

(** The argument of [logChange]: the [changeParams] object of a tracked
    operation, with the fields the collector reads or overrides spelled
    out and the others kept as they are. *)
Record ChangeParams : Type := mkChangeParams {
  cp_type : option string;
  cp_affectedCount : option number;
  cp_guests : option (list JsObject);
  cp_errorDetails : option string;
  cp_additionalContext : option JsObject;
  cp_other : JsObject
}.

(** Of a change-log entry, the two fields the collector reads. *)
Record ChangeLogEntry : Type := mkChangeLogEntry {
  entry_timestamp : Z;
  action_type : string
}.

(** Modelled from the spec: the module ./change-logger ([logChange],
    [getChangeHistory]) is not part of the sources at hand.  Its [append]
    "never fails the caller", so [logChange] is a total update of the stored
    log; [getChangeHistory] reads the entries, newest first. *)
Class ChangeLogger : Type := {
  ChangeLog : Type;
  logChange : ChangeParams -> ChangeLog -> ChangeLog;
  getChangeHistory : ChangeLog -> list ChangeLogEntry
}.

(** What a unit of work can raise, and how it ends. *)
Inductive Thrown : Type :=
| ErrorObject (constructorName message : string)
| OtherValue (v : JsValue).

Inductive Outcome (T : Type) : Type :=
| Returned (v : T)
| Raised (e : Thrown).

Arguments Returned {T} v.
Arguments Raised {T} e.

(** [error instanceof Error ? error.constructor.name : "UnknownError"] *)
Definition classify (e : Thrown) : string :=
  match e with
  | ErrorObject constructorName _ => constructorName
  | OtherValue _ => "UnknownError"
  end.

(** [error instanceof Error ? error.message : "Unknown error"] *)
Definition errorMessage (e : Thrown) : string :=
  match e with
  | ErrorObject _ message => message
  | OtherValue _ => "Unknown error"
  end.

(** The readings of one tracked operation: the id parts, [performance.now()]
    and the heap size before and after the work. *)
Record OperationReadings : Type := mkOperationReadings {
  op_id : Readings;
  op_startTime : number;
  op_startMemory : number;
  op_endTime : number;
  op_endMemory : number
}.

(** [changeParams.affectedCount || changeParams.guests?.length || 1] *)
Definition affectedResources (p : ChangeParams) : number :=
  let first := orZero (cp_affectedCount p) in
  if negb (Qeq_bool first 0) then first
  else
    match cp_guests p with
    | Some guests => if (length guests =? 0)%nat then 1 else len guests
    | None => 1
    end.

(** [{...changeParams.additionalContext}] *)
Definition contextOf (p : ChangeParams) : JsObject :=
  match cp_additionalContext p with Some o => o | None => [] end.

Section Collector.

Context `{CL : ChangeLogger}.

(** The collector together with the change log behind it. *)
Record World : Type := mkWorld {
  logger : AdvancedChangeLogger;
  changeLog : ChangeLog
}.

(** The argument of the call to [logChange] after the work returned. *)
Definition successEntry (operationId : string) (p : ChangeParams) : ChangeParams :=
  mkChangeParams (cp_type p) (cp_affectedCount p) (cp_guests p) (cp_errorDetails p)
    (Some (setField "performanceTracked" (JBool true)
             (setField "operationId" (JStr operationId) (contextOf p))))
    (cp_other p).

(** The argument of the call to [logChange] after the work raised. *)
Definition failureEntry (operationId : string) (e : Thrown) (p : ChangeParams) : ChangeParams :=
  mkChangeParams (Some "SYSTEM") (cp_affectedCount p) (cp_guests p)
    (Some (errorMessage e))
    (Some (setField "errorType" (JStr (classify e))
             (setField "performanceTracked" (JBool true)
                (setField "operationId" (JStr operationId) (contextOf p)))))
    (cp_other p).

(** [logChangeWithPerformance], exported as [trackOperation].
    [asyncOperation] is the unit of work: it ends by returning or raising,
    and the world may have changed while it was awaited.  The [try] and
    [catch] arms log the change; the [finally] arm records the sample on
    both paths; a raised failure leaves through [throw error]. *)
Definition logChangeWithPerformance {T : Type} (r : OperationReadings)
    (operationName : string) (asyncOperation : World -> Outcome T * World)
    (changeParams : ChangeParams) (w : World) : Outcome T * World :=
  let operationId := freshId "op_" (op_id r) in
  let (result, w1) := asyncOperation w in
  let '(succeeded, errType, log2) :=
    match result with
    | Returned _ =>
        (true, None, logChange (successEntry operationId changeParams) (changeLog w1))
    | Raised error =>
        (false, Some (classify error),
         logChange (failureEntry operationId error changeParams) (changeLog w1))
    end in
  let metrics :=
    mkPerformanceMetrics operationId operationName (op_startTime r) (op_endTime r)
      (op_endTime r - op_startTime r) succeeded errType
      (affectedResources changeParams)
      (op_endMemory r - op_startMemory r) in
  let c := logger w1 in
  let c' :=
    pruneMetrics
      (mkLogger (performanceMetrics c ++ [metrics]) (userBehaviorMetrics c)
         (systemHealthMetrics c) (currentSession c) (currentClickPath c)) in
  (result, mkWorld c' log2).

(** [getRecentChanges(minutes)]; [now] is the reading of [Date.now()]. *)
Definition getRecentChanges (now : Z) (minutes : Z) (log : ChangeLog) : list ChangeLogEntry :=
  let cutoff := (now - minutes * 60 * 1000)%Z in
  filter (fun entry => (cutoff <? entry_timestamp entry)%Z) (getChangeHistory log).

(** The readings of one health snapshot: [new Date()], [Date.now()], the
    heap size in MB and [Math.random()]. *)
Record HealthReadings : Type := mkHealthReadings {
  hr_stamp : Z;
  hr_now : Z;
  hr_memory : number;
  hr_random : number
}.

(** [recordSystemHealth], run by the 30 s timer. *)
Definition recordSystemHealth (r : HealthReadings) (w : World) : World :=
  let c := logger w in
  let recentChanges := getRecentChanges (hr_now r) 1 (changeLog w) in
  let recentErrors :=
    filter (fun ch => String.eqb (action_type ch) "SYSTEM") recentChanges in
  let metrics :=
    mkSystemHealthMetrics (hr_stamp r) (hr_memory r) 1 (len recentChanges)
      (if (0 <? length recentChanges)%nat
       then (len recentErrors / len recentChanges) * 100
       else 0)
      (getAverageResponseTime c)
      1
      (hr_random r * 100) in
  mkWorld
    (pruneMetrics
       (mkLogger (performanceMetrics c) (userBehaviorMetrics c)
          (systemHealthMetrics c ++ [metrics]) (currentSession c) (currentClickPath c)))
    (changeLog w).

End Collector.

(** ** The health analytics derived from the snapshots *)

(** [array[array.length - 1]]: [undefined] on the empty array. *)
Definition lastOf {A : Type} (l : list A) : option A :=
  match l with
  | [] => None
  | _ => nth_error l (length l - 1)
  end.

Inductive AlertType : Type := alert_warning | alert_critical.

Record Alert : Type := mkAlert { alert_type : AlertType; message : string }.

Definition generateHealthAlerts (c : AdvancedChangeLogger) : list Alert :=
  match lastOf (systemHealthMetrics c) with
  | Some current =>
      (if errorRate current >? 10
       then [mkAlert alert_critical
               ("High error rate: " ++ toFixed 1 (errorRate current) ++ "%")%string]
       else if errorRate current >? 5
       then [mkAlert alert_warning
               ("Elevated error rate: " ++ toFixed 1 (errorRate current) ++ "%")%string]
       else [])
      ++
      (if averageResponseTime current >? 1000
       then [mkAlert alert_critical
               ("Slow response time: " ++ toFixed 0 (averageResponseTime current) ++ "ms")%string]
       else if averageResponseTime current >? 500
       then [mkAlert alert_warning
               ("Elevated response time: " ++ toFixed 0 (averageResponseTime current)
                ++ "ms")%string]
       else [])
      ++
      (if memoryUsage current >? 100
       then [mkAlert alert_warning
               ("High memory usage: " ++ toFixed 1 (memoryUsage current) ++ "MB")%string]
       else [])
  | None => []
  end.

(** An element of [getResourceUsageTrends()]. *)
Record ResourceUsage : Type := mkResourceUsage {
  ru_timestamp : Z;
  ru_memoryUsage : number;
  ru_operationsPerMinute : number;
  ru_errorRate : number;
  ru_responseTime : number
}.

Definition getResourceUsageTrends (c : AdvancedChangeLogger) : list ResourceUsage :=
  map (fun metric =>
         mkResourceUsage (timestamp metric) (memoryUsage metric)
           (operationsPerMinute metric) (errorRate metric) (averageResponseTime metric))
    (sliceLast 24 (systemHealthMetrics c)).

Definition calculatePerformanceScore (c : AdvancedChangeLogger) : number :=
  match lastOf (systemHealthMetrics c) with
  | None => 100
  | Some current =>
      let score := 100 in
      let score := score - errorRate current * 2 in
      let score :=
        if averageResponseTime current >? 500
        then score - (averageResponseTime current - 500) / 10
        else score in
      let score :=
        if memoryUsage current >? 50
        then score - (memoryUsage current - 50) / 2
        else score in
      Qmax 0 (Qmin 100 score)
  end.

(** The formula of the performance score as the specification words it. *)
Definition performance_score_reference (current : SystemHealthMetrics) : number :=
  Qmax 0
    (Qmin 100
       (100 - 2 * errorRate current
        - Qmax 0 ((averageResponseTime current - 500) / 10)
        - Qmax 0 ((memoryUsage current - 50) / 2))).

(** The object returned by [getSystemHealthAnalytics()]. *)
Record HealthAnalytics : Type := mkHealthAnalytics {
  currentHealth : option SystemHealthMetrics;
  healthTrends : list SystemHealthMetrics;
  alerts : list Alert;
  resourceUsage : list ResourceUsage;
  performanceScore : number
}.

Definition getSystemHealthAnalytics (c : AdvancedChangeLogger) : HealthAnalytics :=
  let health := systemHealthMetrics c in
  mkHealthAnalytics (lastOf health) (sliceLast 24 health) (generateHealthAlerts c)
    (getResourceUsageTrends c) (calculatePerformanceScore c).

(** ** The analytics the engine reads about operations and interactions *)

Record ErrorPattern : Type := mkErrorPattern { pattern : string; ep_count : Z }.

Record OperationFrequency : Type := mkOperationFrequency {
  of_operation : string;
  of_count : Z
}.

Record PerformanceTrend : Type := mkPerformanceTrend {
  hour : string;
  pt_averageDuration : number;
  operationCount : Z;
  pt_errorRate : number
}.

(** The object returned by [getPerformanceAnalytics()], without
    [slowestOperations], which the engine does not read. *)
Record PerformanceAnalytics : Type := mkPerformanceAnalytics {
  totalOperations : Z;
  successRate : number;
  averageDuration : number;
  errorPatterns : list ErrorPattern;
  operationFrequency : list OperationFrequency;
  performanceTrends : list PerformanceTrend
}.

Record ErrorPronePath : Type := mkErrorPronePath { path : string; path_count : Z }.

Record PeakUsage : Type := mkPeakUsage { peak_hour : Z; peak_count : Z }.

(** Of the object returned by [getUserBehaviorAnalytics()], the fields the
    modelled rules and the dashboard read. *)
Record BehaviorAnalytics : Type := mkBehaviorAnalytics {
  errorPronePaths : list ErrorPronePath;
  peakUsageTimes : list PeakUsage
}.

(** [item[field]] for the element types handed to [calculateTrendStatus]:
    the numeric fields of the element; [None] is [undefined]. *)
Class Indexed (T : Type) : Type := getField : string -> T -> option number.

#[export] Instance Indexed_PerformanceTrend : Indexed PerformanceTrend :=
  fun field t =>
    if String.eqb field "averageDuration" then Some (pt_averageDuration t)
    else if String.eqb field "operationCount" then Some (inject_Z (operationCount t))
    else if String.eqb field "errorRate" then Some (pt_errorRate t)
    else None.

#[export] Instance Indexed_OperationFrequency : Indexed OperationFrequency :=
  fun field o =>
    if String.eqb field "count" then Some (inject_Z (of_count o)) else None.

#[export] Instance Indexed_ErrorPronePath : Indexed ErrorPronePath :=
  fun field p =>
    if String.eqb field "count" then Some (inject_Z (path_count p)) else None.

(** Any array of numeric objects. *)
#[export] Instance Indexed_JsObject : Indexed JsObject := getNum.

Definition calculateTrendStatus {T : Type} `{Indexed T} (data : option (list T))
    (field : string) (higherIsBetter : bool) : TrendStatus :=
  match data with
  | None => stable
  | Some items =>
      if (length items <? 3)%nat then stable
      else
        let recent := sliceLast 3 items in
        let trend :=
          calculateTrendDirection (map (fun item => orZero (getField field item)) recent) in
        if trend >? 10 then (if higherIsBetter then improving else declining)
        else if trend <? -10 then (if higherIsBetter then declining else improving)
        else stable
  end.

(** ** The anomaly rules *)

(** [array.reduce((sum, x) => sum + f(x), 0)] on integer counts. *)
Definition sumCounts {A : Type} (f : A -> Z) (l : list A) : Z :=
  fold_left (fun sum x => (sum + f x)%Z) l 0%Z.

(** Each call site of [addAnomaly] takes its own readings: [clock k] are
    the readings at the [k]-th call site of the pass, in source order. *)
Definition Clock := nat -> Readings.

(** The three detection functions are sequences of independent [if] blocks,
    each ending in one call of [addAnomaly].  A block is written here as the
    object literal it passes ([...Data]) and the guarded call ([...Rule]);
    the detection function composes its blocks in source order. *)

(** *** detectPerformanceAnomalies *)

Definition performanceSpikeData (averageDuration : number) : Anomaly.Data :=
  Anomaly.mkData performance_spike
    (if averageDuration >? 5000 then critical else high)
    95
    "Performance Degradation Detected"
    ("Average operation duration has increased to "
     ++ toFixed 2 (averageDuration / 1000) ++ "s")%string
    ["response_time"; "user_experience"]
    [("averageDuration", JNum 800)]
    [("averageDuration", JNum averageDuration)]
    (((averageDuration - 800) / 800) * 100)
    ["Check system resources"; "Analyze slow operations";
     "Consider scaling infrastructure"; "Review recent changes"].

(** // Detect performance spikes *)
Definition performanceSpikeRule (clock : Clock) (p : PerformanceAnalytics)
    (e : AIAnalyticsEngine) : AIAnalyticsEngine :=
  if averageDuration p >? 2000
  then addAnomaly (clock 0%nat) (performanceSpikeData (averageDuration p)) e
  else e.

Definition errorBurstData (totalErrors : Z) (patterns : nat) : Anomaly.Data :=
  Anomaly.mkData error_burst
    (if (50 <? totalErrors)%Z then critical else high)
    90
    "Error Rate Spike Detected"
    ("Detected " ++ showZ totalErrors ++ " errors across "
     ++ showZ (Z.of_nat patterns) ++ " different patterns")%string
    ["error_rate"; "system_stability"]
    [("errorCount", JNum 2)]
    [("errorCount", JNum (inject_Z totalErrors))]
    (((inject_Z totalErrors - 2) / 2) * 100)
    ["Investigate error patterns"; "Check system logs";
     "Review recent deployments"; "Monitor affected operations"].

(** // Detect error bursts *)
Definition errorBurstRule (clock : Clock) (p : PerformanceAnalytics)
    (e : AIAnalyticsEngine) : AIAnalyticsEngine :=
  if (0 <? length (errorPatterns p))%nat
  then
    let totalErrors := sumCounts ep_count (errorPatterns p) in
    if (10 <? totalErrors)%Z
    then addAnomaly (clock 1%nat) (errorBurstData totalErrors (length (errorPatterns p))) e
    else e
  else e.

Definition performanceTrendData (trendDirection : number) : Anomaly.Data :=
  Anomaly.mkData unusual_pattern medium 80
    "Performance Degradation Trend"
    "System performance has been consistently degrading over recent periods"
    ["performance_trend"]
    [("trend", JNum 0)]
    [("trend", JNum trendDirection)]
    trendDirection
    ["Analyze performance bottlenecks"; "Review system capacity";
     "Check for memory leaks"; "Monitor resource usage"].

(** // Analyze performance trends *)
Definition performanceTrendRule (clock : Clock) (p : PerformanceAnalytics)
    (e : AIAnalyticsEngine) : AIAnalyticsEngine :=
  if (5 <? length (performanceTrends p))%nat
  then
    let recentTrends := sliceLast 5 (performanceTrends p) in
    let trendDirection := calculateTrendDirection (map pt_averageDuration recentTrends) in
    if trendDirection >? 50
    then addAnomaly (clock 2%nat) (performanceTrendData trendDirection) e
    else e
  else e.

Definition detectPerformanceAnomalies (clock : Clock)
    (performanceData : option PerformanceAnalytics) (e : AIAnalyticsEngine)
    : AIAnalyticsEngine :=
  match performanceData with
  | None => e
  | Some p =>
      let e := performanceSpikeRule clock p e in
      let e := errorBurstRule clock p e in
      performanceTrendRule clock p e
  end.

(** *** detectBehaviorAnomalies *)

Definition errorPathsData (paths : nat) : Anomaly.Data :=
  Anomaly.mkData user_behavior_anomaly medium 85
    "Multiple Error-Prone User Paths Detected"
    ("Users are encountering errors in " ++ showZ (Z.of_nat paths)
     ++ " different interaction patterns")%string
    ["user_experience"; "error_rate"]
    [("errorPaths", JNum 1)]
    [("errorPaths", JNum (ofNat paths))]
    (((ofNat paths - 1) / 1) * 100)
    ["Review UI/UX design"; "Analyze user interaction flows";
     "Improve error handling"; "Add user guidance"].

(** // Detect unusual error patterns *)
Definition errorPathsRule (clock : Clock) (b : BehaviorAnalytics)
    (e : AIAnalyticsEngine) : AIAnalyticsEngine :=
  if (3 <? length (errorPronePaths b))%nat
  then addAnomaly (clock 3%nat) (errorPathsData (length (errorPronePaths b))) e
  else e.

Definition unusualPeaksData (offHoursUsage : Z) : Anomaly.Data :=
  Anomaly.mkData unusual_pattern low 70
    "Unusual Peak Usage Times"
    "Detected significant activity during typically low-usage hours"
    ["usage_pattern"]
    [("offHoursUsage", JNum 5)]
    [("offHoursUsage", JNum (inject_Z offHoursUsage))]
    200
    ["Investigate off-hours activity"; "Check for automated processes";
     "Review user access patterns"; "Consider timezone differences"].

(** // Detect unusual usage patterns *)
Definition unusualPeaksRule (clock : Clock) (b : BehaviorAnalytics)
    (e : AIAnalyticsEngine) : AIAnalyticsEngine :=
  if (0 <? length (peakUsageTimes b))%nat
  then
    let unusualPeaks :=
      filter (fun peak => (peak_hour peak <? 6)%Z || (22 <? peak_hour peak)%Z)
        (peakUsageTimes b) in
    if (0 <? length unusualPeaks)%nat
    then addAnomaly (clock 4%nat) (unusualPeaksData (sumCounts peak_count unusualPeaks)) e
    else e
  else e.

Definition detectBehaviorAnomalies (clock : Clock)
    (behaviorData : option BehaviorAnalytics) (e : AIAnalyticsEngine) : AIAnalyticsEngine :=
  match behaviorData with
  | None => e
  | Some b =>
      let e := errorPathsRule clock b e in
      unusualPeaksRule clock b e
  end.

(** *** detectSystemHealthAnomalies *)

Definition highMemoryData (memoryUsage : number) : Anomaly.Data :=
  Anomaly.mkData capacity_issue
    (if memoryUsage >? 95 then critical else high)
    95
    "High Memory Usage Detected"
    ("Memory usage at " ++ toFixed 1 memoryUsage ++ "MB")%string
    ["memory_usage"; "system_performance"]
    [("memoryUsage", JNum 50)]
    [("memoryUsage", JNum memoryUsage)]
    (((memoryUsage - 50) / 50) * 100)
    ["Clear memory caches"; "Restart services if needed";
     "Check for memory leaks"; "Scale resources"].

(** // Detect capacity issues *)
Definition highMemoryRule (clock : Clock) (currentHealth : SystemHealthMetrics)
    (e : AIAnalyticsEngine) : AIAnalyticsEngine :=
  if memoryUsage currentHealth >? 80
  then addAnomaly (clock 5%nat) (highMemoryData (memoryUsage currentHealth)) e
  else e.

Definition errorRateData (errorRate : number) : Anomaly.Data :=
  Anomaly.mkData error_burst
    (if errorRate >? 15 then critical else high)
    90
    "Elevated System Error Rate"
    ("Error rate at " ++ toFixed 1 errorRate ++ "%")%string
    ["error_rate"; "system_reliability"]
    [("errorRate", JNum 1)]
    [("errorRate", JNum errorRate)]
    (((errorRate - 1) / 1) * 100)
    ["Investigate error sources"; "Check system logs";
     "Review recent changes"; "Monitor critical services"].

(** // Detect high error rates *)
Definition errorRateRule (clock : Clock) (currentHealth : SystemHealthMetrics)
    (e : AIAnalyticsEngine) : AIAnalyticsEngine :=
  if errorRate currentHealth >? 5
  then addAnomaly (clock 6%nat) (errorRateData (errorRate currentHealth)) e
  else e.

Definition memoryTrendData (memoryTrend : number) : Anomaly.Data :=
  Anomaly.mkData capacity_issue medium 75
    "Memory Usage Trending Upward"
    "Memory usage has been consistently increasing"
    ["memory_trend"]
    [("memoryTrend", JNum 0)]
    [("memoryTrend", JNum memoryTrend)]
    memoryTrend
    ["Monitor memory usage closely"; "Check for memory leaks";
     "Plan capacity scaling"; "Optimize memory usage"].

(** // Analyze resource usage trends *)
Definition memoryTrendRule (clock : Clock) (resourceUsage : list ResourceUsage)
    (e : AIAnalyticsEngine) : AIAnalyticsEngine :=
  if (5 <? length resourceUsage)%nat
  then
    let memoryTrend :=
      calculateTrendDirection (map ru_memoryUsage (sliceLast 5 resourceUsage)) in
    if memoryTrend >? 30
    then addAnomaly (clock 7%nat) (memoryTrendData memoryTrend) e
    else e
  else e.

Definition detectSystemHealthAnomalies (clock : Clock)
    (healthData : option HealthAnalytics) (e : AIAnalyticsEngine) : AIAnalyticsEngine :=
  match healthData with
  | None => e
  | Some h =>
      match currentHealth h with
      | None => e
      | Some currentHealth =>
          let e := highMemoryRule clock currentHealth e in
          let e := errorRateRule clock currentHealth e in
          memoryTrendRule clock (resourceUsage h) e
      end
  end.

(** The anomaly-detection pass, run by the 60 s timer.  The three analytics
    objects are what the imported getters return when the pass starts;
    [now] is the reading of [Date.now()] in the clean-up. *)
Definition runAnomalyDetection (clock : Clock) (now : Z)
    (performanceData : option PerformanceAnalytics)
    (behaviorData : option BehaviorAnalytics)
    (healthData : option HealthAnalytics)
    (e : AIAnalyticsEngine) : AIAnalyticsEngine :=
  let e := detectPerformanceAnomalies clock performanceData e in
  let e := detectBehaviorAnomalies clock behaviorData e in
  let e := detectSystemHealthAnomalies clock healthData e in
  cleanupOldAnomalies now e.

(** ** The dashboard *)

Definition calculateSystemScore (performanceData : option PerformanceAnalytics)
    (behaviorData : option BehaviorAnalytics) (healthData : option HealthAnalytics) : number :=
  let score := 100 in
  let score :=
    match performanceData with
    | Some p =>
        let score := if averageDuration p >? 1000 then score - 20 else score in
        let score := if successRate p <? 95 then score - 15 else score in
        if (3 <? length (errorPatterns p))%nat then score - 10 else score
    | None => score
    end in
  let score :=
    match behaviorData with
    | Some b => if (2 <? length (errorPronePaths b))%nat then score - 15 else score
    | None => score
    end in
  let score :=
    match healthData with
    | Some h =>
        match currentHealth h with
        | Some current =>
            let score := if errorRate current >? 5 then score - 20 else score in
            if memoryUsage current >? 80 then score - 10 else score
        | None => score
        end
    | None => score
    end in
  Qmax 0 score.

(** [[...array].sort((a, b) => key(b) - key(a))]: a stable sort, larger keys
    first. *)
Fixpoint insertByKey {A : Type} (key : A -> Z) (x : A) (sorted : list A) : list A :=
  match sorted with
  | [] => [x]
  | y :: rest =>
      if (key y <? key x)%Z then x :: y :: rest else y :: insertByKey key x rest
  end.

Definition sortNewestFirst {A : Type} (key : A -> Z) (l : list A) : list A :=
  fold_left (fun sorted x => insertByKey key x sorted) l [].

Record TrendAnalysis : Type := mkTrendAnalysis {
  trend_performance : TrendStatus;
  trend_efficiency : TrendStatus;
  trend_userSatisfaction : TrendStatus;
  trend_systemHealth : TrendStatus
}.

Record ModelAccuracy : Type := mkModelAccuracy {
  performancePrediction : number;
  anomalyDetection : number;
  userBehaviorPrediction : number;
  systemHealthPrediction : number
}.

Definition modelAccuracy : ModelAccuracy := mkModelAccuracy 85 92 78 88.

(** interface AIInsightsDashboard, without [predictedMetrics]: its
    extrapolations divide by the length of a possibly empty array. *)
Record AIInsightsDashboard : Type := mkDashboard {
  dash_insights : list Insight.PredictiveInsight;
  dash_anomalies : list Anomaly.AnomalyDetection;
  dash_recommendations : list Recommendation.SmartRecommendation;
  systemScore : number;
  trendAnalysis : TrendAnalysis;
  mlModelAccuracy : ModelAccuracy
}.

(** [getDashboard()]; the three analytics objects are what the imported
    getters return. *)
Definition getDashboard (performanceData : option PerformanceAnalytics)
    (behaviorData : option BehaviorAnalytics) (healthData : option HealthAnalytics)
    (e : AIAnalyticsEngine) : AIInsightsDashboard :=
  mkDashboard
    (sortNewestFirst Insight.createdAt (insights e))
    (sortNewestFirst Anomaly.detectedAt (anomalies e))
    (sortNewestFirst Recommendation.createdAt (recommendations e))
    (calculateSystemScore performanceData behaviorData healthData)
    (mkTrendAnalysis
       (calculateTrendStatus (option_map performanceTrends performanceData)
          "averageDuration" false)
       (calculateTrendStatus (option_map operationFrequency performanceData) "count" true)
       (calculateTrendStatus (option_map errorPronePaths behaviorData) "length" false)
       (match healthData with
        | Some h => if performanceScore h >? 80 then improving else declining
        | None => declining
        end))
    modelAccuracy.

(** ** Reachable states *)

(** The mutations of the three collections.  Every rule pass is a sequence
    of [add...] calls followed by a clean-up; the two public mutators are
    [resolveAnomaly] and [markRecommendationImplemented]. *)
Inductive EngineOp : Type :=
| OpAddAnomaly (r : Readings) (d : Anomaly.Data)
| OpAddInsight (r : Readings) (d : Insight.Data)
| OpAddRecommendation (r : Readings) (d : Recommendation.Data)
| OpCleanupAnomalies (now : Z)
| OpCleanupInsights (now : Z)
| OpCleanupRecommendations (now : Z)
| OpResolveAnomaly (now : Z) (anomalyId : string)
| OpMarkImplemented (now : Z) (recommendationId : string) (actualImpact : option JsObject).

Definition engineStep (op : EngineOp) (e : AIAnalyticsEngine) : AIAnalyticsEngine :=
  match op with
  | OpAddAnomaly r d => addAnomaly r d e
  | OpAddInsight r d => addInsight r d e
  | OpAddRecommendation r d => addRecommendation r d e
  | OpCleanupAnomalies now => cleanupOldAnomalies now e
  | OpCleanupInsights now => cleanupOldInsights now e
  | OpCleanupRecommendations now => cleanupOldRecommendations now e
  | OpResolveAnomaly now anomalyId => resolveAnomaly now anomalyId e
  | OpMarkImplemented now recommendationId actualImpact =>
      markRecommendationImplemented now recommendationId actualImpact e
  end.

(** The engine states reachable from [new AIAnalyticsEngine()]. *)
Inductive reachable : AIAnalyticsEngine -> Prop :=
| reachable_new : reachable newEngine
| reachable_step : forall op e, reachable e -> reachable (engineStep op e).

(** The retention caps. *)
Definition engineCapped (e : AIAnalyticsEngine) : Prop :=
  (length (insights e) <= 50)%nat
  /\ (length (anomalies e) <= 100)%nat
  /\ (length (recommendations e) <= 30)%nat.

Definition loggerCapped (c : AdvancedChangeLogger) : Prop :=
  (length (performanceMetrics c) <= 1000)%nat
  /\ (length (userBehaviorMetrics c) <= 1000)%nat
  /\ (length (systemHealthMetrics c) <= 1000)%nat.

(** [kept] is [l] with its oldest entries dropped, and only as many of them
    as needed to come down to [cap] entries. *)
Definition dropsOldest {A : Type} (cap : nat) (l kept : list A) : Prop :=
  exists dropped,
    l = dropped ++ kept /\ length dropped = (length l - cap)%nat.

Section CollectorSteps.

Context `{CL : ChangeLogger}.

(** The operations on the collector and its change log.  A tracked
    operation appears where it completes: what ran while its work was
    awaited are the steps before it. *)
Inductive CollectorOp : Type :=
| OpClick (elementInfo : string)
| OpTrackUserBehavior (b : BrowserReadings) (act : string) (context : BehaviorContext)
| OpRecordSystemHealth (r : HealthReadings)
| OpLogChange (p : ChangeParams)
| OpTrackOperation {T : Type} (r : OperationReadings) (operationName : string)
    (result : Outcome T) (changeParams : ChangeParams).

Definition collectorStep (op : CollectorOp) (w : World) : World :=
  match op with
  | OpClick elementInfo => mkWorld (onClick elementInfo (logger w)) (changeLog w)
  | OpTrackUserBehavior b act context =>
      mkWorld (trackUserBehavior b act context (logger w)) (changeLog w)
  | OpRecordSystemHealth r => recordSystemHealth r w
  | OpLogChange p => mkWorld (logger w) (logChange p (changeLog w))
  | OpTrackOperation r operationName result changeParams =>
      snd (logChangeWithPerformance r operationName (fun w0 => (result, w0))
             changeParams w)
  end.

(** The worlds reachable from a fresh collector. *)
Inductive worldReachable : World -> Prop :=
| worldReachable_new : forall r log, worldReachable (mkWorld (newLogger r) log)
| worldReachable_step : forall op w, worldReachable w -> worldReachable (collectorStep op w).

End CollectorSteps.

(** Modelled from the spec: a change log as section 4.1 describes it, the
    entries newest first and truncated to the most recent 1000, for running
    the collector on concrete inputs.  The entry takes its action type from
    the [type] of the logged change and its stamp from the log's clock. *)
Record SpecChangeLog : Type := mkSpecChangeLog {
  log_clock : Z;
  log_entries : list ChangeLogEntry
}.

Definition specLogChange (p : ChangeParams) (l : SpecChangeLog) : SpecChangeLog :=
  let entry :=
    mkChangeLogEntry (log_clock l)
      (match cp_type p with Some t => t | None => "" end) in
  mkSpecChangeLog (log_clock l) (firstn 1000 (entry :: log_entries l)).

Definition specChangeLogger : ChangeLogger :=
  {| ChangeLog := SpecChangeLog;
     logChange := specLogChange;
     getChangeHistory := log_entries |}.

(** ** Notions used in the statements *)

(** An anomaly of the given type and title, resolved or not. *)
Definition sameKind (ty : AnomalyType) (ti : string) (a : Anomaly.AnomalyDetection) : bool :=
  AnomalyType_beq (Anomaly.type a) ty && String.eqb (Anomaly.title a) ti.

(** The number of elements of a collection that satisfy a test. *)
Definition countWhere {A : Type} (p : A -> bool) (l : list A) : nat :=
  length (filter p l).

(** A series that never rises: constant, decreasing, or a mix of both. *)
Fixpoint non_increasing (values : list number) : Prop :=
  match values with
  | x :: (y :: _) as rest => y <= x /\ non_increasing rest
  | _ => True
  end.

(** The qualitative label as the specification words it: over the three most
    recent samples, a rising trend reads "improving" where higher is better
    and "declining" where lower is better, and anything else reads
    "stable". *)
Definition trend_label_reference (higherIsBetter : bool) (samples : list number)
    : TrendStatus :=
  if (length samples <? 3)%nat then stable
  else if trend_direction_reference (sliceLast 3 samples) >? 10
       then (if higherIsBetter then improving else declining)
       else stable.

(** The type and title a rule gives its anomaly: the key of the dedup. *)
Definition dataKey (d : Anomaly.Data) : AnomalyType * string :=
  (Anomaly.d_type d, Anomaly.d_title d).

(** [firings keys n e e']: [e'] is [e] after at most [n] calls of
    [addAnomaly], each with data whose key is among [keys]. *)
Inductive firings (keys : list (AnomalyType * string))
    : nat -> AIAnalyticsEngine -> AIAnalyticsEngine -> Prop :=
| firings_none : forall e, firings keys 0 e e
| firings_skip : forall n e e', firings keys n e e' -> firings keys (S n) e e'
| firings_add : forall n e e' r d,
    firings keys n e e' -> In (dataKey d) keys ->
    firings keys (S n) e (addAnomaly r d e').

(** The keys of the rules that follow the performance-spike rule in a pass,
    and of those that precede the memory-trend rule. *)
Definition keysAfterSpike : list (AnomalyType * string) :=
  [(error_burst, "Error Rate Spike Detected");
   (unusual_pattern, "Performance Degradation Trend");
   (user_behavior_anomaly, "Multiple Error-Prone User Paths Detected");
   (unusual_pattern, "Unusual Peak Usage Times");
   (capacity_issue, "High Memory Usage Detected");
   (error_burst, "Elevated System Error Rate");
   (capacity_issue, "Memory Usage Trending Upward")].

Definition keysBeforeMemoryTrend : list (AnomalyType * string) :=
  [(performance_spike, "Performance Degradation Detected");
   (error_burst, "Error Rate Spike Detected");
   (unusual_pattern, "Performance Degradation Trend");
   (user_behavior_anomaly, "Multiple Error-Prone User Paths Detected");
   (unusual_pattern, "Unusual Peak Usage Times");
   (capacity_issue, "High Memory Usage Detected");
   (error_burst, "Elevated System Error Rate")].

(** [l'] holds [a] between what is left of [l] and at most [k] later
    additions, each of which satisfies [P]. *)
Definition addedBetween (P : Anomaly.AnomalyDetection -> Prop)
    (a : Anomaly.AnomalyDetection) (l : list Anomaly.AnomalyDetection) (k : nat)
    (l' : list Anomaly.AnomalyDetection) : Prop :=
  exists pre post,
    l' = pre ++ a :: post
    /\ (forall b, In b pre -> In b l)
    /\ (forall b, In b post -> P b)
    /\ (length post <= k)%nat.

(** Every element of [l'] is an element of [l] or satisfies [P]. *)
Definition fromOldOr (P : Anomaly.AnomalyDetection -> Prop)
    (l l' : list Anomaly.AnomalyDetection) : Prop :=
  forall b, In b l' -> In b l \/ P b.

(** ** Example inputs *)

Definition exampleReadings (k : nat) : Readings :=
  mkReadings (1700000000000 + Z.of_nat k) "k3x9q2m1z" (1700000000000 + Z.of_nat k)
    (1700000000000 + Z.of_nat k).

Definition exampleClock : Clock := exampleReadings.

(** An engine in which a high-memory anomaly was raised and then resolved. *)
Definition engineWithResolved : AIAnalyticsEngine :=
  engineStep (OpResolveAnomaly 1700000030000 "anomaly_1700000000005_k3x9q2m1z")
    (engineStep (OpAddAnomaly (exampleReadings 5) (highMemoryData 90)) newEngine).

(** An engine holding one unresolved high-memory anomaly. *)
Definition engineWithUnresolved : AIAnalyticsEngine :=
  engineStep (OpAddAnomaly (exampleReadings 5) (highMemoryData 90)) newEngine.

(** A performance analytics object reporting a mean duration of 2500 ms. *)
Definition slowPerformance : PerformanceAnalytics :=
  mkPerformanceAnalytics 12 100 2500 [] [] [].

(** Health snapshots as the 30 s timer records them on an idle system: the
    heap size is the only reading that varies. *)
Definition healthReading (t : Z) (memory : number) : HealthReadings :=
  mkHealthReadings t t memory (1 # 2).

Definition idleWorld : @World specChangeLogger :=
  @mkWorld specChangeLogger (newLogger (exampleReadings 0)) (mkSpecChangeLog 0 []).

Definition recordAll (readings : list HealthReadings) (w : @World specChangeLogger)
    : @World specChangeLogger :=
  fold_left (fun w r => collectorStep (OpRecordSystemHealth r) w) readings w.

(** Five snapshots with rising memory usage 50, 60, 70, 80, 90. *)
Definition fiveRisingSnapshots : @World specChangeLogger :=
  recordAll
    [healthReading 30000 50; healthReading 60000 60; healthReading 90000 70;
     healthReading 120000 80; healthReading 150000 90]
    idleWorld.

(** The same five snapshots after an earlier one. *)
Definition sixRisingSnapshots : @World specChangeLogger :=
  recordAll
    [healthReading 0 40; healthReading 30000 50; healthReading 60000 60;
     healthReading 90000 70; healthReading 120000 80; healthReading 150000 90]
    idleWorld.

(** Three snapshots of an idle system whose heap stays at 200 MB. *)
Definition flatHeavySnapshots : @World specChangeLogger :=
  recordAll
    [healthReading 30000 200; healthReading 60000 200; healthReading 90000 200]
    idleWorld.

(** The numeric metrics of a health snapshot. *)
Definition healthMetricFields : list (SystemHealthMetrics -> number) :=
  [memoryUsage; activeUsers; operationsPerMinute; errorRate; averageResponseTime;
   databaseConnections; cacheHitRate].

(** ** The firings of one anomaly-detection pass *)

(** For each [if] block of the three detection functions, the call it makes:
    the index of the call site and the data passed, or nothing when its
    guard fails.  The guards read the analytics only, never the engine. *)
Definition performanceFirings (performanceData : option PerformanceAnalytics)
    : list (nat * Anomaly.Data) :=
  match performanceData with
  | None => []
  | Some p =>
      (if averageDuration p >? 2000
       then [(0%nat, performanceSpikeData (averageDuration p))] else [])
      ++ (if (0 <? length (errorPatterns p))%nat
             && (10 <? sumCounts ep_count (errorPatterns p))%Z
          then [(1%nat, errorBurstData (sumCounts ep_count (errorPatterns p))
                          (length (errorPatterns p)))]
          else [])
      ++ (if (5 <? length (performanceTrends p))%nat
             && (calculateTrendDirection
                   (map pt_averageDuration (sliceLast 5 (performanceTrends p))) >? 50)
          then [(2%nat, performanceTrendData
                          (calculateTrendDirection
                             (map pt_averageDuration (sliceLast 5 (performanceTrends p)))))]
          else [])
  end.

Definition behaviorFirings (behaviorData : option BehaviorAnalytics)
    : list (nat * Anomaly.Data) :=
  match behaviorData with
  | None => []
  | Some b =>
      let unusualPeaks :=
        filter (fun peak => (peak_hour peak <? 6)%Z || (22 <? peak_hour peak)%Z)
          (peakUsageTimes b) in
      (if (3 <? length (errorPronePaths b))%nat
       then [(3%nat, errorPathsData (length (errorPronePaths b)))] else [])
      ++ (if (0 <? length (peakUsageTimes b))%nat && (0 <? length unusualPeaks)%nat
          then [(4%nat, unusualPeaksData (sumCounts peak_count unusualPeaks))]
          else [])
  end.

Definition healthFirings (healthData : option HealthAnalytics)
    : list (nat * Anomaly.Data) :=
  match healthData with
  | None => []
  | Some h =>
      match currentHealth h with
      | None => []
      | Some current =>
          let memoryTrend :=
            calculateTrendDirection (map ru_memoryUsage (sliceLast 5 (resourceUsage h))) in
          (if memoryUsage current >? 80
           then [(5%nat, highMemoryData (memoryUsage current))] else [])
          ++ (if errorRate current >? 5
              then [(6%nat, errorRateData (errorRate current))] else [])
          ++ (if (5 <? length (resourceUsage h))%nat && (memoryTrend >? 30)
              then [(7%nat, memoryTrendData memoryTrend)] else [])
      end
  end.

Definition passFirings (performanceData : option PerformanceAnalytics)
    (behaviorData : option BehaviorAnalytics) (healthData : option HealthAnalytics)
    : list (nat * Anomaly.Data) :=
  performanceFirings performanceData ++ behaviorFirings behaviorData
  ++ healthFirings healthData.

(** The calls of [addAnomaly] for a list of firings, in order. *)
Definition applyFirings (clock : Clock) (firingList : list (nat * Anomaly.Data))
    (e : AIAnalyticsEngine) : AIAnalyticsEngine :=
  fold_left (fun e kd => addAnomaly (clock (fst kd)) (snd kd) e) firingList e.

(** A recommendation of the given category and title, implemented or not. *)
Definition sameRecommendation (c : Category) (ti : string)
    (r : Recommendation.SmartRecommendation) : bool :=
  Category_beq (Recommendation.category r) c && String.eqb (Recommendation.title r) ti.

(** The dedup key of each of the eight call sites of [addAnomaly], by the
    index of the call site. *)
Definition siteKeys : list (AnomalyType * string) :=
  (performance_spike, "Performance Degradation Detected") :: keysAfterSpike.

Definition siteKey (k : nat) : AnomalyType * string :=
  nth k siteKeys (performance_spike, "").

(** The firings [kd] of a list come from call sites [lo .. hi-1], each with
    the key of its site, in source order. *)
Definition fromSites (lo hi : nat) (fl : list (nat * Anomaly.Data)) : Prop :=
  Forall (fun kd => (lo <= fst kd < hi)%nat /\ dataKey (snd kd) = siteKey (fst kd)) fl
  /\ StronglySorted lt (map fst fl).

(** A list is in dashboard order: every element is at least as recent as
    the elements after it. *)
Definition newestFirst {A : Type} (key : A -> Z) (l : list A) : Prop :=
  StronglySorted (fun a b => (key b <= key a)%Z) l.

(** The elements of a list stamped [k], in the order of the list. *)
Definition stampedAt {A : Type} (key : A -> Z) (k : Z) (l : list A) : list A :=
  filter (fun x => (key x =? k)%Z) l.


(** A change of type SYSTEM logged by the interface, and the world in which
    the next health snapshot sees it within its last minute. *)
Definition systemChange : ChangeParams :=
  mkChangeParams (Some "SYSTEM") None None (Some "insert failed") None [].

Definition failingWorld : @World specChangeLogger :=
  recordAll [healthReading 30000 64]
    (collectorStep (OpLogChange systemChange) idleWorld).

(** The idle world after one tracked interaction. *)
Definition exportTracked : @World specChangeLogger :=
  collectorStep
    (OpTrackUserBehavior
       (mkBrowserReadings 1700000000000
          (mkDeviceInfo "Mozilla/5.0" (mkViewport 1280 720) None))
       "data_exported" (mkBehaviorContext None None))
    idleWorld.

(** ** Plain objects used as tables *)

(** The collector counts and groups in object literals ([Record<string, V>])
    indexed by computed keys.  Such a table is modelled by its own
    properties in creation order.  Reading a key that names a member of
    [Object.prototype] would find the inherited member instead of
    [undefined]; the model is for the other keys, and the statements about
    tables say so ([plainKey]). *)
Definition objectPrototypeNames : list string :=
  ["constructor"; "hasOwnProperty"; "isPrototypeOf"; "propertyIsEnumerable";
   "toLocaleString"; "toString"; "valueOf"; "__proto__"; "__defineGetter__";
   "__defineSetter__"; "__lookupGetter__"; "__lookupSetter__"].

Definition plainKey (key : string) : Prop := ~ In key objectPrototypeNames.

Definition Table (V : Type) : Type := list (string * V).

(** [table[key] = f(table[key])]: the property keeps its place when it
    exists and is created last otherwise. *)
Fixpoint tableUpdate {V : Type} (key : string) (f : option V -> V) (t : Table V) : Table V :=
  match t with
  | [] => [(key, f None)]
  | (k, v) :: rest =>
      if String.eqb k key then (k, f (Some v)) :: rest
      else (k, v) :: tableUpdate key f rest
  end.

(** [table[key] = (table[key] || 0) + 1] *)
Definition increment (key : string) (t : Table Z) : Table Z :=
  tableUpdate key (fun v => match v with Some n => (n + 1)%Z | None => 1%Z end) t.

(** Counting the keys of a sequence, as the [forEach] loops do. *)
Definition countKeys (keys : list string) : Table Z :=
  fold_left (fun t key => increment key t) keys [].

(** The value of a decimal digit. *)
Definition digitValue (c : ascii) : option N :=
  let n := N_of_ascii c in
  if ((48 <=? n) && (n <=? 57))%N then Some (n - 48)%N else None.

Fixpoint digitsValue (s : string) (acc : N) : option N :=
  match s with
  | EmptyString => Some acc
  | String c rest =>
      match digitValue c with
      | Some d => digitsValue rest (acc * 10 + d)%N
      | None => None
      end
  end.

(** The array index a property key denotes, if any: a decimal numeral
    without leading zero, below 2^32 - 1. *)
Definition arrayIndex (key : string) : option N :=
  match key with
  | EmptyString => None
  | String c rest =>
      match digitsValue key 0 with
      | Some n =>
          if (Ascii.eqb c "0" && negb (String.eqb rest ""))%bool then None
          else if (n <? 4294967295)%N then Some n else None
      | None => None
      end
  end.

(** Insertion of an index key among index keys in ascending order. *)
Fixpoint insertIndex {V : Type} (entry : N * (string * V)) (sorted : list (N * (string * V)))
    : list (N * (string * V)) :=
  match sorted with
  | [] => [entry]
  | y :: rest =>
      if (fst entry <? fst y)%N then entry :: y :: rest
      else y :: insertIndex entry rest
  end.

(** [Object.entries(table)]: the index keys in ascending order, then the
    other keys in creation order. *)
Definition objectEntries {V : Type} (t : Table V) : list (string * V) :=
  let indexed :=
    fold_left
      (fun acc kv =>
         match arrayIndex (fst kv) with
         | Some n => insertIndex (n, kv) acc
         | None => acc
         end)
      t [] in
  map snd indexed
  ++ filter (fun kv => match arrayIndex (fst kv) with Some _ => false | None => true end) t.

(** [entries.sort(([, a], [, b]) => b - a)]: by count, largest first. *)
Definition sortByCount (entries : list (string * Z)) : list (string * Z) :=
  sortNewestFirst snd entries.

(** ** The analytics of operations (getPerformanceAnalytics) *)

Definition errorKey (m : PerformanceMetrics) : string :=
  (operation m ++ "_"
   ++ match errorType m with Some t => t | None => "undefined" end)%string.

Definition getErrorPatterns (c : AdvancedChangeLogger) : list ErrorPattern :=
  let errors := filter (fun m => negb (success m)) (performanceMetrics c) in
  let patterns := countKeys (map errorKey errors) in
  map (fun entry => mkErrorPattern (fst entry) (snd entry))
    (firstn 10 (sortByCount (objectEntries patterns))).

Definition getOperationFrequency (c : AdvancedChangeLogger) : list OperationFrequency :=
  let operations := countKeys (map operation (performanceMetrics c)) in
  map (fun entry => mkOperationFrequency (fst entry) (snd entry))
    (sortByCount (objectEntries operations)).

(** ** The analytics of interactions (getUserBehaviorAnalytics) *)

(** [haystack.includes(needle)] *)
Definition includes (needle haystack : string) : bool :=
  match index 0 needle haystack with Some _ => true | None => false end.

Definition categorizeDevice (userAgent : string) : string :=
  if includes "Mobile" userAgent then "Mobile"
  else if includes "Tablet" userAgent then "Tablet"
  else "Desktop".

Record DeviceCount : Type := mkDeviceCount { device : string; device_count : Z }.

Definition getDeviceBreakdown (c : AdvancedChangeLogger) : list DeviceCount :=
  let devices :=
    countKeys (map (fun b => categorizeDevice (userAgent (deviceInfo b)))
                 (userBehaviorMetrics c)) in
  map (fun entry => mkDeviceCount (fst entry) (snd entry)) (objectEntries devices).

Record ActionCount : Type := mkActionCount { ac_action : string; ac_count : Z }.

Definition getMostCommonActions (c : AdvancedChangeLogger) : list ActionCount :=
  let actions := countKeys (map action (userBehaviorMetrics c)) in
  map (fun entry => mkActionCount (fst entry) (snd entry))
    (firstn 10 (sortByCount (objectEntries actions))).

(** [array.join(" -> ")] *)
Fixpoint joinArrow (parts : list string) : string :=
  match parts with
  | [] => ""
  | [p] => p
  | p :: rest => (p ++ " -> " ++ joinArrow rest)%string
  end.

Definition getErrorPronePaths (c : AdvancedChangeLogger) : list ErrorPronePath :=
  let errorBehaviors := filter errorEncountered (userBehaviorMetrics c) in
  let pathPatterns :=
    countKeys (map (fun b => joinArrow (sliceLast 3 (clickPath b))) errorBehaviors) in
  map (fun entry => mkErrorPronePath (fst entry) (snd entry))
    (firstn 5 (sortByCount (objectEntries pathPatterns))).

(** The [{start, end}] object kept per session. *)
Record SessionSpan : Type := mkSessionSpan { span_start : Z; span_end : Z }.

Definition getAverageSessionDuration (c : AdvancedChangeLogger) : number :=
  let sessions :=
    fold_left
      (fun t b =>
         tableUpdate (sessionId b)
           (fun v =>
              match v with
              | None => mkSessionSpan (ub_timestamp b) (ub_timestamp b)
              | Some s => mkSessionSpan (span_start s) (Z.max (span_end s) (ub_timestamp b))
              end)
           t)
      (userBehaviorMetrics c) [] in
  let durations :=
    map (fun entry => inject_Z (span_end (snd entry) - span_start (snd entry)))
      (objectEntries sessions) in
  if (0 <? length durations)%nat then sumOf (fun d => d) durations / len durations else 0.

(** [new Set(behaviors.map((b) => b.sessionId)).size] *)
Definition totalSessionsOf (c : AdvancedChangeLogger) : nat :=
  length (nodup string_dec (map sessionId (userBehaviorMetrics c))).

(** [table[key]]: the value of an own property. *)
Fixpoint tableGet {V : Type} (key : string) (t : Table V) : option V :=
  match t with
  | [] => None
  | (k, v) :: rest => if String.eqb k key then Some v else tableGet key rest
  end.

(** How often a key occurs in a sequence. *)
Definition occurrences (keys : list string) (key : string) : Z :=
  Z.of_nat (count_occ string_dec keys key).

(** Sample collectors for running the analytics. *)
Definition sampleOperation (name : string) (ok : bool) (failure : option string)
    (ms : number) : PerformanceMetrics :=
  mkPerformanceMetrics "op_1700000000000_k3x9q2m1z" name 0 ms ms ok failure 1 0.

Definition mixedOperations : AdvancedChangeLogger :=
  mkLogger
    [sampleOperation "ASSIGN_TABLE" true None 120;
     sampleOperation "IMPORT_GUESTS" false (Some "TypeError") 900;
     sampleOperation "ASSIGN_TABLE" true None 80;
     sampleOperation "ASSIGN_TABLE" false (Some "Error") 450;
     sampleOperation "IMPORT_GUESTS" false (Some "TypeError") 700;
     sampleOperation "EXPORT_DATA" true None 150]
    [] [] "session_1700000000000_k3x9q2m1z" [].


(** The analytics object of [mixedOperations], without hourly trends. *)
Definition mixedAnalytics : PerformanceAnalytics :=
  mkPerformanceAnalytics 6 50 400 (getErrorPatterns mixedOperations)
    (getOperationFrequency mixedOperations) [].

(** The guard of [generateCapacityPlanningRecommendations]:
    [totalOperations > 1000 || totalSessions > 50]. *)
Definition capacityPlanningDue (totalOperations totalSessions : Z) : bool :=
  ((1000 <? totalOperations) || (50 <? totalSessions))%Z.


(** The idle world after four clicks, a failed save and an export. *)
Definition failedSave : @World specChangeLogger :=
  fold_left (fun w op => collectorStep op w)
    [OpClick "BUTTON#menu"; OpClick "A.cabin-link"; OpClick "INPUT#guest-name";
     OpClick "BUTTON#save";
     OpTrackUserBehavior
       (mkBrowserReadings 1700000000000
          (mkDeviceInfo "Mozilla/5.0 (iPhone) Mobile Safari" (mkViewport 390 844) None))
       "meal_saved" (mkBehaviorContext (Some 1200) (Some true));
     OpTrackUserBehavior
       (mkBrowserReadings 1700000060000
          (mkDeviceInfo "Mozilla/5.0 (iPhone) Mobile Safari" (mkViewport 390 844) None))
       "data_exported" (mkBehaviorContext None None)]
    idleWorld.


(** ** The insight rules (generatePredictiveInsights) *)

(** [Math.round(x)]: the nearest integer, the larger one on a tie. *)
Definition mathRound (x : number) : Z := Qfloor (x + (1 # 2)).

(** The analytics objects as the data points of an insight.  A time stamp
    is carried as its epoch milliseconds, as everywhere here. *)
Definition trendObject (t : PerformanceTrend) : JsObject :=
  [("hour", JStr (hour t));
   ("averageDuration", JNum (pt_averageDuration t));
   ("operationCount", JNum (inject_Z (operationCount t)));
   ("errorRate", JNum (pt_errorRate t))].

Definition peakObject (p : PeakUsage) : JsObject :=
  [("hour", JNum (inject_Z (peak_hour p))); ("count", JNum (inject_Z (peak_count p)))].

Definition pathObject (p : ErrorPronePath) : JsObject :=
  [("path", JStr (path p)); ("count", JNum (inject_Z (path_count p)))].

Definition usageObject (u : ResourceUsage) : JsObject :=
  [("timestamp", JNum (inject_Z (ru_timestamp u)));
   ("memoryUsage", JNum (ru_memoryUsage u));
   ("operationsPerMinute", JNum (ru_operationsPerMinute u));
   ("errorRate", JNum (ru_errorRate u));
   ("responseTime", JNum (ru_responseTime u))].

(** *** generatePerformancePredictions *)

Definition performanceDegradationData (averageDuration trend : number)
    (performanceTrends : list PerformanceTrend) : Insight.Data :=
  Insight.mkData insight_performance medium 82
    "Performance Degradation Predicted"
    "Based on current trends, system performance may degrade significantly in the next 2-4 hours"
    ("Average response time may increase to "
     ++ toFixed 2 ((averageDuration * (1 + trend / 100)) / 1000) ++ "s")%string
    ["Proactively scale resources"; "Optimize slow operations";
     "Clear system caches"; "Monitor critical paths"]
    "2-4 hours"
    (Insight.mkImpact (Some (-25)) None (Some (-20)) None)
    (map trendObject (sliceLast 5 performanceTrends)).

(** // Predict performance degradation *)
Definition performanceDegradationRule (clock : Clock) (p : PerformanceAnalytics)
    (e : AIAnalyticsEngine) : AIAnalyticsEngine :=
  if (3 <? length (performanceTrends p))%nat
  then
    let trend :=
      calculateTrendDirection
        (map pt_averageDuration (sliceLast 3 (performanceTrends p))) in
    if trend >? 20
    then addInsight (clock 0%nat)
           (performanceDegradationData (averageDuration p) trend (performanceTrends p)) e
    else e
  else e.

Definition increasedLoadData (totalOperations recentOperations : Z) : Insight.Data :=
  Insight.mkData insight_performance high 88
    "Increased Load Predicted"
    "System load is trending upward and may exceed capacity within 6 hours"
    ("Operation volume may reach "
     ++ showZ (mathRound (inject_Z recentOperations * (13 # 10))) ++ " ops/hour")%string
    ["Prepare additional resources"; "Enable auto-scaling";
     "Optimize database queries"; "Cache frequently accessed data"]
    "4-6 hours"
    (Insight.mkImpact (Some (-30)) None None (Some (-15)))
    [[("currentOps", JNum (inject_Z totalOperations));
      ("recentOps", JNum (inject_Z recentOperations))]].

(** The entries of the change history of the last 24 hours before
    [loadNow], the reading of [Date.now()]. *)
Definition recentOperationsOf (loadNow : Z) (changeHistory : list ChangeLogEntry) : Z :=
  Z.of_nat
    (length (filter (fun entry => (loadNow - DAY_MS <? entry_timestamp entry)%Z)
               changeHistory)).

(** // Predict capacity needs *)
Definition increasedLoadRule (clock : Clock) (loadNow : Z) (p : PerformanceAnalytics)
    (changeHistory : list ChangeLogEntry) (e : AIAnalyticsEngine) : AIAnalyticsEngine :=
  let recentOperations := recentOperationsOf loadNow changeHistory in
  if inject_Z recentOperations >? inject_Z (totalOperations p) * (3 # 2)
  then addInsight (clock 1%nat) (increasedLoadData (totalOperations p) recentOperations) e
  else e.

Definition generatePerformancePredictions (clock : Clock) (loadNow : Z)
    (performanceData : option PerformanceAnalytics) (changeHistory : list ChangeLogEntry)
    (e : AIAnalyticsEngine) : AIAnalyticsEngine :=
  match performanceData with
  | None => e
  | Some p =>
      let e := performanceDegradationRule clock p e in
      increasedLoadRule clock loadNow p changeHistory e
  end.

(** *** generateBehaviorPredictions *)

(** [peakUsageTimes.sort((a, b) => b.count - a.count)]: the array is sorted
    in place, so the caller's array is the sorted one afterwards. *)
Definition sortPeaks (peakUsageTimes : list PeakUsage) : list PeakUsage :=
  sortNewestFirst peak_count peakUsageTimes.

(** [sortedPeaks[0].hour], or noon for no peaks (a sorted array is empty
    only then). *)
Definition predictNextPeakUsage (peakUsageTimes : list PeakUsage) : Z :=
  if (length peakUsageTimes =? 0)%nat then 12
  else
    match sortPeaks peakUsageTimes with
    | top :: _ => peak_hour top
    | [] => 12
    end.

Definition peakUsageData (nextPeakHour : Z) (sortedPeaks : list PeakUsage) : Insight.Data :=
  Insight.mkData insight_behavior low 75
    "Peak Usage Period Predicted"
    ("Based on historical patterns, expect increased user activity around "
     ++ showZ nextPeakHour ++ ":00")%string
    "User activity may increase by 40-60% during peak hours"
    ["Prepare for increased load"; "Pre-warm caches";
     "Monitor system resources"; "Have support team ready"]
    "Next 4-8 hours"
    (Insight.mkImpact (Some (-10)) None (Some 5) None)
    (map peakObject sortedPeaks).

(** // Predict user behavior patterns *)
Definition peakUsageRule (clock : Clock) (b : BehaviorAnalytics) (e : AIAnalyticsEngine)
    : AIAnalyticsEngine :=
  if (0 <? length (peakUsageTimes b))%nat
  then addInsight (clock 2%nat)
         (peakUsageData (predictNextPeakUsage (peakUsageTimes b))
            (sortPeaks (peakUsageTimes b)))
         e
  else e.

Definition userErrorPatternsData (errorPronePaths : list ErrorPronePath) : Insight.Data :=
  Insight.mkData insight_behavior medium 80
    "User Error Patterns Identified"
    "Certain user interaction patterns are consistently leading to errors"
    "Error rate may increase by 15-25% if UI issues are not addressed"
    ["Improve error-prone UI elements"; "Add user guidance";
     "Implement better validation"; "Enhance error messages"]
    "Ongoing"
    (Insight.mkImpact None (Some (-15)) (Some (-30)) None)
    (map pathObject errorPronePaths).

(** // Predict error patterns *)
Definition userErrorPatternsRule (clock : Clock) (b : BehaviorAnalytics)
    (e : AIAnalyticsEngine) : AIAnalyticsEngine :=
  if (0 <? length (errorPronePaths b))%nat
  then addInsight (clock 3%nat) (userErrorPatternsData (errorPronePaths b)) e
  else e.

Definition generateBehaviorPredictions (clock : Clock)
    (behaviorData : option BehaviorAnalytics) (e : AIAnalyticsEngine) : AIAnalyticsEngine :=
  match behaviorData with
  | None => e
  | Some b =>
      let e := peakUsageRule clock b e in
      userErrorPatternsRule clock b e
  end.

(** *** generateSystemHealthPredictions *)

(** The prediction reads [currentHealth?.performanceScore], which no health
    snapshot has: [Math.max(50, undefined - 20)] is [NaN]. *)
Definition healthDegradationData (memoryTrend errorTrend : number)
    (resourceUsage : list ResourceUsage) : Insight.Data :=
  Insight.mkData insight_system
    (if (memoryTrend >? 30) || (errorTrend >? 20) then high else medium)
    85
    "System Health Degradation Predicted"
    "System health metrics are trending downward"
    "System performance score may drop to NaN within 2-3 hours"
    ["Monitor system resources closely"; "Prepare maintenance procedures";
     "Check for resource leaks"; "Plan system optimization"]
    "2-3 hours"
    (Insight.mkImpact (Some (-20)) None None (Some (-25)))
    (map usageObject (sliceLast 5 resourceUsage)).

(** // Predict system health trends *)
Definition generateSystemHealthPredictions (clock : Clock)
    (healthData : option HealthAnalytics) (e : AIAnalyticsEngine) : AIAnalyticsEngine :=
  match healthData with
  | None => e
  | Some h =>
      if (5 <? length (resourceUsage h))%nat
      then
        let memoryTrend :=
          calculateTrendDirection (map ru_memoryUsage (sliceLast 5 (resourceUsage h))) in
        let errorTrend :=
          calculateTrendDirection (map ru_errorRate (sliceLast 5 (resourceUsage h))) in
        if (memoryTrend >? 15) || (errorTrend >? 10)
        then addInsight (clock 4%nat)
               (healthDegradationData memoryTrend errorTrend (resourceUsage h)) e
        else e
      else e
  end.

(** *** generateOptimizationInsights *)

(** The score is a whole number; the template prints its digits. *)
Definition optimizationData (systemScore : number) : Insight.Data :=
  Insight.mkData insight_optimization
    (if systemScore <? 60 then high else medium)
    90
    "System Optimization Opportunities Identified"
    ("Current system efficiency score is " ++ showZ (Qfloor systemScore) ++ "/100")%string
    "Implementing recommended optimizations could improve efficiency by 20-35%"
    ["Optimize database queries"; "Implement caching strategies";
     "Improve error handling"; "Streamline user workflows"]
    "1-2 weeks"
    (Insight.mkImpact (Some 20) (Some 25) (Some 15) None)
    [[("currentScore", JNum systemScore); ("targetScore", JNum 90)]].

Definition generateOptimizationInsights (clock : Clock)
    (performanceData : option PerformanceAnalytics)
    (behaviorData : option BehaviorAnalytics) (healthData : option HealthAnalytics)
    (e : AIAnalyticsEngine) : AIAnalyticsEngine :=
  let systemScore := calculateSystemScore performanceData behaviorData healthData in
  if systemScore <? 80
  then addInsight (clock 5%nat) (optimizationData systemScore) e
  else e.

(** *** The pass *)

(** [loadNow] is the reading of [Date.now()] in the load rule, [now] the
    one of the clean-up. *)
Definition generatePredictiveInsights (clock : Clock) (loadNow now : Z)
    (changeHistory : list ChangeLogEntry)
    (performanceData : option PerformanceAnalytics)
    (behaviorData : option BehaviorAnalytics)
    (healthData : option HealthAnalytics)
    (e : AIAnalyticsEngine) : AIAnalyticsEngine :=
  let e := generatePerformancePredictions clock loadNow performanceData changeHistory e in
  let e := generateBehaviorPredictions clock behaviorData e in
  let e := generateSystemHealthPredictions clock healthData e in
  let e := generateOptimizationInsights clock performanceData behaviorData healthData e in
  cleanupOldInsights now e.

(** The type and title of an insight: the key of its dedup. *)
Definition insightKey (i : Insight.PredictiveInsight) : InsightType * string :=
  (Insight.type i, Insight.title i).

(** The keys of the six call sites of [addInsight]. *)
Definition insightKinds : list (InsightType * string) :=
  [(insight_performance, "Performance Degradation Predicted");
   (insight_performance, "Increased Load Predicted");
   (insight_behavior, "Peak Usage Period Predicted");
   (insight_behavior, "User Error Patterns Identified");
   (insight_system, "System Health Degradation Predicted");
   (insight_optimization, "System Optimization Opportunities Identified")].

(** [e'] is [e] after at most [n] calls of [addInsight] by the rules: the
    other collections are the same, an insight of [e'] is one of [e] or a
    new one of a rule, and no two insights share a key unless two of [e]
    did. *)
Definition insightsGrow (clock : Clock) (n : nat) (e e' : AIAnalyticsEngine) : Prop :=
  anomalies e' = anomalies e
  /\ recommendations e' = recommendations e
  /\ (forall i, In i (insights e') ->
      In i (insights e)
      \/ (In (insightKey i) insightKinds
          /\ exists k, (k < 6)%nat /\ Insight.id i = freshId "insight_" (clock k)
                       /\ Insight.createdAt i = stampTime (clock k)))
  /\ (length (insights e') <= length (insights e) + n)%nat
  /\ (NoDup (map insightKey (insights e)) -> NoDup (map insightKey (insights e'))).

(** An insight that carries the key of one of the six rules. *)
Definition ruleInsight (i : Insight.PredictiveInsight) : bool :=
  existsb (fun kind => similarInsight (fst kind) (snd kind) i) insightKinds.

(** Analytics with a rising hourly trend and two error-prone paths, and the
    engine after one insight pass over them. *)
Definition risingAnalytics : PerformanceAnalytics :=
  mkPerformanceAnalytics 6 50 400 (getErrorPatterns mixedOperations)
    (getOperationFrequency mixedOperations)
    [mkPerformanceTrend "2023-11-14T19:00:00.000Z" 300 4 0;
     mkPerformanceTrend "2023-11-14T20:00:00.000Z" 350 5 0;
     mkPerformanceTrend "2023-11-14T21:00:00.000Z" 320 3 0;
     mkPerformanceTrend "2023-11-14T22:00:00.000Z" 480 6 50].

Definition eveningBehavior : BehaviorAnalytics :=
  mkBehaviorAnalytics
    [mkErrorPronePath "A.cabin-link -> INPUT#guest-name -> BUTTON#save" 2]
    [mkPeakUsage 19 4; mkPeakUsage 21 9; mkPeakUsage 20 9].

Definition engineAfterInsightPass : AIAnalyticsEngine :=
  generatePredictiveInsights exampleClock 1700000000000 1700000000100 []
    (Some risingAnalytics) (Some eveningBehavior) None newEngine.

(** * Properties *)

(** ** Comparisons and slices *)

Lemma gtb_true_iff (x y : number) : (x >? y) = true <-> y < x.
Proof.
  unfold gtb. rewrite negb_true_iff. split.
  - intros H. apply Qnot_le_lt. intros Hle.
    apply Qle_bool_iff in Hle. congruence.
  - intros H. destruct (Qle_bool x y) eqn:E; [|reflexivity].
    apply Qle_bool_iff in E. exfalso. apply (Qlt_not_le _ _ H E).
Qed.

Lemma gtb_false_iff (x y : number) : (x >? y) = false <-> x <= y.
Proof.
  unfold gtb. rewrite negb_false_iff. apply Qle_bool_iff.
Qed.

Lemma sliceLast_length {A : Type} (n : nat) (l : list A) :
  length (sliceLast n l) = Nat.min n (length l).
Proof.
  unfold sliceLast. rewrite length_skipn. lia.
Qed.

Lemma sliceLast_all {A : Type} (n : nat) (l : list A) :
  (length l <= n)%nat -> sliceLast n l = l.
Proof.
  intros H. unfold sliceLast. replace (length l - n)%nat with 0%nat by lia. reflexivity.
Qed.

Lemma sliceLast_split {A : Type} (n : nat) (l : list A) :
  l = firstn (length l - n) l ++ sliceLast n l.
Proof.
  unfold sliceLast. symmetry. apply firstn_skipn.
Qed.

Lemma sliceLast_app_exact {A : Type} (older recent : list A) :
  sliceLast (length recent) (older ++ recent) = recent.
Proof.
  unfold sliceLast. rewrite length_app.
  replace (length older + length recent - length recent)%nat with (length older) by lia.
  rewrite skipn_app, skipn_all, Nat.sub_diag. reflexivity.
Qed.

Lemma sliceLast_dropsOldest {A : Type} (cap : nat) (l : list A) :
  dropsOldest cap l (sliceLast cap l).
Proof.
  exists (firstn (length l - cap) l). split.
  - apply sliceLast_split.
  - rewrite length_firstn. lia.
Qed.

Lemma lastOf_app {A : Type} (older : list A) (x : A) :
  lastOf (older ++ [x]) = Some x.
Proof.
  unfold lastOf. destruct (older ++ [x]) eqn:E.
  - destruct older; discriminate.
  - rewrite <- E. rewrite length_app. simpl.
    replace (length older + 1 - 1)%nat with (length older) by lia.
    rewrite nth_error_app2 by lia. rewrite Nat.sub_diag. reflexivity.
Qed.

(** ** The trend-direction heuristic *)

Lemma trend_loop_counts (values : list number) (indices : list nat) (acc : nat) :
  fold_left (trend_step values) indices acc
  = (acc + length (filter (is_increase values) indices))%nat.
Proof.
  revert acc. induction indices as [|i rest IH]; intros acc; simpl.
  - lia.
  - rewrite IH. unfold trend_step, is_increase.
    destruct (at_index values i >? at_index values (i - 1)); simpl; lia.
Qed.

Lemma count_loop_reference (values : list number) :
  count_loop values = consecutive_increases values.
Proof.
  unfold count_loop, consecutive_increases. rewrite trend_loop_counts. reflexivity.
Qed.

Lemma count_loop_bound (values : list number) :
  (count_loop values <= length values - 1)%nat.
Proof.
  rewrite count_loop_reference. unfold consecutive_increases.
  etransitivity; [apply filter_length_le|]. rewrite length_seq. lia.
Qed.

Lemma ofNat_nonneg (n : nat) : 0 <= ofNat n.
Proof.
  unfold ofNat. change 0 with (inject_Z 0). rewrite <- Zle_Qle. lia.
Qed.

Lemma ofNat_pos (n : nat) : (0 < n)%nat -> 0 < ofNat n.
Proof.
  intros H. unfold ofNat. change 0 with (inject_Z 0). rewrite <- Zlt_Qlt. lia.
Qed.

Lemma ofNat_le (n m : nat) : (n <= m)%nat -> ofNat n <= ofNat m.
Proof.
  intros H. unfold ofNat. rewrite <- Zle_Qle. lia.
Qed.

Lemma trend_direction_range (values : list number) :
  0 <= calculateTrendDirection values /\ calculateTrendDirection values <= 100.
Proof.
  unfold calculateTrendDirection.
  destruct (length values <? 2)%nat eqn:E.
  - split; [apply Qle_refl | discriminate].
  - apply Nat.ltb_ge in E.
    assert (Hd : 0 < ofNat (length values - 1)) by (apply ofNat_pos; lia).
    assert (Hn : 0 <= ofNat (count_loop values)) by apply ofNat_nonneg.
    assert (Hle : ofNat (count_loop values) <= ofNat (length values - 1))
      by (apply ofNat_le, count_loop_bound).
    set (n := ofNat (count_loop values)) in *.
    set (d := ofNat (length values - 1)) in *.
    assert (H0 : 0 <= n / d).
    { apply Qle_shift_div_l; [exact Hd|]. lra. }
    assert (H1 : n / d <= 1).
    { apply Qle_shift_div_r; [exact Hd|]. lra. }
    split; lra.
Qed.

(** ** The performance score *)

Lemma clamp_range (x : number) : 0 <= Qmax 0 (Qmin 100 x) /\ Qmax 0 (Qmin 100 x) <= 100.
Proof.
  split.
  - apply Q.le_max_l.
  - apply Q.max_lub; [discriminate | apply Q.le_min_l].
Qed.

Lemma penalty_max (cond : bool) (score x : number) :
  (cond = true <-> 0 < x) ->
  (if cond then score - x else score) == score - Qmax 0 x.
Proof.
  intros H. destruct cond.
  - assert (0 < x) by (apply H; reflexivity).
    rewrite Q.max_r by (apply Qlt_le_weak; assumption). reflexivity.
  - assert (x <= 0).
    { apply Qnot_lt_le. intros Hx. apply H in Hx. discriminate. }
    rewrite Q.max_l by assumption. lra.
Qed.

Lemma trend_direction_reference_eq (values : list number) :
  (2 <= length values)%nat ->
  calculateTrendDirection values == trend_direction_reference values.
Proof.
  intros H. unfold calculateTrendDirection, trend_direction_reference.
  destruct (length values <? 2)%nat eqn:E.
  - apply Nat.ltb_lt in E. lia.
  - rewrite count_loop_reference.
    assert (Hd : 0 < ofNat (length values - 1)) by (apply ofNat_pos; lia).
    field. intros Hz. rewrite Hz in Hd. apply (Qlt_irrefl 0 Hd).
Qed.

(** C6 -- Trend-direction reference definition: on a list of at least two
    samples, [calculateTrendDirection] returns 100 times the number of
    indices [i] with [v[i] > v[i-1]], divided by [n - 1], the percentage of
    consecutive increases across the window; on fewer than two samples it
    returns 0. *)
Theorem trend_direction_is_percentage_of_increases (values : list number) :
  ((2 <= length values)%nat ->
   calculateTrendDirection values
   == 100 * ofNat (length (filter (is_increase values) (seq 1 (length values - 1))))
      / ofNat (length values - 1))
  /\ ((length values < 2)%nat -> calculateTrendDirection values == 0).
Proof.
  split; intros H.
  - apply (trend_direction_reference_eq values H).
  - unfold calculateTrendDirection. apply Nat.ltb_lt in H. rewrite H. reflexivity.
Qed.

Lemma trend_direction_is_percentage_of_increases_witness :
  calculateTrendDirection [50; 60; 70; 80; 90]
  == 100 * ofNat (length (filter (is_increase [50; 60; 70; 80; 90]) (seq 1 4))) / ofNat 4
  /\ calculateTrendDirection [7] == 0.
Proof.
  split.
  - apply (proj1 (trend_direction_is_percentage_of_increases [50; 60; 70; 80; 90])).
    simpl. lia.
  - apply (proj2 (trend_direction_is_percentage_of_increases [7])).
    simpl. lia.
Defined.

(** C10 -- The trend direction of any list lies in [0, 100] and is never
    negative; so the test [trend < -10] of [calculateTrendStatus] never
    succeeds, a metric evaluated with [higherIsBetter = false] is never
    labelled "improving", and one evaluated with [higherIsBetter = true] is
    never labelled "declining". *)
Theorem trend_status_negative_branch_unreachable :
  (forall values : list number,
      0 <= calculateTrendDirection values /\ calculateTrendDirection values <= 100)
  /\ (forall values : list number, (calculateTrendDirection values <? -10) = false)
  /\ (forall (T : Type) (I : Indexed T) (data : option (list T)) (field : string),
         calculateTrendStatus data field false <> improving
         /\ calculateTrendStatus data field true <> declining).
Proof.
  assert (Hneg : forall values : list number, (calculateTrendDirection values <? -10) = false).
  { intros values. unfold ltb. apply gtb_false_iff.
    destruct (trend_direction_range values) as [H0 _]. lra. }
  split; [exact trend_direction_range|]. split; [exact Hneg|].
  intros T I data field. unfold calculateTrendStatus.
  destruct data as [items|]; [|split; discriminate].
  destruct (length items <? 3)%nat; [split; discriminate|].
  rewrite Hneg.
  destruct (calculateTrendDirection _ >? 10); split; discriminate.
Qed.

(** C8 -- Performance score formula: when at least one health snapshot
    exists, the performance score of the health analytics equals
    100 - 2 x errorRate - max(0, (averageResponseTime - 500) / 10)
    - max(0, (memoryUsage - 50) / 2), computed from the most recent
    snapshot and clamped to [0, 100]. *)
Theorem performance_score_formula (c : AdvancedChangeLogger)
    (older : list SystemHealthMetrics) (current : SystemHealthMetrics) :
  systemHealthMetrics c = older ++ [current] ->
  performanceScore (getSystemHealthAnalytics c)
  == Qmax 0
       (Qmin 100
          (100 - 2 * errorRate current
           - Qmax 0 ((averageResponseTime current - 500) / 10)
           - Qmax 0 ((memoryUsage current - 50) / 2)))
  /\ 0 <= performanceScore (getSystemHealthAnalytics c)
  /\ performanceScore (getSystemHealthAnalytics c) <= 100.
Proof.
  intros Hseries. simpl. unfold calculatePerformanceScore.
  rewrite Hseries, lastOf_app. split; [|apply clamp_range].
  apply Q.max_compat; [reflexivity|]. apply Q.min_compat; [reflexivity|].
  rewrite (penalty_max (memoryUsage current >? 50) _ ((memoryUsage current - 50) / 2)).
  2:{ rewrite gtb_true_iff. split; intros H.
      - apply Qlt_shift_div_l; lra.
      - assert (0 * 2 < (memoryUsage current - 50) / 2 * 2)
          by (apply Qmult_lt_compat_r; [reflexivity | exact H]).
        assert ((memoryUsage current - 50) / 2 * 2 == memoryUsage current - 50) by field.
        lra. }
  rewrite (penalty_max (averageResponseTime current >? 500) _
             ((averageResponseTime current - 500) / 10)).
  2:{ rewrite gtb_true_iff. split; intros H.
      - apply Qlt_shift_div_l; lra.
      - assert (0 * 10 < (averageResponseTime current - 500) / 10 * 10)
          by (apply Qmult_lt_compat_r; [reflexivity | exact H]).
        assert ((averageResponseTime current - 500) / 10 * 10
                == averageResponseTime current - 500) by field.
        lra. }
  lra.
Qed.

Lemma performance_score_formula_witness :
  performanceScore
    (getSystemHealthAnalytics
       (mkLogger [] [] [mkSystemHealthMetrics 0 90 1 12 10 700 1 40] "s" []))
  == 40.
Proof.
  destruct (performance_score_formula
              (mkLogger [] [] [mkSystemHealthMetrics 0 90 1 12 10 700 1 40] "s" [])
              [] (mkSystemHealthMetrics 0 90 1 12 10 700 1 40) eq_refl) as [H _].
  rewrite H. reflexivity.
Defined.

(** ** Adding anomalies *)

Lemma find_none_filter {A : Type} (p : A -> bool) (l : list A) :
  find p l = None <-> filter p l = [].
Proof.
  induction l as [|x rest IH]; simpl.
  - split; reflexivity.
  - destruct (p x); [split; discriminate | exact IH].
Qed.

Lemma find_some_filter {A : Type} (p : A -> bool) (l : list A) (x : A) :
  find p l = Some x -> (1 <= length (filter p l))%nat.
Proof.
  intros H. destruct (filter p l) eqn:E; [|simpl; lia].
  apply find_none_filter in E. congruence.
Qed.

Lemma filter_skipn_le {A : Type} (p : A -> bool) (k : nat) (l : list A) :
  (length (filter p (skipn k l)) <= length (filter p l))%nat.
Proof.
  rewrite <- (firstn_skipn k l) at 2. rewrite filter_app, length_app. lia.
Qed.

Lemma sliceLast_app {A : Type} (n : nat) (l recent : list A) :
  (length recent <= n)%nat ->
  sliceLast n (l ++ recent) = sliceLast (n - length recent) l ++ recent.
Proof.
  intros H. unfold sliceLast. rewrite length_app, skipn_app.
  replace (length l + length recent - n)%nat with (length l - (n - length recent))%nat by lia.
  replace (length l - (n - length recent) - length l)%nat with 0%nat by lia.
  reflexivity.
Qed.

Lemma pruneAnomalies_anomalies (e : AIAnalyticsEngine) :
  anomalies (pruneAnomalies e) = sliceLast 100 (anomalies e).
Proof.
  unfold pruneAnomalies. destruct (100 <? length (anomalies e))%nat eqn:E; simpl.
  - reflexivity.
  - apply Nat.ltb_ge in E. symmetry. apply sliceLast_all. exact E.
Qed.

Lemma pruneAnomalies_others (e : AIAnalyticsEngine) :
  insights (pruneAnomalies e) = insights e
  /\ recommendations (pruneAnomalies e) = recommendations e.
Proof.
  unfold pruneAnomalies. destruct (100 <? length (anomalies e))%nat; split; reflexivity.
Qed.

Lemma addAnomaly_found (r : Readings) (d : Anomaly.Data) (e : AIAnalyticsEngine)
    (a : Anomaly.AnomalyDetection) :
  find (similarAnomaly (Anomaly.d_type d) (Anomaly.d_title d)) (anomalies e) = Some a ->
  addAnomaly r d e = e.
Proof.
  intros H. unfold addAnomaly, find_first. simpl. rewrite H. reflexivity.
Qed.

Lemma addAnomaly_fresh (r : Readings) (d : Anomaly.Data) (e : AIAnalyticsEngine) :
  find (similarAnomaly (Anomaly.d_type d) (Anomaly.d_title d)) (anomalies e) = None ->
  anomalies (addAnomaly r d e) = sliceLast 99 (anomalies e) ++ [newAnomaly r d].
Proof.
  intros H. unfold addAnomaly, find_first. simpl. rewrite H.
  rewrite pruneAnomalies_anomalies. simpl.
  rewrite sliceLast_app by (simpl; lia). reflexivity.
Qed.

Lemma similarAnomaly_new (ty : AnomalyType) (ti : string) (r : Readings) (d : Anomaly.Data) :
  similarAnomaly ty ti (newAnomaly r d) = true ->
  Anomaly.d_type d = ty /\ Anomaly.d_title d = ti.
Proof.
  unfold similarAnomaly. simpl. rewrite andb_true_r. intros H.
  apply andb_true_iff in H. destruct H as [Hty Hti]. split.
  - apply internal_AnomalyType_dec_bl. exact Hty.
  - apply String.eqb_eq. exact Hti.
Qed.

Lemma similarAnomaly_new_own (r : Readings) (d : Anomaly.Data) :
  similarAnomaly (Anomaly.d_type d) (Anomaly.d_title d) (newAnomaly r d) = true.
Proof.
  unfold similarAnomaly. simpl. rewrite String.eqb_refl.
  rewrite (internal_AnomalyType_dec_lb _ _ eq_refl). reflexivity.
Qed.

Lemma updateFirst_length {A : Type} (p : A -> bool) (f : A -> A) (l : list A) :
  length (updateFirst p f l) = length l.
Proof.
  induction l as [|x rest IH]; simpl; [reflexivity|].
  destruct (p x); simpl; [reflexivity | now rewrite IH].
Qed.

Lemma updateFirst_absent {A : Type} (p : A -> bool) (f : A -> A) (l : list A) :
  find p l = None -> updateFirst p f l = l.
Proof.
  induction l as [|x rest IH]; simpl; [reflexivity|].
  destruct (p x); [discriminate|]. intros H. now rewrite IH.
Qed.

Lemma updateFirst_split {A : Type} (p : A -> bool) (f : A -> A)
    (before after : list A) (x : A) :
  (forall b, In b before -> p b = false) -> p x = true ->
  updateFirst p f (before ++ x :: after) = before ++ f x :: after.
Proof.
  intros Hbefore Hx. induction before as [|b rest IH]; simpl.
  - rewrite Hx. reflexivity.
  - rewrite (Hbefore b (or_introl eq_refl)). rewrite IH; [reflexivity|].
    intros b' Hb'. apply Hbefore. right. exact Hb'.
Qed.

Lemma resolved_not_similar (ty : AnomalyType) (ti : string) (now : Z)
    (a : Anomaly.AnomalyDetection) :
  similarAnomaly ty ti (markResolved now a) = false.
Proof.
  unfold similarAnomaly. simpl. apply andb_false_r.
Qed.

Lemma updateFirst_resolve_count (ty : AnomalyType) (ti : string) (now : Z)
    (p : Anomaly.AnomalyDetection -> bool) (l : list Anomaly.AnomalyDetection) :
  (countWhere (similarAnomaly ty ti) (updateFirst p (markResolved now) l)
   <= countWhere (similarAnomaly ty ti) l)%nat.
Proof.
  unfold countWhere. induction l as [|x rest IH]; simpl; [lia|].
  destruct (p x); simpl.
  - rewrite resolved_not_similar. destruct (similarAnomaly ty ti x); simpl; lia.
  - destruct (similarAnomaly ty ti x); simpl; lia.
Qed.

Lemma filter_filter_le {A : Type} (p q : A -> bool) (l : list A) :
  (length (filter p (filter q l)) <= length (filter p l))%nat.
Proof.
  induction l as [|x rest IH]; simpl; [lia|].
  destruct (q x); simpl; destruct (p x); simpl; lia.
Qed.

Lemma find_present {A : Type} (p : A -> bool) (l : list A) (x : A) :
  In x l -> p x = true -> exists y, find p l = Some y.
Proof.
  intros Hin Hp. destruct (find p l) as [y|] eqn:E.
  - exists y. reflexivity.
  - rewrite (find_none p l E x Hin) in Hp. discriminate.
Qed.

Lemma engineStep_anomalies_other (op : EngineOp) (e : AIAnalyticsEngine) :
  match op with
  | OpAddInsight _ _ | OpAddRecommendation _ _ | OpCleanupInsights _
  | OpCleanupRecommendations _ | OpMarkImplemented _ _ _ =>
      anomalies (engineStep op e) = anomalies e
  | _ => True
  end.
Proof.
  destruct op; simpl; try exact I; try reflexivity.
  - unfold addInsight. destruct (find_first _ _); [reflexivity|].
    unfold pruneInsights. simpl. destruct (50 <? _)%nat; reflexivity.
  - unfold addRecommendation. destruct (find_first _ _); [reflexivity|].
    unfold pruneRecommendations. simpl. destruct (30 <? _)%nat; reflexivity.
  - unfold markRecommendationImplemented. destruct (find_first _ _); reflexivity.
Qed.

(** In a reachable engine, at most one unresolved anomaly carries a given
    type and title. *)
Lemma reachable_unresolved_unique (e : AIAnalyticsEngine) :
  reachable e ->
  forall ty ti, (countWhere (similarAnomaly ty ti) (anomalies e) <= 1)%nat.
Proof.
  induction 1 as [|op e Hreach IH]; intros ty ti.
  - simpl. unfold countWhere. simpl. lia.
  - pose proof (engineStep_anomalies_other op e) as Hother.
    destruct op; try (rewrite Hother; apply IH).
    + (* addAnomaly *)
      simpl.
      destruct (find (similarAnomaly (Anomaly.d_type d) (Anomaly.d_title d)) (anomalies e))
        as [a|] eqn:Efind.
      * rewrite (addAnomaly_found r d e a Efind). apply IH.
      * rewrite (addAnomaly_fresh r d e Efind). unfold countWhere.
        rewrite filter_app, length_app. simpl.
        destruct (similarAnomaly ty ti (newAnomaly r d)) eqn:Enew; simpl.
        -- apply similarAnomaly_new in Enew. destruct Enew as [<- <-].
           apply find_none_filter in Efind.
           pose proof (filter_skipn_le
                         (similarAnomaly (Anomaly.d_type d) (Anomaly.d_title d))
                         (length (anomalies e) - 99) (anomalies e)) as Hle.
           unfold sliceLast. rewrite Efind in Hle. simpl in Hle. lia.
        -- pose proof (filter_skipn_le (similarAnomaly ty ti)
                         (length (anomalies e) - 99) (anomalies e)) as Hle.
           specialize (IH ty ti). unfold countWhere in IH. unfold sliceLast. lia.
    + (* cleanupOldAnomalies *)
      simpl. unfold countWhere. etransitivity; [apply filter_filter_le | apply IH].
    + (* resolveAnomaly *)
      simpl. unfold resolveAnomaly. destruct (find_first _ _); [|apply IH]. simpl.
      etransitivity; [apply updateFirst_resolve_count | apply IH].
Qed.

Lemma addAnomaly_leaves_unresolved (r : Readings) (d : Anomaly.Data) (e : AIAnalyticsEngine) :
  exists a,
    find (similarAnomaly (Anomaly.d_type d) (Anomaly.d_title d))
      (anomalies (addAnomaly r d e)) = Some a.
Proof.
  destruct (find (similarAnomaly (Anomaly.d_type d) (Anomaly.d_title d)) (anomalies e))
    as [a|] eqn:Efind.
  - exists a. rewrite (addAnomaly_found r d e a Efind). exact Efind.
  - apply (find_present _ _ (newAnomaly r d)).
    + rewrite (addAnomaly_fresh r d e Efind). apply in_or_app. right. left. reflexivity.
    + apply similarAnomaly_new_own.
Qed.

(** A firing leaves anomalies of the engine and at most the new one. *)
Lemma addAnomaly_members (r : Readings) (d : Anomaly.Data) (e : AIAnalyticsEngine)
    (a : Anomaly.AnomalyDetection) :
  In a (anomalies (addAnomaly r d e)) -> In a (anomalies e) \/ a = newAnomaly r d.
Proof.
  destruct (find (similarAnomaly (Anomaly.d_type d) (Anomaly.d_title d)) (anomalies e))
    as [found|] eqn:Efind.
  - rewrite (addAnomaly_found r d e found Efind). intros Hin. left. exact Hin.
  - rewrite (addAnomaly_fresh r d e Efind). intros Hin.
    apply in_app_or in Hin. destruct Hin as [Hold | [<- | []]].
    + left. unfold sliceLast in Hold.
      rewrite <- (firstn_skipn (length (anomalies e) - 99) (anomalies e)).
      apply in_or_app. right. exact Hold.
    + right. reflexivity.
Qed.

Lemma sameKind_new_own (r : Readings) (d : Anomaly.Data) :
  sameKind (Anomaly.d_type d) (Anomaly.d_title d) (newAnomaly r d) = true.
Proof.
  unfold sameKind. simpl. rewrite String.eqb_refl.
  rewrite (internal_AnomalyType_dec_lb _ _ eq_refl). reflexivity.
Qed.

Lemma similarAnomaly_sameKind (ty : AnomalyType) (ti : string)
    (a : Anomaly.AnomalyDetection) :
  similarAnomaly ty ti a = sameKind ty ti a && negb (Anomaly.autoResolved a).
Proof.
  reflexivity.
Qed.

(** C1 -- Anomaly dedup law: when the engine holds an unresolved anomaly of
    some type and title, a rule firing with the same type and title leaves
    the collections unchanged; and when such a rule fires twice, the second
    firing changes nothing.  Before any anomaly of that type and title is
    resolved -- the engine holds none of them, or (in a reachable engine)
    only unresolved ones -- the collection holds exactly one anomaly of that
    type and title after both firings; in every reachable engine it holds
    exactly one unresolved one. *)
Theorem anomaly_dedup_law (e : AIAnalyticsEngine) (d : Anomaly.Data) (r1 r2 : Readings) :
  ((exists a, In a (anomalies e)
              /\ Anomaly.type a = Anomaly.d_type d
              /\ Anomaly.title a = Anomaly.d_title d
              /\ Anomaly.autoResolved a = false) ->
   addAnomaly r1 d e = e)
  /\ addAnomaly r2 d (addAnomaly r1 d e) = addAnomaly r1 d e
  /\ ((forall a, In a (anomalies e) ->
                 sameKind (Anomaly.d_type d) (Anomaly.d_title d) a = false) ->
      countWhere (sameKind (Anomaly.d_type d) (Anomaly.d_title d))
        (anomalies (addAnomaly r2 d (addAnomaly r1 d e))) = 1%nat)
  /\ (reachable e ->
      (forall a, In a (anomalies e) ->
                 sameKind (Anomaly.d_type d) (Anomaly.d_title d) a = true ->
                 Anomaly.autoResolved a = false) ->
      countWhere (sameKind (Anomaly.d_type d) (Anomaly.d_title d))
        (anomalies (addAnomaly r2 d (addAnomaly r1 d e))) = 1%nat)
  /\ (reachable e ->
      countWhere (similarAnomaly (Anomaly.d_type d) (Anomaly.d_title d))
        (anomalies (addAnomaly r2 d (addAnomaly r1 d e))) = 1%nat).
Proof.
  assert (Hsame : addAnomaly r2 d (addAnomaly r1 d e) = addAnomaly r1 d e).
  { destruct (addAnomaly_leaves_unresolved r1 d e) as [a Ha].
    apply (addAnomaly_found r2 d _ a Ha). }
  assert (Hopen : reachable e ->
            countWhere (similarAnomaly (Anomaly.d_type d) (Anomaly.d_title d))
              (anomalies (addAnomaly r1 d e)) = 1%nat).
  { intros Hreach. destruct (addAnomaly_leaves_unresolved r1 d e) as [a Ha].
    pose proof (reachable_unresolved_unique _
                  (reachable_step (OpAddAnomaly r1 d) e Hreach)
                  (Anomaly.d_type d) (Anomaly.d_title d)) as Hle.
    simpl in Hle. apply find_some_filter in Ha. unfold countWhere in *. lia. }
  split; [|split; [exact Hsame | split; [|split]]].
  - intros [a [Hin [Hty [Hti Hres]]]].
    destruct (find_present (similarAnomaly (Anomaly.d_type d) (Anomaly.d_title d))
                (anomalies e) a Hin) as [b Hb].
    + unfold similarAnomaly. rewrite Hty, Hti, Hres, String.eqb_refl.
      rewrite (internal_AnomalyType_dec_lb _ _ eq_refl). reflexivity.
    + apply (addAnomaly_found r1 d e b Hb).
  - intros Hnone. rewrite Hsame.
    assert (Hfind : find (similarAnomaly (Anomaly.d_type d) (Anomaly.d_title d))
                      (anomalies e) = None).
    { destruct (find _ (anomalies e)) as [x|] eqn:E; [|reflexivity].
      apply find_some in E. destruct E as [Hin Hx].
      rewrite similarAnomaly_sameKind, (Hnone x Hin) in Hx. discriminate. }
    rewrite (addAnomaly_fresh r1 d e Hfind). unfold countWhere.
    rewrite filter_app, length_app. simpl. rewrite sameKind_new_own. simpl.
    assert (Hold : filter (sameKind (Anomaly.d_type d) (Anomaly.d_title d))
                     (sliceLast 99 (anomalies e)) = []).
    { apply (proj1 (find_none_filter _ _)).
      destruct (find _ (sliceLast 99 (anomalies e))) as [x|] eqn:E; [|reflexivity].
      apply find_some in E. destruct E as [Hin Hx].
      assert (Hin' : In x (anomalies e)).
      { rewrite <- (firstn_skipn (length (anomalies e) - 99) (anomalies e)).
        apply in_or_app. right. exact Hin. }
      rewrite (Hnone x Hin') in Hx. discriminate. }
    rewrite Hold. reflexivity.
  - intros Hreach Hunresolved. rewrite Hsame. rewrite <- (Hopen Hreach).
    unfold countWhere. f_equal. apply filter_ext_in. intros a Hin.
    rewrite similarAnomaly_sameKind.
    destruct (sameKind (Anomaly.d_type d) (Anomaly.d_title d) a) eqn:Ekind; [|reflexivity].
    destruct (addAnomaly_members r1 d e a Hin) as [Hold | ->].
    + rewrite (Hunresolved a Hold Ekind). reflexivity.
    + reflexivity.
  - intros Hreach. rewrite Hsame. exact (Hopen Hreach).
Qed.

Lemma anomaly_dedup_law_witness :
  addAnomaly (exampleReadings 8) (highMemoryData 90) engineWithUnresolved
  = engineWithUnresolved
  /\ countWhere (sameKind capacity_issue "High Memory Usage Detected")
       (anomalies
          (addAnomaly (exampleReadings 9) (highMemoryData 90)
             (addAnomaly (exampleReadings 8) (highMemoryData 90) newEngine))) = 1%nat
  /\ countWhere (sameKind capacity_issue "High Memory Usage Detected")
       (anomalies
          (addAnomaly (exampleReadings 9) (highMemoryData 90)
             (addAnomaly (exampleReadings 8) (highMemoryData 90) engineWithUnresolved)))
     = 1%nat.
Proof.
  split; [|split].
  - apply (proj1 (anomaly_dedup_law engineWithUnresolved (highMemoryData 90)
                    (exampleReadings 8) (exampleReadings 9))).
    exists (newAnomaly (exampleReadings 5) (highMemoryData 90)).
    repeat split. left. reflexivity.
  - apply (proj1 (proj2 (proj2 (anomaly_dedup_law newEngine (highMemoryData 90)
                                  (exampleReadings 8) (exampleReadings 9))))).
    intros a [].
  - apply (proj1 (proj2 (proj2 (proj2
                    (anomaly_dedup_law engineWithUnresolved (highMemoryData 90)
                       (exampleReadings 8) (exampleReadings 9)))))).
    + unfold engineWithUnresolved. apply reachable_step, reachable_new.
    + intros a [<- | []] _. reflexivity.
Defined.

(** The law stops where an anomaly of the type and title was resolved and
    is still in the collection: the dedup does not look at it, so the rule
    adds a new anomaly beside it, and two firings leave two anomalies of
    that type and title, one resolved and one not. *)
Lemma anomaly_dedup_counts_resolved :
  reachable engineWithResolved
  /\ countWhere (sameKind capacity_issue "High Memory Usage Detected")
       (anomalies
          (addAnomaly (exampleReadings 9) (highMemoryData 90)
             (addAnomaly (exampleReadings 8) (highMemoryData 90) engineWithResolved)))
     = 2%nat
  /\ countWhere (similarAnomaly capacity_issue "High Memory Usage Detected")
       (anomalies
          (addAnomaly (exampleReadings 9) (highMemoryData 90)
             (addAnomaly (exampleReadings 8) (highMemoryData 90) engineWithResolved)))
     = 1%nat.
Proof.
  split; [|split].
  - unfold engineWithResolved. apply reachable_step, reachable_step, reachable_new.
  - vm_compute. reflexivity.
  - vm_compute. reflexivity.
Qed.

(** ** Resolving anomalies *)

Lemma find_updateFirst {A : Type} (p : A -> bool) (f : A -> A) (l : list A) :
  (forall x, p (f x) = p x) ->
  find p (updateFirst p f l) = option_map f (find p l).
Proof.
  intros Hp. induction l as [|x rest IH]; simpl; [reflexivity|].
  destruct (p x) eqn:E; simpl.
  - rewrite Hp, E. reflexivity.
  - rewrite E. exact IH.
Qed.

Lemma updateFirst_twice {A : Type} (p : A -> bool) (f g : A -> A) (l : list A) :
  (forall x, p (f x) = p x) -> (forall x, g (f x) = g x) ->
  updateFirst p g (updateFirst p f l) = updateFirst p g l.
Proof.
  intros Hp Hg. induction l as [|x rest IH]; simpl; [reflexivity|].
  destruct (p x) eqn:E; simpl.
  - rewrite Hp, E, Hg. reflexivity.
  - rewrite E, IH. reflexivity.
Qed.

Lemma updateFirst_map {A B : Type} (key : A -> B) (p : A -> bool) (f : A -> A) (l : list A) :
  (forall x, key (f x) = key x) -> map key (updateFirst p f l) = map key l.
Proof.
  intros Hkey. induction l as [|x rest IH]; simpl; [reflexivity|].
  destruct (p x); simpl; [rewrite Hkey | rewrite IH]; reflexivity.
Qed.

Lemma resolveAnomaly_anomalies (now : Z) (anomalyId : string) (e : AIAnalyticsEngine) :
  anomalies (resolveAnomaly now anomalyId e)
  = updateFirst (fun a => String.eqb (Anomaly.id a) anomalyId) (markResolved now)
      (anomalies e).
Proof.
  unfold resolveAnomaly, find_first.
  destruct (find _ (anomalies e)) eqn:E; simpl; [reflexivity|].
  symmetry. apply updateFirst_absent. exact E.
Qed.

Lemma resolveAnomaly_others (now : Z) (anomalyId : string) (e : AIAnalyticsEngine) :
  insights (resolveAnomaly now anomalyId e) = insights e
  /\ recommendations (resolveAnomaly now anomalyId e) = recommendations e.
Proof.
  unfold resolveAnomaly. destruct (find_first _ _); split; reflexivity.
Qed.

Lemma engine_eq (e1 e2 : AIAnalyticsEngine) :
  insights e1 = insights e2 -> anomalies e1 = anomalies e2 ->
  recommendations e1 = recommendations e2 -> e1 = e2.
Proof.
  destruct e1, e2. simpl. intros -> -> ->. reflexivity.
Qed.

(** C3 (as amended) -- [resolveAnomaly(id)] on an id present in the
    collection sets [autoResolved] to true and [resolvedAt] to the current
    time on the first anomaly with that id and leaves every other anomaly,
    and the other two collections, unchanged; on an id not present the
    engine is unchanged.  Calling it again on the same id adds or removes no
    entry and keeps every id, but overwrites [resolvedAt] with the time of
    the later call: two calls leave what the later call alone leaves, so the
    second call changes nothing only when its time is that of the first. *)
Theorem resolveAnomaly_transition (now : Z) (anomalyId : string) (e : AIAnalyticsEngine) :
  (forall before a after,
      anomalies e = before ++ a :: after ->
      Anomaly.id a = anomalyId ->
      (forall b, In b before -> Anomaly.id b <> anomalyId) ->
      exists a',
        getAnomalies (resolveAnomaly now anomalyId e) = before ++ a' :: after
        /\ a' = markResolved now a
        /\ Anomaly.autoResolved a' = true
        /\ Anomaly.resolvedAt a' = Some now
        /\ Anomaly.id a' = Anomaly.id a
        /\ Anomaly.type a' = Anomaly.type a
        /\ Anomaly.title a' = Anomaly.title a
        /\ Anomaly.detectedAt a' = Anomaly.detectedAt a)
  /\ ((forall b, In b (anomalies e) -> Anomaly.id b <> anomalyId) ->
      resolveAnomaly now anomalyId e = e)
  /\ (insights (resolveAnomaly now anomalyId e) = insights e
      /\ recommendations (resolveAnomaly now anomalyId e) = recommendations e)
  /\ (forall later,
         resolveAnomaly later anomalyId (resolveAnomaly now anomalyId e)
         = resolveAnomaly later anomalyId e
         /\ length (anomalies (resolveAnomaly later anomalyId (resolveAnomaly now anomalyId e)))
            = length (anomalies e)
         /\ map Anomaly.id
              (anomalies (resolveAnomaly later anomalyId (resolveAnomaly now anomalyId e)))
            = map Anomaly.id (anomalies e))
  /\ resolveAnomaly now anomalyId (resolveAnomaly now anomalyId e)
     = resolveAnomaly now anomalyId e.
Proof.
  assert (Htwice : forall later,
             resolveAnomaly later anomalyId (resolveAnomaly now anomalyId e)
             = resolveAnomaly later anomalyId e).
  { intros later. apply engine_eq.
    - rewrite (proj1 (resolveAnomaly_others later anomalyId _)).
      rewrite (proj1 (resolveAnomaly_others now anomalyId e)).
      symmetry. apply resolveAnomaly_others.
    - rewrite !resolveAnomaly_anomalies. apply updateFirst_twice; reflexivity.
    - rewrite (proj2 (resolveAnomaly_others later anomalyId _)).
      rewrite (proj2 (resolveAnomaly_others now anomalyId e)).
      symmetry. apply resolveAnomaly_others. }
  split; [|split; [|split; [|split]]].
  - intros before a after Hsplit Hid Hbefore.
    exists (markResolved now a). unfold getAnomalies.
    rewrite resolveAnomaly_anomalies, Hsplit. repeat split.
    apply updateFirst_split.
    + intros b Hb. apply String.eqb_neq. apply Hbefore. exact Hb.
    + apply String.eqb_eq. exact Hid.
  - intros Habsent. unfold resolveAnomaly, find_first.
    destruct (find _ (anomalies e)) as [a|] eqn:E; [|reflexivity].
    apply find_some in E. destruct E as [Hin Heq].
    apply String.eqb_eq in Heq. exfalso. apply (Habsent a Hin Heq).
  - apply resolveAnomaly_others.
  - intros later. split; [apply Htwice|]. rewrite Htwice, resolveAnomaly_anomalies.
    split; [apply updateFirst_length | apply updateFirst_map; reflexivity].
  - apply Htwice.
Qed.

Lemma resolveAnomaly_transition_witness :
  exists a',
    getAnomalies
      (resolveAnomaly 1700000030000 "anomaly_1700000000005_k3x9q2m1z" engineWithUnresolved)
    = [] ++ a' :: []
    /\ Anomaly.autoResolved a' = true
    /\ Anomaly.resolvedAt a' = Some 1700000030000%Z.
Proof.
  destruct (proj1 (resolveAnomaly_transition 1700000030000
                     "anomaly_1700000000005_k3x9q2m1z" engineWithUnresolved)
              [] (newAnomaly (exampleReadings 5) (highMemoryData 90)) []
              eq_refl eq_refl (fun b (H : In b []) => False_ind _ H))
    as [a' [H1 [_ [H2 [H3 _]]]]].
  exists a'. split; [exact H1 | split; [exact H2 | exact H3]].
Defined.

(** C3 (as stated) fails: a second call on an already-resolved id is not a
    no-op, it moves [resolvedAt] to the time of the second call. *)
Lemma resolveAnomaly_again_moves_resolvedAt :
  map Anomaly.resolvedAt (anomalies engineWithResolved) = [Some 1700000030000%Z]
  /\ map Anomaly.resolvedAt
       (anomalies
          (resolveAnomaly 1700000090000 "anomaly_1700000000005_k3x9q2m1z" engineWithResolved))
     = [Some 1700000090000%Z]
  /\ resolveAnomaly 1700000090000 "anomaly_1700000000005_k3x9q2m1z" engineWithResolved
     <> engineWithResolved.
Proof.
  split; [|split].
  - vm_compute. reflexivity.
  - vm_compute. reflexivity.
  - intros H. apply (f_equal (fun e => map Anomaly.resolvedAt (anomalies e))) in H.
    vm_compute in H. discriminate.
Qed.

(** ** The tracked-operation wrapper *)

Lemma pruneMetrics_performance (c : AdvancedChangeLogger) :
  performanceMetrics (pruneMetrics c) = sliceLast 1000 (performanceMetrics c).
Proof.
  unfold pruneMetrics.
  destruct (1000 <? length (performanceMetrics c))%nat eqn:E1; simpl.
  - destruct (1000 <? length (userBehaviorMetrics c))%nat; simpl;
      destruct (1000 <? length (systemHealthMetrics c))%nat; reflexivity.
  - apply Nat.ltb_ge in E1.
    rewrite (sliceLast_all 1000 (performanceMetrics c) E1).
    destruct (1000 <? length (userBehaviorMetrics c))%nat; simpl;
      destruct (1000 <? length (systemHealthMetrics c))%nat; reflexivity.
Qed.

Lemma pruneMetrics_behavior (c : AdvancedChangeLogger) :
  userBehaviorMetrics (pruneMetrics c) = sliceLast 1000 (userBehaviorMetrics c).
Proof.
  unfold pruneMetrics.
  destruct (1000 <? length (performanceMetrics c))%nat; simpl;
    destruct (1000 <? length (userBehaviorMetrics c))%nat eqn:E2; simpl;
    destruct (1000 <? length (systemHealthMetrics c))%nat; simpl;
    try reflexivity;
    apply Nat.ltb_ge in E2; symmetry; apply sliceLast_all; exact E2.
Qed.

Lemma pruneMetrics_health (c : AdvancedChangeLogger) :
  systemHealthMetrics (pruneMetrics c) = sliceLast 1000 (systemHealthMetrics c).
Proof.
  unfold pruneMetrics.
  destruct (1000 <? length (performanceMetrics c))%nat; simpl;
    destruct (1000 <? length (userBehaviorMetrics c))%nat; simpl;
    destruct (1000 <? length (systemHealthMetrics c))%nat eqn:E3; simpl;
    try reflexivity;
    apply Nat.ltb_ge in E3; symmetry; apply sliceLast_all; exact E3.
Qed.

(** C4 -- The tracked-operation wrapper is a decorator: whatever the unit of
    work does, the wrapper appends exactly one performance sample after the
    samples present when the work ended (dropping only what the cap of 1000
    pushes out at the old end) and hands the work's outcome to its caller
    unchanged.  When the work returned, the sample has [success = true] and
    no error type; when it raised, the sample has [success = false] and the
    classification of the failure as its error type, and the caller receives
    that same failure. *)
Theorem tracked_operation_is_decorator {CL : ChangeLogger} {T : Type}
    (r : OperationReadings) (operationName : string)
    (asyncOperation : World -> Outcome T * World)
    (changeParams : ChangeParams) (w : World) :
  let result := fst (asyncOperation w) in
  let before := performanceMetrics (logger (snd (asyncOperation w))) in
  let after := logChangeWithPerformance r operationName asyncOperation changeParams w in
  exists sample,
    performanceMetrics (logger (snd after)) = sliceLast 999 before ++ [sample]
    /\ operation sample = operationName
    /\ fst after = result
    /\ match result with
       | Returned v =>
           success sample = true /\ errorType sample = None /\ fst after = Returned v
       | Raised failure =>
           success sample = false
           /\ errorType sample = Some (classify failure)
           /\ fst after = Raised failure
       end.
Proof.
  unfold logChangeWithPerformance.
  destruct (asyncOperation w) as [result w1]. simpl.
  destruct result as [v | failure]; simpl;
    eexists; (split; [rewrite pruneMetrics_performance; simpl;
                      rewrite sliceLast_app by (simpl; lia); reflexivity|]);
    simpl; repeat split; reflexivity.
Qed.

(** ** Rule passes as sequences of firings *)

Lemma firings_weaken (keys keys' : list (AnomalyType * string)) (n : nat)
    (e e' : AIAnalyticsEngine) :
  incl keys keys' -> firings keys n e e' -> firings keys' n e e'.
Proof.
  intros Hincl H. induction H.
  - apply firings_none.
  - apply firings_skip. assumption.
  - apply firings_add; [assumption | apply Hincl; assumption].
Qed.

Lemma firings_trans (keys : list (AnomalyType * string)) (n m : nat)
    (e e1 e2 : AIAnalyticsEngine) :
  firings keys n e e1 -> firings keys m e1 e2 -> firings keys (m + n) e e2.
Proof.
  intros H1 H2. induction H2; simpl.
  - exact H1.
  - apply firings_skip. apply IHfirings. exact H1.
  - apply firings_add; [apply IHfirings; exact H1 | assumption].
Qed.

Lemma firings_one (keys : list (AnomalyType * string)) (r : Readings) (d : Anomaly.Data)
    (e : AIAnalyticsEngine) :
  In (dataKey d) keys -> firings keys 1 e (addAnomaly r d e).
Proof.
  intros H. apply firings_add; [apply firings_none | exact H].
Qed.

Lemma firings_idle (keys : list (AnomalyType * string)) (e : AIAnalyticsEngine) :
  firings keys 1 e e.
Proof.
  apply firings_skip, firings_none.
Qed.

Ltac rule_fires :=
  first [ apply firings_idle
        | apply firings_one; unfold dataKey; simpl; tauto ].

Lemma performanceSpikeRule_firings clock p e :
  firings [(performance_spike, "Performance Degradation Detected")] 1 e
    (performanceSpikeRule clock p e).
Proof.
  unfold performanceSpikeRule. destruct (averageDuration p >? 2000); rule_fires.
Qed.

Lemma errorBurstRule_firings clock p e :
  firings [(error_burst, "Error Rate Spike Detected")] 1 e (errorBurstRule clock p e).
Proof.
  unfold errorBurstRule. destruct (0 <? length (errorPatterns p))%nat; [|rule_fires].
  cbv zeta. destruct (10 <? sumCounts ep_count (errorPatterns p))%Z; rule_fires.
Qed.

Lemma performanceTrendRule_firings clock p e :
  firings [(unusual_pattern, "Performance Degradation Trend")] 1 e
    (performanceTrendRule clock p e).
Proof.
  unfold performanceTrendRule. destruct (5 <? length (performanceTrends p))%nat; [|rule_fires].
  cbv zeta. destruct (calculateTrendDirection _ >? 50); rule_fires.
Qed.

Lemma errorPathsRule_firings clock b e :
  firings [(user_behavior_anomaly, "Multiple Error-Prone User Paths Detected")] 1 e
    (errorPathsRule clock b e).
Proof.
  unfold errorPathsRule. destruct (3 <? length (errorPronePaths b))%nat; rule_fires.
Qed.

Lemma unusualPeaksRule_firings clock b e :
  firings [(unusual_pattern, "Unusual Peak Usage Times")] 1 e (unusualPeaksRule clock b e).
Proof.
  unfold unusualPeaksRule. destruct (0 <? length (peakUsageTimes b))%nat; [|rule_fires].
  cbv zeta. destruct (0 <? length (filter _ (peakUsageTimes b)))%nat; rule_fires.
Qed.

Lemma highMemoryRule_firings clock current e :
  firings [(capacity_issue, "High Memory Usage Detected")] 1 e
    (highMemoryRule clock current e).
Proof.
  unfold highMemoryRule. destruct (memoryUsage current >? 80); rule_fires.
Qed.

Lemma errorRateRule_firings clock current e :
  firings [(error_burst, "Elevated System Error Rate")] 1 e (errorRateRule clock current e).
Proof.
  unfold errorRateRule. destruct (errorRate current >? 5); rule_fires.
Qed.

Lemma memoryTrendRule_firings clock usage e :
  firings [(capacity_issue, "Memory Usage Trending Upward")] 1 e
    (memoryTrendRule clock usage e).
Proof.
  unfold memoryTrendRule. destruct (5 <? length usage)%nat; [|rule_fires].
  cbv zeta. destruct (calculateTrendDirection _ >? 30); rule_fires.
Qed.

Lemma firings_more (keys : list (AnomalyType * string)) (n m : nat)
    (e e' : AIAnalyticsEngine) :
  (n <= m)%nat -> firings keys n e e' -> firings keys m e e'.
Proof.
  intros Hle H. induction Hle; [exact H | apply firings_skip; assumption].
Qed.

Lemma detectBehaviorAnomalies_firings keys clock behaviorData e :
  incl [(user_behavior_anomaly, "Multiple Error-Prone User Paths Detected");
        (unusual_pattern, "Unusual Peak Usage Times")] keys ->
  firings keys 2 e (detectBehaviorAnomalies clock behaviorData e).
Proof.
  intros Hincl. destruct behaviorData as [b|]; simpl.
  - apply (firings_trans keys 1 1 e (errorPathsRule clock b e)).
    + eapply firings_weaken; [|apply errorPathsRule_firings].
      intros k [<-|[]]. apply Hincl. left. reflexivity.
    + eapply firings_weaken; [|apply unusualPeaksRule_firings].
      intros k [<-|[]]. apply Hincl. right. left. reflexivity.
  - apply (firings_more keys 0); [lia | apply firings_none].
Qed.

Lemma detectPerformanceAnomalies_after_spike keys clock p e :
  incl [(error_burst, "Error Rate Spike Detected");
        (unusual_pattern, "Performance Degradation Trend")] keys ->
  firings keys 2 (performanceSpikeRule clock p e)
    (detectPerformanceAnomalies clock (Some p) e).
Proof.
  intros Hincl. simpl.
  apply (firings_trans keys 1 1 _ (errorBurstRule clock p (performanceSpikeRule clock p e))).
  - eapply firings_weaken; [|apply errorBurstRule_firings].
    intros k [<-|[]]. apply Hincl. left. reflexivity.
  - eapply firings_weaken; [|apply performanceTrendRule_firings].
    intros k [<-|[]]. apply Hincl. right. left. reflexivity.
Qed.

Lemma detectPerformanceAnomalies_firings keys clock performanceData e :
  incl [(performance_spike, "Performance Degradation Detected");
        (error_burst, "Error Rate Spike Detected");
        (unusual_pattern, "Performance Degradation Trend")] keys ->
  firings keys 3 e (detectPerformanceAnomalies clock performanceData e).
Proof.
  intros Hincl. destruct performanceData as [p|].
  - apply (firings_trans keys 1 2 e (performanceSpikeRule clock p e)).
    + eapply firings_weaken; [|apply performanceSpikeRule_firings].
      intros k [<-|[]]. apply Hincl. left. reflexivity.
    + apply detectPerformanceAnomalies_after_spike.
      intros k Hk. apply Hincl. right. exact Hk.
  - apply (firings_more keys 0); [lia | apply firings_none].
Qed.

Lemma detectSystemHealthAnomalies_firings keys clock healthData e :
  incl [(capacity_issue, "High Memory Usage Detected");
        (error_burst, "Elevated System Error Rate");
        (capacity_issue, "Memory Usage Trending Upward")] keys ->
  firings keys 3 e (detectSystemHealthAnomalies clock healthData e).
Proof.
  intros Hincl.
  destruct healthData as [h|]; simpl;
    [destruct (currentHealth h) as [current|]|];
    try (apply (firings_more keys 0); [lia | apply firings_none]).
  apply (firings_trans keys 2 1 e
           (errorRateRule clock current (highMemoryRule clock current e))).
  - apply (firings_trans keys 1 1 e (highMemoryRule clock current e)).
    + eapply firings_weaken; [|apply highMemoryRule_firings].
      intros k [<-|[]]. apply Hincl. left. reflexivity.
    + eapply firings_weaken; [|apply errorRateRule_firings].
      intros k [<-|[]]. apply Hincl. right. left. reflexivity.
  - eapply firings_weaken; [|apply memoryTrendRule_firings].
    intros k [<-|[]]. apply Hincl. right. right. left. reflexivity.
Qed.

Lemma In_sliceLast {A : Type} (n : nat) (l : list A) (x : A) :
  In x (sliceLast n l) -> In x l.
Proof.
  intros H. rewrite (sliceLast_split n l). apply in_or_app. right. exact H.
Qed.

Lemma addedBetween_more P a l (k k' : nat) l' :
  (k <= k')%nat -> addedBetween P a l k l' -> addedBetween P a l k' l'.
Proof.
  intros Hle (pre & post & Heq & Hpre & Hpost & Hlen).
  exists pre, post. repeat split; try assumption. lia.
Qed.

Lemma firings_addedBetween (P : Anomaly.AnomalyDetection -> Prop)
    (a : Anomaly.AnomalyDetection) (l : list Anomaly.AnomalyDetection)
    (keys : list (AnomalyType * string)) :
  (forall r d, In (dataKey d) keys -> P (newAnomaly r d)) ->
  forall n e e', firings keys n e e' ->
  forall k, (k + n <= 98)%nat ->
  addedBetween P a l k (anomalies e) -> addedBetween P a l (k + n) (anomalies e').
Proof.
  intros Hnew n e e' H. induction H as [e | n e e' H IH | n e e' r d H IH Hkey];
    intros k Hbound Hstart.
  - rewrite Nat.add_0_r. exact Hstart.
  - apply (addedBetween_more P a l (k + n)); [lia|]. apply IH; [lia | exact Hstart].
  - assert (Hmid : addedBetween P a l (k + n) (anomalies e')) by (apply IH; [lia | exact Hstart]).
    destruct (find (similarAnomaly (Anomaly.d_type d) (Anomaly.d_title d)) (anomalies e'))
      as [x|] eqn:Efind.
    + rewrite (addAnomaly_found r d e' x Efind).
      apply (addedBetween_more P a l (k + n)); [lia | exact Hmid].
    + rewrite (addAnomaly_fresh r d e' Efind).
      destruct Hmid as (pre & post & Heq & Hpre & Hpost & Hlen).
      exists (sliceLast (99 - length (a :: post)) pre), (post ++ [newAnomaly r d]).
      split; [|split; [|split]].
      * rewrite Heq. rewrite sliceLast_app by (simpl; lia).
        rewrite <- app_assoc. reflexivity.
      * intros b Hb. apply Hpre. apply (In_sliceLast _ _ _ Hb).
      * intros b Hb. apply in_app_or in Hb. destruct Hb as [Hb | [<- | []]].
        -- apply Hpost. exact Hb.
        -- apply Hnew. exact Hkey.
      * rewrite length_app. simpl. lia.
Qed.

Lemma firings_preserve (Q : Anomaly.AnomalyDetection -> Prop)
    (keys : list (AnomalyType * string)) :
  (forall r d, In (dataKey d) keys -> Q (newAnomaly r d)) ->
  forall n e e', firings keys n e e' ->
  (forall b, In b (anomalies e) -> Q b) -> forall b, In b (anomalies e') -> Q b.
Proof.
  intros Hnew n e e' H. induction H as [e | n e e' H IH | n e e' r d H IH Hkey];
    intros Hstart; try (apply IH; exact Hstart); [exact Hstart|].
  destruct (find (similarAnomaly (Anomaly.d_type d) (Anomaly.d_title d)) (anomalies e'))
    as [x|] eqn:Efind.
  - rewrite (addAnomaly_found r d e' x Efind). apply IH. exact Hstart.
  - rewrite (addAnomaly_fresh r d e' Efind). intros b Hb.
    apply in_app_or in Hb. destruct Hb as [Hb | [<- | []]].
    + apply (IH Hstart). apply (In_sliceLast _ _ _ Hb).
    + apply Hnew. exact Hkey.
Qed.

Lemma similar_none_find (ty : AnomalyType) (ti : string)
    (l : list Anomaly.AnomalyDetection) :
  (forall b, In b l -> similarAnomaly ty ti b = false) ->
  find (similarAnomaly ty ti) l = None.
Proof.
  intros H. destruct (find (similarAnomaly ty ti) l) as [x|] eqn:E; [|reflexivity].
  apply find_some in E. destruct E as [Hin Hx]. rewrite (H x Hin) in Hx. discriminate.
Qed.

Lemma cleanupOldAnomalies_anomalies (now : Z) (e : AIAnalyticsEngine) :
  anomalies (cleanupOldAnomalies now e)
  = filter (fun anomaly =>
              ((now - DAY_MS <? Anomaly.detectedAt anomaly)%Z
               || negb (Anomaly.autoResolved anomaly))%bool)
      (anomalies e).
Proof.
  reflexivity.
Qed.

Lemma gtb_compat_l (x y z : number) : x == y -> (x >? z) = (y >? z).
Proof.
  intros H. destruct (y >? z) eqn:E.
  - apply gtb_true_iff. apply gtb_true_iff in E. lra.
  - apply gtb_false_iff. apply gtb_false_iff in E. lra.
Qed.

(** C2 -- Performance-spike scenario: when the performance analytics report
    an average duration of 2500 ms and the engine holds no unresolved
    anomaly of type performance_spike titled "Performance Degradation
    Detected", one run of the anomaly-detection pass adds exactly one
    anomaly of type performance_spike.  It has severity high, confidence 95,
    [current.averageDuration] 2500, [baseline.averageDuration] 800 and
    deviation ((2500 - 800) / 800) x 100; it is unresolved and was not in
    the collection before.  What stands before it in the collection is left
    from the old collection, and what stands after it was added by later
    rules of the pass, none of type performance_spike. *)
Theorem performance_spike_scenario (clock : Clock) (now : Z)
    (p : PerformanceAnalytics) (behaviorData : option BehaviorAnalytics)
    (healthData : option HealthAnalytics) (e : AIAnalyticsEngine) :
  averageDuration p == 2500 ->
  (forall b, In b (anomalies e) ->
             similarAnomaly performance_spike "Performance Degradation Detected" b = false) ->
  exists a pre post cur,
    anomalies (runAnomalyDetection clock now (Some p) behaviorData healthData e)
    = pre ++ a :: post
    /\ (forall b, In b pre -> In b (anomalies e))
    /\ (forall b, In b post -> Anomaly.type b <> performance_spike)
    /\ ~ In a (anomalies e)
    /\ Anomaly.type a = performance_spike
    /\ Anomaly.title a = "Performance Degradation Detected"
    /\ Anomaly.severity a = high
    /\ Anomaly.confidence a = 95
    /\ Anomaly.autoResolved a = false
    /\ getNum "averageDuration" (Anomaly.current a) = Some cur
    /\ cur == 2500
    /\ getNum "averageDuration" (Anomaly.baseline a) = Some 800
    /\ Anomaly.deviation a == ((2500 - 800) / 800) * 100.
Proof.
  intros Havg Hnone.
  set (a := newAnomaly (clock 0%nat) (performanceSpikeData (averageDuration p))).
  assert (Hfire : performanceSpikeRule clock p e
                  = addAnomaly (clock 0%nat) (performanceSpikeData (averageDuration p)) e).
  { unfold performanceSpikeRule.
    rewrite (gtb_compat_l _ _ 2000 Havg). reflexivity. }
  assert (Hstart : addedBetween (fun b => Anomaly.type b <> performance_spike) a
                     (anomalies e) 0 (anomalies (performanceSpikeRule clock p e))).
  { rewrite Hfire, addAnomaly_fresh by (apply similar_none_find; exact Hnone).
    exists (sliceLast 99 (anomalies e)), []. repeat split.
    - intros b Hb. apply (In_sliceLast _ _ _ Hb).
    - intros b [].
    - simpl. lia. }
  assert (Hrest : firings keysAfterSpike (3 + (2 + 2)) (performanceSpikeRule clock p e)
                    (detectSystemHealthAnomalies clock healthData
                       (detectBehaviorAnomalies clock behaviorData
                          (detectPerformanceAnomalies clock (Some p) e)))).
  { apply (firings_trans _ (2 + 2) 3 _
             (detectBehaviorAnomalies clock behaviorData
                (detectPerformanceAnomalies clock (Some p) e))).
    - apply (firings_trans _ 2 2 _ (detectPerformanceAnomalies clock (Some p) e)).
      + apply detectPerformanceAnomalies_after_spike.
        intros k Hk. simpl in Hk. unfold keysAfterSpike. simpl. tauto.
      + apply detectBehaviorAnomalies_firings.
        intros k Hk. simpl in Hk. unfold keysAfterSpike. simpl. tauto.
    - apply detectSystemHealthAnomalies_firings.
      intros k Hk. simpl in Hk. unfold keysAfterSpike. simpl. tauto. }
  pose proof (firings_addedBetween (fun b => Anomaly.type b <> performance_spike) a
                (anomalies e) keysAfterSpike) as Hinv.
  specialize (Hinv ltac:(intros r d Hkey; unfold dataKey, keysAfterSpike in Hkey; simpl in Hkey;
                         simpl;
                         repeat (destruct Hkey as [Hkey | Hkey];
                                 [injection Hkey as Hty _; rewrite <- Hty; discriminate|]);
                         destruct Hkey)).
  specialize (Hinv _ _ _ Hrest 0%nat ltac:(simpl; lia) Hstart).
  destruct Hinv as (pre & post & Heq & Hpre & Hpost & Hlen).
  set (keep := fun anomaly : Anomaly.AnomalyDetection =>
                 ((now - DAY_MS <? Anomaly.detectedAt anomaly)%Z
                  || negb (Anomaly.autoResolved anomaly))%bool).
  exists a, (filter keep pre), (filter keep post), (averageDuration p).
  split; [|split; [|split; [|split]]].
  - unfold runAnomalyDetection. cbv zeta. rewrite cleanupOldAnomalies_anomalies.
    fold keep. rewrite Heq, filter_app. simpl.
    replace (keep a) with true by (unfold keep; simpl; rewrite orb_true_r; reflexivity).
    reflexivity.
  - intros b Hb. apply filter_In in Hb. apply Hpre. apply Hb.
  - intros b Hb. apply filter_In in Hb. apply Hpost. apply Hb.
  - intros Hin. specialize (Hnone a Hin). unfold similarAnomaly in Hnone.
    simpl in Hnone. discriminate.
  - simpl. repeat split; try reflexivity.
    + rewrite (gtb_compat_l _ _ 5000 Havg). reflexivity.
    + exact Havg.
    + rewrite Havg. reflexivity.
Qed.

Lemma performance_spike_scenario_witness :
  averageDuration slowPerformance == 2500
  /\ exists a pre post,
       anomalies (runAnomalyDetection exampleClock 1700000000100 (Some slowPerformance)
                    None None newEngine)
       = pre ++ a :: post
       /\ Anomaly.type a = performance_spike
       /\ Anomaly.severity a = high.
Proof.
  split; [reflexivity|].
  destruct (performance_spike_scenario exampleClock 1700000000100 slowPerformance
              None None newEngine (Qeq_refl 2500)
              (fun b (H : In b []) => False_ind _ H))
    as (a & pre & post & cur & H).
  exists a, pre, post.
  split; [apply H | split; apply H].
Defined.

(** ** The memory-trend rule *)

Lemma non_increasing_steps (values : list number) :
  non_increasing values ->
  forall i, (S i < length values)%nat -> at_index values (S i) <= at_index values i.
Proof.
  unfold at_index. induction values as [|x rest IH]; intros Hmono i Hi.
  - simpl in Hi. lia.
  - destruct rest as [|y rest']; [simpl in Hi; lia|].
    destruct Hmono as [Hyx Hrest]. destruct i as [|i].
    + simpl. exact Hyx.
    + change (nth (S (S i)) (x :: y :: rest') 0) with (nth (S i) (y :: rest') 0).
      change (nth (S i) (x :: y :: rest') 0) with (nth i (y :: rest') 0).
      apply IH; [exact Hrest | simpl in Hi; simpl; lia].
Qed.

Lemma non_increasing_trend (values : list number) :
  non_increasing values -> calculateTrendDirection values == 0.
Proof.
  intros Hmono. unfold calculateTrendDirection.
  destruct (length values <? 2)%nat; [reflexivity|].
  assert (Hcount : count_loop values = 0%nat).
  { rewrite count_loop_reference. unfold consecutive_increases.
    replace (filter (is_increase values) (seq 1 (length values - 1))) with (@nil nat);
      [reflexivity|].
    symmetry. apply find_none_filter.
    destruct (find (is_increase values) (seq 1 (length values - 1))) as [i|] eqn:E;
      [|reflexivity].
    apply find_some in E. destruct E as [Hin Hup]. apply in_seq in Hin.
    unfold is_increase in Hup. apply gtb_true_iff in Hup.
    destruct i as [|i]; [lia|].
    replace (S i - 1)%nat with i in Hup by lia.
    pose proof (non_increasing_steps values Hmono i ltac:(lia)) as Hle.
    exfalso. apply (Qlt_not_le _ _ Hup Hle). }
  rewrite Hcount. unfold ofNat. simpl. unfold Qdiv. rewrite Qmult_0_l. reflexivity.
Qed.

Lemma keysBeforeMemoryTrend_other (r : Readings) (d : Anomaly.Data) :
  In (dataKey d) keysBeforeMemoryTrend ->
  Anomaly.title (newAnomaly r d) <> "Memory Usage Trending Upward".
Proof.
  unfold dataKey, keysBeforeMemoryTrend. simpl. intros Hkey.
  repeat (destruct Hkey as [Hkey | Hkey];
          [injection Hkey as _ Hti; rewrite <- Hti; discriminate|]).
  destruct Hkey.
Qed.

Lemma title_differs_not_similar (ty : AnomalyType) (ti : string)
    (a : Anomaly.AnomalyDetection) :
  Anomaly.title a <> ti -> similarAnomaly ty ti a = false.
Proof.
  intros H. unfold similarAnomaly. apply String.eqb_neq in H. rewrite H.
  rewrite andb_false_r. reflexivity.
Qed.

(** The pass up to its last rule: at most seven firings, none of them of the
    memory-trend rule, then that rule when a current snapshot exists, then
    the clean-up. *)
Lemma pass_before_memory_trend (clock : Clock) (now : Z)
    (performanceData : option PerformanceAnalytics)
    (behaviorData : option BehaviorAnalytics) (h : HealthAnalytics)
    (e : AIAnalyticsEngine) :
  exists e6,
    firings keysBeforeMemoryTrend 7 e e6
    /\ runAnomalyDetection clock now performanceData behaviorData (Some h) e
       = cleanupOldAnomalies now
           (match currentHealth h with
            | Some _ => memoryTrendRule clock (resourceUsage h) e6
            | None => e6
            end).
Proof.
  set (e4 := detectBehaviorAnomalies clock behaviorData
               (detectPerformanceAnomalies clock performanceData e)).
  assert (H4 : firings keysBeforeMemoryTrend (2 + 3) e e4).
  { apply (firings_trans _ 3 2 _ (detectPerformanceAnomalies clock performanceData e)).
    - apply detectPerformanceAnomalies_firings.
      intros k Hk. simpl in Hk. unfold keysBeforeMemoryTrend. simpl. tauto.
    - apply detectBehaviorAnomalies_firings.
      intros k Hk. simpl in Hk. unfold keysBeforeMemoryTrend. simpl. tauto. }
  unfold runAnomalyDetection. cbv zeta. fold e4. simpl.
  destruct (currentHealth h) as [current|].
  - exists (errorRateRule clock current (highMemoryRule clock current e4)).
    split; [|reflexivity].
    apply (firings_trans _ (1 + (2 + 3)) 1 _ (highMemoryRule clock current e4)).
    + apply (firings_trans _ (2 + 3) 1 _ e4); [exact H4|].
      eapply firings_weaken; [|apply highMemoryRule_firings].
      intros k Hk. simpl in Hk. unfold keysBeforeMemoryTrend. simpl. tauto.
    + eapply firings_weaken; [|apply errorRateRule_firings].
      intros k Hk. simpl in Hk. unfold keysBeforeMemoryTrend. simpl. tauto.
  - exists e4. split; [|reflexivity].
    apply (firings_more _ (2 + 3)); [lia | exact H4].
Qed.

(** C5 (as amended) -- Memory-trend scenario.  When a current snapshot
    exists, the resource-usage series of the health analytics has more than
    five entries, the last five with memory usage 50, 60, 70, 80, 90 (trend
    direction 100), and the engine holds no unresolved anomaly of type
    capacity_issue titled "Memory Usage Trending Upward", the
    anomaly-detection pass adds that anomaly, as the newest entry of the
    collection.  When the last five entries never rise (constant or
    decreasing), the trend direction is 0, so not above 0, and the pass adds
    no anomaly of that title; it adds none either when the series has five
    entries or fewer. *)
Theorem memory_trend_scenario (clock : Clock) (now : Z)
    (performanceData : option PerformanceAnalytics)
    (behaviorData : option BehaviorAnalytics) (h : HealthAnalytics)
    (e : AIAnalyticsEngine) :
  let trailing := map ru_memoryUsage (sliceLast 5 (resourceUsage h)) in
  let e' := runAnomalyDetection clock now performanceData behaviorData (Some h) e in
  ((exists current, currentHealth h = Some current) ->
   (5 < length (resourceUsage h))%nat ->
   trailing = [50; 60; 70; 80; 90] ->
   (forall b, In b (anomalies e) ->
              similarAnomaly capacity_issue "Memory Usage Trending Upward" b = false) ->
   calculateTrendDirection trailing == 100
   /\ exists pre a,
        anomalies e' = pre ++ [a]
        /\ Anomaly.type a = capacity_issue
        /\ Anomaly.title a = "Memory Usage Trending Upward"
        /\ Anomaly.autoResolved a = false
        /\ Anomaly.deviation a == 100
        /\ ~ In a (anomalies e)
        /\ (forall b, In b pre ->
                      In b (anomalies e)
                      \/ Anomaly.title b <> "Memory Usage Trending Upward"))
  /\ (non_increasing trailing \/ (length (resourceUsage h) <= 5)%nat ->
      (non_increasing trailing -> calculateTrendDirection trailing == 0)
      /\ forall b, In b (anomalies e') ->
                   Anomaly.title b = "Memory Usage Trending Upward" ->
                   In b (anomalies e)).
Proof.
  cbv zeta.
  destruct (pass_before_memory_trend clock now performanceData behaviorData h e)
    as (e6 & Hfirings & Hpass).
  rewrite Hpass. clear Hpass.
  assert (Hold : forall b, In b (anomalies e6) ->
                           In b (anomalies e)
                           \/ Anomaly.title b <> "Memory Usage Trending Upward").
  { apply (firings_preserve _ keysBeforeMemoryTrend) with (n := 7%nat) (e := e).
    - intros r d Hkey. right. apply keysBeforeMemoryTrend_other. exact Hkey.
    - exact Hfirings.
    - intros b Hb. left. exact Hb. }
  split.
  - intros [current Hcur] Hlen Htrail Hnone. rewrite Hcur.
    assert (Hnone6 : forall b, In b (anomalies e6) ->
                similarAnomaly capacity_issue "Memory Usage Trending Upward" b = false).
    { apply (firings_preserve _ keysBeforeMemoryTrend) with (n := 7%nat) (e := e).
      - intros r d Hkey. apply title_differs_not_similar.
        apply keysBeforeMemoryTrend_other. exact Hkey.
      - exact Hfirings.
      - exact Hnone. }
    rewrite Htrail. split; [vm_compute; reflexivity|].
    unfold memoryTrendRule. apply Nat.ltb_lt in Hlen. rewrite Hlen. cbv zeta.
    rewrite Htrail.
    replace (calculateTrendDirection [50; 60; 70; 80; 90] >? 30) with true
      by (vm_compute; reflexivity).
    rewrite cleanupOldAnomalies_anomalies.
    rewrite addAnomaly_fresh by (apply similar_none_find; exact Hnone6).
    rewrite filter_app.
    set (a := newAnomaly (clock 7%nat)
                (memoryTrendData (calculateTrendDirection [50; 60; 70; 80; 90]))).
    assert (Hkept : forall keep : Anomaly.AnomalyDetection -> bool,
               keep a = true -> filter keep [a] = [a])
      by (intros keep Hkeep; simpl; rewrite Hkeep; reflexivity).
    rewrite Hkept by (simpl; apply orb_true_r).
    eexists. exists a. split; [reflexivity|].
    split; [reflexivity|]. split; [reflexivity|]. split; [reflexivity|].
    split; [vm_compute; reflexivity|]. split.
    + intros Hin. specialize (Hnone _ Hin). vm_compute in Hnone. discriminate.
    + intros b Hb. apply filter_In in Hb. destruct Hb as [Hb _].
      apply Hold. apply (In_sliceLast _ _ _ Hb).
  - intros Hcase. split; [apply non_increasing_trend|].
    assert (Hidle : memoryTrendRule clock (resourceUsage h) e6 = e6).
    { unfold memoryTrendRule.
      destruct (5 <? length (resourceUsage h))%nat eqn:Elen; [|reflexivity].
      cbv zeta. destruct Hcase as [Hmono | Hshort].
      - rewrite (gtb_compat_l _ 0 30 (non_increasing_trend _ Hmono)). reflexivity.
      - apply Nat.ltb_lt in Elen. lia. }
    intros b Hb Htitle.
    assert (Hb6 : In b (anomalies e6)).
    { destruct (currentHealth h); [rewrite Hidle in Hb|];
        rewrite cleanupOldAnomalies_anomalies in Hb; apply filter_In in Hb; apply Hb. }
    destruct (Hold b Hb6) as [Hin | Hother]; [exact Hin | contradiction].
Qed.

Lemma memory_trend_scenario_witness :
  map ru_memoryUsage
    (sliceLast 5 (resourceUsage (getSystemHealthAnalytics (logger sixRisingSnapshots))))
  = [50; 60; 70; 80; 90]
  /\ exists pre a,
       anomalies
         (runAnomalyDetection exampleClock 1700000000100 None None
            (Some (getSystemHealthAnalytics (logger sixRisingSnapshots))) newEngine)
       = pre ++ [a]
       /\ Anomaly.title a = "Memory Usage Trending Upward".
Proof.
  split; [vm_compute; reflexivity|].
  destruct (proj1 (memory_trend_scenario exampleClock 1700000000100 None None
                     (getSystemHealthAnalytics (logger sixRisingSnapshots)) newEngine))
    as (_ & pre & a & H).
  - eexists. vm_compute. reflexivity.
  - vm_compute. lia.
  - vm_compute. reflexivity.
  - intros b [].
  - exists pre, a. split; [apply H | apply H].
Defined.

(** C5 (as stated) fails: the rule needs more than five entries in the
    series.  With exactly five snapshots of memory usage 50, 60, 70, 80, 90
    the trend direction of the trailing five is 100, yet the pass adds no
    anomaly titled "Memory Usage Trending Upward". *)
Lemma memory_trend_needs_six_snapshots :
  map memoryUsage (systemHealthMetrics (logger fiveRisingSnapshots)) = [50; 60; 70; 80; 90]
  /\ calculateTrendDirection
       (map ru_memoryUsage
          (sliceLast 5
             (resourceUsage (getSystemHealthAnalytics (logger fiveRisingSnapshots)))))
     == 100
  /\ countWhere (sameKind capacity_issue "Memory Usage Trending Upward")
       (anomalies
          (runAnomalyDetection exampleClock 1700000000100 None None
             (Some (getSystemHealthAnalytics (logger fiveRisingSnapshots))) newEngine))
     = 0%nat
  /\ map Anomaly.title
       (anomalies
          (runAnomalyDetection exampleClock 1700000000100 None None
             (Some (getSystemHealthAnalytics (logger fiveRisingSnapshots))) newEngine))
     = ["High Memory Usage Detected"].
Proof.
  repeat split; vm_compute; reflexivity.
Qed.

(** ** The trend labels of the dashboard *)

Lemma orZero_some (q : number) : orZero (Some q) == q.
Proof.
  unfold orZero. destruct (Qeq_bool q 0) eqn:E; [|reflexivity].
  apply Qeq_bool_eq in E. symmetry. exact E.
Qed.

Lemma gtb_compat (x x' y y' : number) : x == x' -> y == y' -> (x >? y) = (x' >? y').
Proof.
  intros Hx Hy. destruct (x' >? y') eqn:E.
  - apply gtb_true_iff. apply gtb_true_iff in E. lra.
  - apply gtb_false_iff. apply gtb_false_iff in E. lra.
Qed.

Lemma at_index_map_compat {A : Type} (f g : A -> number) (l : list A) (i : nat) :
  (forall x, f x == g x) -> at_index (map f l) i == at_index (map g l) i.
Proof.
  intros Hfg. unfold at_index. revert i.
  induction l as [|x rest IH]; intros i; destruct i; simpl;
    try reflexivity; [apply Hfg | apply IH].
Qed.

Lemma trend_direction_map_compat {A : Type} (f g : A -> number) (l : list A) :
  (forall x, f x == g x) ->
  calculateTrendDirection (map f l) = calculateTrendDirection (map g l).
Proof.
  intros Hfg. unfold calculateTrendDirection. rewrite !length_map.
  destruct (length l <? 2)%nat; [reflexivity|].
  rewrite !count_loop_reference. unfold consecutive_increases. rewrite !length_map.
  replace (filter (is_increase (map f l)) (seq 1 (length l - 1)))
    with (filter (is_increase (map g l)) (seq 1 (length l - 1))); [reflexivity|].
  apply filter_ext. intros i. unfold is_increase.
  apply gtb_compat; symmetry; apply at_index_map_compat; exact Hfg.
Qed.

Lemma sliceLast_map {A B : Type} (f : A -> B) (n : nat) (l : list A) :
  sliceLast n (map f l) = map f (sliceLast n l).
Proof.
  unfold sliceLast. rewrite length_map. apply skipn_map.
Qed.

(** [calculateTrendStatus] computes the reference label of the samples it
    reads. *)
Lemma calculateTrendStatus_reference {T : Type} `{Indexed T} (items : list T)
    (field : string) (higherIsBetter : bool) (sample : T -> number) :
  (forall item, orZero (getField field item) == sample item) ->
  calculateTrendStatus (Some items) field higherIsBetter
  = trend_label_reference higherIsBetter (map sample items).
Proof.
  intros Hsample. unfold calculateTrendStatus, trend_label_reference.
  rewrite length_map. destruct (length items <? 3)%nat eqn:E; [reflexivity|].
  apply Nat.ltb_ge in E.
  rewrite (trend_direction_map_compat _ sample _ Hsample).
  rewrite sliceLast_map.
  assert (Hneg : (calculateTrendDirection (map sample (sliceLast 3 items)) <? -10) = false).
  { unfold ltb. apply gtb_false_iff.
    destruct (trend_direction_range (map sample (sliceLast 3 items))) as [H0 _]. lra. }
  rewrite Hneg.
  rewrite (gtb_compat _ (trend_direction_reference (map sample (sliceLast 3 items))) 10 10).
  - destruct (_ >? 10); reflexivity.
  - apply trend_direction_reference_eq. rewrite length_map, sliceLast_length. lia.
  - reflexivity.
Qed.

Lemma trend_label_reference_nil (higherIsBetter : bool) :
  trend_label_reference higherIsBetter [] = stable.
Proof.
  reflexivity.
Qed.

Lemma non_increasing_zeros {A : Type} (l : list A) :
  non_increasing (map (fun _ => 0) l).
Proof.
  induction l as [|x [|y rest] IH]; simpl; try exact I.
  split; [apply Qle_refl | exact IH].
Qed.

(** A series that does not rise over its last three samples reads
    "stable", whichever direction is the better one. *)
Lemma calculateTrendStatus_flat {T : Type} `{Indexed T} (items : list T)
    (field : string) (higherIsBetter : bool) :
  non_increasing (map (fun item => orZero (getField field item)) (sliceLast 3 items)) ->
  calculateTrendStatus (Some items) field higherIsBetter = stable.
Proof.
  intros Hflat. unfold calculateTrendStatus.
  destruct (length items <? 3)%nat; [reflexivity|]. cbv zeta.
  pose proof (non_increasing_trend _ Hflat) as Hzero.
  rewrite (gtb_compat_l _ 0 10 Hzero). unfold ltb.
  rewrite (gtb_compat (-10) (-10) _ 0 (Qeq_refl _) Hzero).
  reflexivity.
Qed.

(** C7 (as amended) -- Dashboard trend labels.  Three of the four labels of
    [trendAnalysis] come from the trend-direction heuristic over the three
    most recent samples, read asymmetrically: [performance] from the average
    durations of the hourly trend buckets, where lower is better (a rising
    trend reads "declining"); [efficiency] from the counts of the
    operation-frequency table, where higher is better (a rising trend reads
    "improving"); [userSatisfaction] from the field [length] of the
    error-prone paths, where lower is better; each is "stable" otherwise.
    The error-prone paths have the fields [path] and [count] only, so every
    sample of [userSatisfaction] reads 0 and that label is always "stable".
    The fourth, [systemHealth], does not use the heuristic: it is
    "improving" when the health performance score is above 80 and
    "declining" otherwise, never "stable". *)
Theorem dashboard_trend_labels (performanceData : option PerformanceAnalytics)
    (behaviorData : option BehaviorAnalytics) (healthData : option HealthAnalytics)
    (e : AIAnalyticsEngine) :
  let labels := trendAnalysis (getDashboard performanceData behaviorData healthData e) in
  trend_performance labels
  = trend_label_reference false
      (map pt_averageDuration
         (match performanceData with Some p => performanceTrends p | None => [] end))
  /\ trend_efficiency labels
     = trend_label_reference true
         (map (fun o => inject_Z (of_count o))
            (match performanceData with Some p => operationFrequency p | None => [] end))
  /\ (trend_userSatisfaction labels
      = trend_label_reference false
          (map (fun item => orZero (getField "length" item))
             (match behaviorData with Some b => errorPronePaths b | None => [] end))
      /\ (forall item : ErrorPronePath, orZero (getField "length" item) = 0)
      /\ trend_userSatisfaction labels = stable)
  /\ (trend_systemHealth labels = improving
      <-> exists h, healthData = Some h /\ 80 < performanceScore h)
  /\ (trend_systemHealth labels = declining
      <-> ~ exists h, healthData = Some h /\ 80 < performanceScore h)
  /\ trend_systemHealth labels <> stable.
Proof.
  cbv zeta. unfold getDashboard.
  cbn [trendAnalysis trend_performance trend_efficiency trend_userSatisfaction
       trend_systemHealth].
  split; [|split; [|split]].
  - destruct performanceData as [p|]; cbn [option_map]; [|reflexivity].
    apply calculateTrendStatus_reference. intros item.
    unfold getField, Indexed_PerformanceTrend. simpl. apply orZero_some.
  - destruct performanceData as [p|]; cbn [option_map]; [|reflexivity].
    apply (calculateTrendStatus_reference _ _ _ (fun o => inject_Z (of_count o))).
    intros item. unfold getField, Indexed_OperationFrequency. simpl. apply orZero_some.
  - split; [|split; [intros item; reflexivity|]].
    + destruct behaviorData as [b|]; cbn [option_map]; [|reflexivity].
      apply calculateTrendStatus_reference. intros item. reflexivity.
    + destruct behaviorData as [b|]; cbn [option_map]; [|reflexivity].
      apply calculateTrendStatus_flat.
      erewrite map_ext; [apply non_increasing_zeros|].
      intros item. reflexivity.
  - assert (Hyes : forall h, healthData = Some h -> 80 < performanceScore h ->
                   exists h0, healthData = Some h0 /\ 80 < performanceScore h0)
      by (intros h Hh Hgt; exists h; split; assumption).
    destruct healthData as [h|].
    + destruct (performanceScore h >? 80) eqn:E.
      * apply gtb_true_iff in E. specialize (Hyes h eq_refl E).
        split; [split; [intros _; exact Hyes | reflexivity]|].
        split; [split; [discriminate | intros Hno; contradiction]|discriminate].
      * apply gtb_false_iff in E.
        assert (Hno : ~ exists h0, Some h = Some h0 /\ 80 < performanceScore h0).
        { intros [h0 [Heq Hgt]]. inversion Heq; subst h0.
          apply (Qlt_not_le _ _ Hgt E). }
        split; [split; [discriminate | intros Hex; contradiction]|].
        split; [split; [intros _; exact Hno | reflexivity]|discriminate].
    + assert (Hno : ~ exists h0, @None HealthAnalytics = Some h0 /\ 80 < performanceScore h0)
        by (intros [h0 [Heq _]]; discriminate).
      split; [split; [discriminate | intros Hex; contradiction]|].
      split; [split; [intros _; exact Hno | reflexivity]|discriminate].
Qed.

Lemma gtb_irrefl (x : number) : (x >? x) = false.
Proof.
  apply gtb_false_iff. apply Qle_refl.
Qed.

(** C7 (as stated) fails for [systemHealth].  With no snapshot at all, every
    label the heuristic derives from the health series is "stable", yet the
    dashboard reports "improving"; and over three snapshots in which no
    metric moves, every label the heuristic derives from a metric is
    "stable", yet the dashboard reports "declining". *)
Lemma system_health_label_ignores_trend :
  (trend_systemHealth
     (trendAnalysis
        (getDashboard None None (Some (getSystemHealthAnalytics (logger idleWorld)))
           newEngine))
   = improving
   /\ forall (higherIsBetter : bool) (metric : SystemHealthMetrics -> number),
        trend_label_reference higherIsBetter
          (map metric (systemHealthMetrics (logger idleWorld)))
        = stable)
  /\ (trend_systemHealth
        (trendAnalysis
           (getDashboard None None
              (Some (getSystemHealthAnalytics (logger flatHeavySnapshots))) newEngine))
      = declining
      /\ Forall
           (fun metric =>
              forall higherIsBetter : bool,
                trend_label_reference higherIsBetter
                  (map metric (systemHealthMetrics (logger flatHeavySnapshots)))
                = stable)
           healthMetricFields).
Proof.
  split; split.
  - vm_compute. reflexivity.
  - intros higherIsBetter metric. reflexivity.
  - vm_compute. reflexivity.
  - unfold healthMetricFields.
    repeat (apply Forall_cons; [intros [|]; vm_compute; reflexivity|]).
    apply Forall_nil.
Qed.

(** ** Bounded retention *)

Lemma sliceLast_le {A : Type} (n : nat) (l : list A) : (length (sliceLast n l) <= n)%nat.
Proof.
  rewrite sliceLast_length. lia.
Qed.

Lemma pruneInsights_insights (e : AIAnalyticsEngine) :
  insights (pruneInsights e) = sliceLast 50 (insights e).
Proof.
  unfold pruneInsights. destruct (50 <? length (insights e))%nat eqn:E; simpl.
  - reflexivity.
  - apply Nat.ltb_ge in E. symmetry. apply sliceLast_all. exact E.
Qed.

Lemma pruneRecommendations_recommendations (e : AIAnalyticsEngine) :
  recommendations (pruneRecommendations e) = sliceLast 30 (recommendations e).
Proof.
  unfold pruneRecommendations. destruct (30 <? length (recommendations e))%nat eqn:E; simpl.
  - reflexivity.
  - apply Nat.ltb_ge in E. symmetry. apply sliceLast_all. exact E.
Qed.

Lemma addAnomaly_capped (r : Readings) (d : Anomaly.Data) (e : AIAnalyticsEngine) :
  engineCapped e -> engineCapped (addAnomaly r d e).
Proof.
  intros (Hi & Ha & Hr). unfold addAnomaly.
  destruct (find_first _ _); [repeat split; assumption|].
  unfold engineCapped. rewrite pruneAnomalies_anomalies.
  destruct (pruneAnomalies_others
              (mkEngine (insights e) (anomalies e ++ [newAnomaly r d]) (recommendations e)))
    as [-> ->].
  simpl. repeat split; try assumption. apply sliceLast_le.
Qed.

Lemma addInsight_capped (r : Readings) (d : Insight.Data) (e : AIAnalyticsEngine) :
  engineCapped e -> engineCapped (addInsight r d e).
Proof.
  intros (Hi & Ha & Hr). unfold addInsight.
  destruct (find_first _ _); [repeat split; assumption|].
  unfold engineCapped. rewrite pruneInsights_insights.
  unfold pruneInsights. simpl.
  destruct (50 <? _)%nat; simpl; repeat split; try assumption; apply sliceLast_le.
Qed.

Lemma addRecommendation_capped (r : Readings) (d : Recommendation.Data)
    (e : AIAnalyticsEngine) :
  engineCapped e -> engineCapped (addRecommendation r d e).
Proof.
  intros (Hi & Ha & Hr). unfold addRecommendation.
  destruct (find_first _ _); [repeat split; assumption|].
  unfold engineCapped. rewrite pruneRecommendations_recommendations.
  unfold pruneRecommendations. simpl.
  destruct (30 <? _)%nat; simpl; repeat split; try assumption; apply sliceLast_le.
Qed.

Lemma engineStep_capped (op : EngineOp) (e : AIAnalyticsEngine) :
  engineCapped e -> engineCapped (engineStep op e).
Proof.
  intros Hcap. destruct op; simpl.
  - apply addAnomaly_capped. exact Hcap.
  - apply addInsight_capped. exact Hcap.
  - apply addRecommendation_capped. exact Hcap.
  - destruct Hcap as (Hi & Ha & Hr). repeat split; simpl; try assumption.
    etransitivity; [apply filter_length_le | exact Ha].
  - destruct Hcap as (Hi & Ha & Hr). repeat split; simpl; try assumption.
    etransitivity; [apply filter_length_le | exact Hi].
  - destruct Hcap as (Hi & Ha & Hr). repeat split; simpl; try assumption.
    etransitivity; [apply filter_length_le | exact Hr].
  - destruct Hcap as (Hi & Ha & Hr). unfold resolveAnomaly.
    destruct (find_first _ _); repeat split; simpl; try assumption.
    rewrite updateFirst_length. exact Ha.
  - destruct Hcap as (Hi & Ha & Hr). unfold markRecommendationImplemented.
    destruct (find_first _ _); repeat split; simpl; try assumption.
    rewrite updateFirst_length. exact Hr.
Qed.

Lemma pruneMetrics_capped (c : AdvancedChangeLogger) : loggerCapped (pruneMetrics c).
Proof.
  unfold loggerCapped.
  rewrite pruneMetrics_performance, pruneMetrics_behavior, pruneMetrics_health.
  repeat split; apply sliceLast_le.
Qed.

Lemma collectorStep_capped {CL : ChangeLogger} (op : CollectorOp) (w : World) :
  loggerCapped (logger w) -> loggerCapped (logger (collectorStep op w)).
Proof.
  intros Hcap. destruct op; simpl.
  - exact Hcap.
  - apply pruneMetrics_capped.
  - apply pruneMetrics_capped.
  - exact Hcap.
  - destruct result; simpl; apply pruneMetrics_capped.
Qed.

Lemma firings_reachable (keys : list (AnomalyType * string)) (n : nat)
    (e e' : AIAnalyticsEngine) :
  firings keys n e e' -> reachable e -> reachable e'.
Proof.
  intros H. induction H as [e | n e e' H IH | n e e' r d H IH Hkey]; intros Hreach.
  - exact Hreach.
  - apply IH. exact Hreach.
  - apply (reachable_step (OpAddAnomaly r d)). apply IH. exact Hreach.
Qed.

Lemma runAnomalyDetection_reachable (clock : Clock) (now : Z)
    (performanceData : option PerformanceAnalytics)
    (behaviorData : option BehaviorAnalytics) (healthData : option HealthAnalytics)
    (e : AIAnalyticsEngine) :
  reachable e ->
  reachable (runAnomalyDetection clock now performanceData behaviorData healthData e).
Proof.
  intros Hreach. unfold runAnomalyDetection. cbv zeta.
  apply (reachable_step (OpCleanupAnomalies now)).
  set (keys := (performance_spike, "Performance Degradation Detected") :: keysAfterSpike).
  apply (firings_reachable keys 3
           (detectBehaviorAnomalies clock behaviorData
              (detectPerformanceAnomalies clock performanceData e))).
  { apply detectSystemHealthAnomalies_firings.
    intros k Hk. simpl in Hk. unfold keys, keysAfterSpike. simpl. tauto. }
  apply (firings_reachable keys 2 (detectPerformanceAnomalies clock performanceData e)).
  { apply detectBehaviorAnomalies_firings.
    intros k Hk. simpl in Hk. unfold keys, keysAfterSpike. simpl. tauto. }
  apply (firings_reachable keys 3 e); [|exact Hreach].
  apply detectPerformanceAnomalies_firings.
  intros k Hk. simpl in Hk. unfold keys, keysAfterSpike. simpl. tauto.
Qed.

(** C9 -- Bounded retention: in every engine reachable from a new one
    through the mutations of its collections (the anomaly-detection pass is
    a sequence of them) the insight collection holds at most 50 entries, the
    anomaly collection at most 100 and the recommendation collection at most
    30; in every world reachable from a new collector each of the three
    metric series holds at most 1000 entries.  Each pruning step keeps the
    newest entries: what it keeps is the collection without its oldest
    entries, and it drops only as many as exceed the cap. *)
Theorem bounded_retention {CL : ChangeLogger} :
  (forall e, reachable e -> engineCapped e)
  /\ (forall clock now performanceData behaviorData healthData e,
         reachable e ->
         reachable (runAnomalyDetection clock now performanceData behaviorData healthData e))
  /\ (forall w : World, worldReachable w -> loggerCapped (logger w))
  /\ (forall e,
         dropsOldest 50 (insights e) (insights (pruneInsights e))
         /\ dropsOldest 100 (anomalies e) (anomalies (pruneAnomalies e))
         /\ dropsOldest 30 (recommendations e) (recommendations (pruneRecommendations e)))
  /\ (forall c,
         dropsOldest 1000 (performanceMetrics c) (performanceMetrics (pruneMetrics c))
         /\ dropsOldest 1000 (userBehaviorMetrics c) (userBehaviorMetrics (pruneMetrics c))
         /\ dropsOldest 1000 (systemHealthMetrics c) (systemHealthMetrics (pruneMetrics c))).
Proof.
  split; [|split; [|split; [|split]]].
  - induction 1 as [|op e Hreach IH].
    + repeat split; simpl; lia.
    + apply engineStep_capped. exact IH.
  - intros clock now performanceData behaviorData healthData e.
    apply runAnomalyDetection_reachable.
  - induction 1 as [r log | op w Hreach IH].
    + repeat split; simpl; lia.
    + apply collectorStep_capped. exact IH.
  - intros e.
    rewrite pruneInsights_insights, pruneAnomalies_anomalies,
      pruneRecommendations_recommendations.
    repeat split; apply sliceLast_dropsOldest.
  - intros c.
    rewrite pruneMetrics_performance, pruneMetrics_behavior, pruneMetrics_health.
    repeat split; apply sliceLast_dropsOldest.
Qed.

Lemma bounded_retention_witness :
  engineCapped engineWithResolved /\ loggerCapped (logger fiveRisingSnapshots).
Proof.
  split.
  - apply (proj1 (@bounded_retention specChangeLogger)).
    unfold engineWithResolved. apply reachable_step, reachable_step, reachable_new.
  - apply (proj1 (proj2 (proj2 (@bounded_retention specChangeLogger)))).
    unfold fiveRisingSnapshots, recordAll. cbn [fold_left].
    do 5 apply (@worldReachable_step specChangeLogger (OpRecordSystemHealth _)).
    apply (@worldReachable_new specChangeLogger).
Defined.

(** * Further properties of the engine *)

(** ** One pass as a list of firings *)

Lemma applyFirings_app (clock : Clock) (l1 l2 : list (nat * Anomaly.Data))
    (e : AIAnalyticsEngine) :
  applyFirings clock (l1 ++ l2) e = applyFirings clock l2 (applyFirings clock l1 e).
Proof.
  unfold applyFirings. apply fold_left_app.
Qed.

Lemma detectPerformanceAnomalies_firingList (clock : Clock)
    (performanceData : option PerformanceAnalytics) (e : AIAnalyticsEngine) :
  detectPerformanceAnomalies clock performanceData e
  = applyFirings clock (performanceFirings performanceData) e.
Proof.
  destruct performanceData as [p|]; [|reflexivity].
  unfold detectPerformanceAnomalies, performanceFirings. cbv zeta.
  rewrite !applyFirings_app.
  unfold performanceTrendRule, errorBurstRule, performanceSpikeRule. cbv zeta.
  destruct (averageDuration p >? 2000);
    destruct (0 <? length (errorPatterns p))%nat;
    destruct (10 <? sumCounts ep_count (errorPatterns p))%Z;
    destruct (5 <? length (performanceTrends p))%nat;
    destruct (calculateTrendDirection _ >? 50);
    reflexivity.
Qed.

Lemma detectBehaviorAnomalies_firingList (clock : Clock)
    (behaviorData : option BehaviorAnalytics) (e : AIAnalyticsEngine) :
  detectBehaviorAnomalies clock behaviorData e
  = applyFirings clock (behaviorFirings behaviorData) e.
Proof.
  destruct behaviorData as [b|]; [|reflexivity].
  unfold detectBehaviorAnomalies, behaviorFirings. cbv zeta.
  rewrite !applyFirings_app.
  unfold unusualPeaksRule, errorPathsRule. cbv zeta.
  destruct (3 <? length (errorPronePaths b))%nat;
    destruct (0 <? length (peakUsageTimes b))%nat;
    destruct (0 <? length (filter _ (peakUsageTimes b)))%nat;
    reflexivity.
Qed.

Lemma detectSystemHealthAnomalies_firingList (clock : Clock)
    (healthData : option HealthAnalytics) (e : AIAnalyticsEngine) :
  detectSystemHealthAnomalies clock healthData e
  = applyFirings clock (healthFirings healthData) e.
Proof.
  destruct healthData as [h|]; [|reflexivity].
  unfold detectSystemHealthAnomalies, healthFirings.
  destruct (currentHealth h) as [current|]; [|reflexivity]. cbv zeta.
  rewrite !applyFirings_app.
  unfold memoryTrendRule, errorRateRule, highMemoryRule. cbv zeta.
  destruct (memoryUsage current >? 80);
    destruct (errorRate current >? 5);
    destruct (5 <? length (resourceUsage h))%nat;
    destruct (calculateTrendDirection _ >? 30);
    reflexivity.
Qed.

Lemma runAnomalyDetection_firingList (clock : Clock) (now : Z)
    (performanceData : option PerformanceAnalytics)
    (behaviorData : option BehaviorAnalytics) (healthData : option HealthAnalytics)
    (e : AIAnalyticsEngine) :
  runAnomalyDetection clock now performanceData behaviorData healthData e
  = cleanupOldAnomalies now
      (applyFirings clock (passFirings performanceData behaviorData healthData) e).
Proof.
  unfold runAnomalyDetection, passFirings. cbv zeta.
  rewrite !applyFirings_app.
  rewrite detectPerformanceAnomalies_firingList, detectBehaviorAnomalies_firingList,
    detectSystemHealthAnomalies_firingList.
  reflexivity.
Qed.

Lemma passFirings_length (performanceData : option PerformanceAnalytics)
    (behaviorData : option BehaviorAnalytics) (healthData : option HealthAnalytics) :
  (length (passFirings performanceData behaviorData healthData) <= 8)%nat.
Proof.
  unfold passFirings, performanceFirings, behaviorFirings, healthFirings.
  rewrite !length_app.
  assert (Hp : forall (c : bool) (x : nat * Anomaly.Data),
             (length (if c then [x] else []) <= 1)%nat)
    by (intros [|] x; simpl; lia).
  destruct performanceData as [p|], behaviorData as [b|], healthData as [h|];
    try destruct (currentHealth h) as [current|];
    cbv zeta; rewrite ?length_app; simpl length;
    repeat match goal with
           | |- context [length (if ?c then [?x] else [])] =>
               let H := fresh "H" in
               pose proof (Hp c x) as H;
               generalize dependent (length (if c then [x] else []));
               intros
           end;
    lia.
Qed.

Lemma addAnomaly_others (r : Readings) (d : Anomaly.Data) (e : AIAnalyticsEngine) :
  insights (addAnomaly r d e) = insights e
  /\ recommendations (addAnomaly r d e) = recommendations e.
Proof.
  unfold addAnomaly. destruct (find_first _ _); [split; reflexivity|].
  apply (pruneAnomalies_others
           (mkEngine (insights e) (anomalies e ++ [newAnomaly r d]) (recommendations e))).
Qed.

Lemma addAnomaly_length (r : Readings) (d : Anomaly.Data) (e : AIAnalyticsEngine) :
  (length (anomalies (addAnomaly r d e)) <= length (anomalies e) + 1)%nat.
Proof.
  destruct (find (similarAnomaly (Anomaly.d_type d) (Anomaly.d_title d)) (anomalies e))
    as [a|] eqn:Efind.
  - rewrite (addAnomaly_found r d e a Efind). lia.
  - rewrite (addAnomaly_fresh r d e Efind), length_app, sliceLast_length.
    change (length [newAnomaly r d]) with 1%nat. lia.
Qed.

Lemma addAnomaly_fresh_room (r : Readings) (d : Anomaly.Data) (e : AIAnalyticsEngine) :
  find (similarAnomaly (Anomaly.d_type d) (Anomaly.d_title d)) (anomalies e) = None ->
  (length (anomalies e) <= 99)%nat ->
  anomalies (addAnomaly r d e) = anomalies e ++ [newAnomaly r d].
Proof.
  intros Hfind Hroom. rewrite (addAnomaly_fresh r d e Hfind).
  rewrite (sliceLast_all 99 (anomalies e) Hroom). reflexivity.
Qed.

Lemma applyFirings_others (clock : Clock) (fl : list (nat * Anomaly.Data))
    (e : AIAnalyticsEngine) :
  insights (applyFirings clock fl e) = insights e
  /\ recommendations (applyFirings clock fl e) = recommendations e.
Proof.
  revert e. induction fl as [|kd rest IH]; intros e; [split; reflexivity|].
  change (applyFirings clock (kd :: rest) e)
    with (applyFirings clock rest (addAnomaly (clock (fst kd)) (snd kd) e)).
  destruct (IH (addAnomaly (clock (fst kd)) (snd kd) e)) as [-> ->].
  apply addAnomaly_others.
Qed.

Lemma applyFirings_length (clock : Clock) (fl : list (nat * Anomaly.Data))
    (e : AIAnalyticsEngine) :
  (length (anomalies (applyFirings clock fl e)) <= length (anomalies e) + length fl)%nat.
Proof.
  revert e. induction fl as [|kd rest IH]; intros e; [simpl; lia|].
  change (applyFirings clock (kd :: rest) e)
    with (applyFirings clock rest (addAnomaly (clock (fst kd)) (snd kd) e)).
  specialize (IH (addAnomaly (clock (fst kd)) (snd kd) e)).
  pose proof (addAnomaly_length (clock (fst kd)) (snd kd) e). simpl length. lia.
Qed.

(** X1 -- One anomaly-detection pass touches the anomaly collection only:
    the insights and the recommendations are as before, and the anomaly
    collection grows by at most eight entries, one per rule whose guard
    holds. *)
Theorem anomaly_pass_adds_at_most_eight (clock : Clock) (now : Z)
    (performanceData : option PerformanceAnalytics)
    (behaviorData : option BehaviorAnalytics) (healthData : option HealthAnalytics)
    (e : AIAnalyticsEngine) :
  let e' := runAnomalyDetection clock now performanceData behaviorData healthData e in
  insights e' = insights e
  /\ recommendations e' = recommendations e
  /\ (length (anomalies e')
      <= length (anomalies e)
         + length (passFirings performanceData behaviorData healthData))%nat
  /\ (length (anomalies e') <= length (anomalies e) + 8)%nat.
Proof.
  cbv zeta. rewrite runAnomalyDetection_firingList.
  set (fl := passFirings performanceData behaviorData healthData).
  assert (Hlen : (length (anomalies (cleanupOldAnomalies now (applyFirings clock fl e)))
                  <= length (anomalies e) + length fl)%nat).
  { rewrite cleanupOldAnomalies_anomalies.
    etransitivity; [apply filter_length_le | apply applyFirings_length]. }
  split; [|split; [|split]].
  - apply (applyFirings_others clock fl e).
  - apply (applyFirings_others clock fl e).
  - exact Hlen.
  - pose proof (passFirings_length performanceData behaviorData healthData). fold fl in H. lia.
Qed.

(** ** A second pass over the same analytics *)

Lemma find_app_some {A : Type} (p : A -> bool) (l l' : list A) (x : A) :
  find p l = Some x -> find p (l ++ l') = Some x.
Proof.
  induction l as [|y rest IH]; simpl; [discriminate|].
  destruct (p y); [intros H; exact H | exact IH].
Qed.

Lemma addAnomaly_keeps_open (ty : AnomalyType) (ti : string) (r : Readings)
    (d : Anomaly.Data) (e : AIAnalyticsEngine) :
  (length (anomalies e) <= 99)%nat ->
  (exists a, find (similarAnomaly ty ti) (anomalies e) = Some a) ->
  exists a, find (similarAnomaly ty ti) (anomalies (addAnomaly r d e)) = Some a.
Proof.
  intros Hroom [a Ha].
  destruct (find (similarAnomaly (Anomaly.d_type d) (Anomaly.d_title d)) (anomalies e))
    as [x|] eqn:Efind.
  - rewrite (addAnomaly_found r d e x Efind). exists a. exact Ha.
  - rewrite (addAnomaly_fresh_room r d e Efind Hroom). exists a.
    apply find_app_some. exact Ha.
Qed.

Lemma applyFirings_keeps_open (ty : AnomalyType) (ti : string) (clock : Clock)
    (fl : list (nat * Anomaly.Data)) (e : AIAnalyticsEngine) :
  (length (anomalies e) + length fl <= 100)%nat ->
  (exists a, find (similarAnomaly ty ti) (anomalies e) = Some a) ->
  exists a, find (similarAnomaly ty ti) (anomalies (applyFirings clock fl e)) = Some a.
Proof.
  revert e. induction fl as [|kd rest IH]; intros e Hroom Hopen; [exact Hopen|].
  change (applyFirings clock (kd :: rest) e)
    with (applyFirings clock rest (addAnomaly (clock (fst kd)) (snd kd) e)).
  simpl in Hroom. apply IH.
  - pose proof (addAnomaly_length (clock (fst kd)) (snd kd) e). lia.
  - apply addAnomaly_keeps_open; [lia | exact Hopen].
Qed.

Lemma applyFirings_all_open (clock : Clock) (fl : list (nat * Anomaly.Data))
    (e : AIAnalyticsEngine) :
  (length (anomalies e) + length fl <= 100)%nat ->
  forall kd, In kd fl ->
  exists a,
    find (similarAnomaly (Anomaly.d_type (snd kd)) (Anomaly.d_title (snd kd)))
      (anomalies (applyFirings clock fl e)) = Some a.
Proof.
  revert e. induction fl as [|kd0 rest IH]; intros e Hroom kd Hin; [destruct Hin|].
  change (applyFirings clock (kd0 :: rest) e)
    with (applyFirings clock rest (addAnomaly (clock (fst kd0)) (snd kd0) e)).
  simpl in Hroom.
  pose proof (addAnomaly_length (clock (fst kd0)) (snd kd0) e) as Hlen.
  destruct Hin as [<- | Hin].
  - apply applyFirings_keeps_open; [lia|]. apply addAnomaly_leaves_unresolved.
  - apply IH; [lia | exact Hin].
Qed.

Lemma cleanup_keeps_open (ty : AnomalyType) (ti : string) (now : Z)
    (e : AIAnalyticsEngine) :
  (exists a, find (similarAnomaly ty ti) (anomalies e) = Some a) ->
  exists a, find (similarAnomaly ty ti) (anomalies (cleanupOldAnomalies now e)) = Some a.
Proof.
  intros [a Ha]. apply find_some in Ha. destruct Ha as [Hin Hsim].
  apply (find_present _ _ a); [|exact Hsim].
  rewrite cleanupOldAnomalies_anomalies. apply filter_In. split; [exact Hin|].
  unfold similarAnomaly in Hsim. apply andb_true_iff in Hsim. destruct Hsim as [_ Hopen].
  rewrite Hopen. apply orb_true_r.
Qed.

Lemma applyFirings_settled (clock : Clock) (fl : list (nat * Anomaly.Data))
    (e : AIAnalyticsEngine) :
  (forall kd, In kd fl ->
              exists a,
                find (similarAnomaly (Anomaly.d_type (snd kd)) (Anomaly.d_title (snd kd)))
                  (anomalies e) = Some a) ->
  applyFirings clock fl e = e.
Proof.
  induction fl as [|kd rest IH]; intros Hopen; [reflexivity|].
  change (applyFirings clock (kd :: rest) e)
    with (applyFirings clock rest (addAnomaly (clock (fst kd)) (snd kd) e)).
  destruct (Hopen kd (or_introl eq_refl)) as [a Ha].
  rewrite (addAnomaly_found _ _ e a Ha). apply IH.
  intros kd' Hin. apply Hopen. right. exact Hin.
Qed.

(** X2 -- With room for eight more anomalies, a second detection pass over
    the same analytics adds nothing: every rule that fires finds the
    unresolved anomaly of the first pass, so the second pass is only its
    clean-up. *)
Theorem second_pass_adds_nothing (clock1 clock2 : Clock) (now1 now2 : Z)
    (performanceData : option PerformanceAnalytics)
    (behaviorData : option BehaviorAnalytics) (healthData : option HealthAnalytics)
    (e : AIAnalyticsEngine) :
  (length (anomalies e) + 8 <= 100)%nat ->
  runAnomalyDetection clock2 now2 performanceData behaviorData healthData
    (runAnomalyDetection clock1 now1 performanceData behaviorData healthData e)
  = cleanupOldAnomalies now2
      (runAnomalyDetection clock1 now1 performanceData behaviorData healthData e).
Proof.
  intros Hroom. rewrite (runAnomalyDetection_firingList clock2).
  f_equal. apply applyFirings_settled. intros kd Hin.
  rewrite runAnomalyDetection_firingList. apply cleanup_keeps_open.
  apply applyFirings_all_open; [|exact Hin].
  pose proof (passFirings_length performanceData behaviorData healthData). lia.
Qed.

Lemma second_pass_adds_nothing_witness :
  (length (anomalies newEngine) + 8 <= 100)%nat
  /\ runAnomalyDetection exampleClock 1700000060000 (Some slowPerformance) None
       (Some (getSystemHealthAnalytics (logger sixRisingSnapshots)))
       (runAnomalyDetection exampleClock 1700000000100 (Some slowPerformance) None
          (Some (getSystemHealthAnalytics (logger sixRisingSnapshots))) newEngine)
     = cleanupOldAnomalies 1700000060000
         (runAnomalyDetection exampleClock 1700000000100 (Some slowPerformance) None
            (Some (getSystemHealthAnalytics (logger sixRisingSnapshots))) newEngine).
Proof.
  split; [simpl; lia|].
  apply second_pass_adds_nothing. simpl. lia.
Defined.

(** ** A pass over an engine without unresolved anomalies *)

Lemma fromSites_nil (lo hi : nat) : fromSites lo hi [].
Proof.
  split; constructor.
Qed.

Lemma fromSites_one (lo hi k : nat) (d : Anomaly.Data) :
  (lo <= k < hi)%nat -> dataKey d = siteKey k -> fromSites lo hi [(k, d)].
Proof.
  intros Hk Hkey. split.
  - constructor; [split; assumption | constructor].
  - simpl. constructor; constructor.
Qed.

Lemma fromSites_app (lo mid hi : nat) (l1 l2 : list (nat * Anomaly.Data)) :
  fromSites lo mid l1 -> fromSites mid hi l2 -> (lo <= mid <= hi)%nat ->
  fromSites lo hi (l1 ++ l2).
Proof.
  intros [Hf1 Hs1] [Hf2 Hs2] Hb. split.
  - apply Forall_app. split.
    + eapply Forall_impl; [|exact Hf1]. intros kd [Hr Hk]. split; [lia | exact Hk].
    + eapply Forall_impl; [|exact Hf2]. intros kd [Hr Hk]. split; [lia | exact Hk].
  - rewrite map_app. induction l1 as [|kd rest IH]; simpl; [exact Hs2|].
    inversion Hs1 as [|x l Hs Hall]; subst. inversion Hf1 as [|x l Hhead Htail]; subst.
    constructor.
    + apply IH; assumption.
    + apply Forall_app. split; [exact Hall|].
      rewrite Forall_map. eapply Forall_impl; [|exact Hf2].
      intros kd' [Hr _]. simpl. destruct Hhead as [Hh _]. lia.
Qed.

Lemma fromSites_opt (k : nat) (c : bool) (d : Anomaly.Data) :
  dataKey d = siteKey k -> fromSites k (S k) (if c then [(k, d)] else []).
Proof.
  intros Hkey. destruct c; [apply fromSites_one; [lia | exact Hkey] | apply fromSites_nil].
Qed.

Lemma fromSites_wider (lo lo' hi hi' : nat) (fl : list (nat * Anomaly.Data)) :
  (lo' <= lo)%nat -> (hi <= hi')%nat -> fromSites lo hi fl -> fromSites lo' hi' fl.
Proof.
  intros Hlo Hhi [Hf Hs]. split; [|exact Hs].
  eapply Forall_impl; [|exact Hf]. intros kd [Hr Hk]. split; [lia | exact Hk].
Qed.

Lemma performanceFirings_sites (performanceData : option PerformanceAnalytics) :
  fromSites 0 3 (performanceFirings performanceData).
Proof.
  destruct performanceData as [p|]; [|apply fromSites_nil].
  unfold performanceFirings.
  apply (fromSites_app 0 1 3); [apply fromSites_opt; reflexivity | | lia].
  apply (fromSites_app 1 2 3); [| | lia]; apply fromSites_opt; reflexivity.
Qed.

Lemma behaviorFirings_sites (behaviorData : option BehaviorAnalytics) :
  fromSites 3 5 (behaviorFirings behaviorData).
Proof.
  destruct behaviorData as [b|]; [|apply fromSites_nil].
  unfold behaviorFirings. cbv zeta.
  apply (fromSites_app 3 4 5); [| | lia]; apply fromSites_opt; reflexivity.
Qed.

Lemma healthFirings_sites (healthData : option HealthAnalytics) :
  fromSites 5 8 (healthFirings healthData).
Proof.
  destruct healthData as [h|]; [|apply fromSites_nil].
  unfold healthFirings. destruct (currentHealth h) as [current|]; [|apply fromSites_nil].
  cbv zeta.
  apply (fromSites_app 5 6 8); [apply fromSites_opt; reflexivity | | lia].
  apply (fromSites_app 6 7 8); [| | lia]; apply fromSites_opt; reflexivity.
Qed.

Lemma passFirings_sites (performanceData : option PerformanceAnalytics)
    (behaviorData : option BehaviorAnalytics) (healthData : option HealthAnalytics) :
  fromSites 0 8 (passFirings performanceData behaviorData healthData).
Proof.
  unfold passFirings.
  apply (fromSites_app 0 3 8); [apply performanceFirings_sites | | lia].
  apply (fromSites_app 3 5 8);
    [apply behaviorFirings_sites | apply healthFirings_sites | lia].
Qed.

Lemma siteKey_injective (j k : nat) :
  (j < 8)%nat -> (k < 8)%nat -> siteKey j = siteKey k -> j = k.
Proof.
  intros Hj Hk.
  do 8 (destruct j as [|j]; [do 8 (destruct k as [|k]; [vm_compute; congruence|]); lia|]).
  lia.
Qed.

(** Firings of the call sites from [k] on, in source order, are all
    appended when the unresolved anomalies at hand come from call sites
    before [k] and there is room. *)
Lemma applyFirings_fresh (clock : Clock) (fl : list (nat * Anomaly.Data)) :
  forall (k : nat) (e : AIAnalyticsEngine),
    fromSites k 8 fl ->
    (length (anomalies e) + length fl <= 100)%nat ->
    (forall a, In a (anomalies e) -> Anomaly.autoResolved a = false ->
               exists j, (j < k)%nat /\ (Anomaly.type a, Anomaly.title a) = siteKey j) ->
    anomalies (applyFirings clock fl e)
    = anomalies e ++ map (fun kd => newAnomaly (clock (fst kd)) (snd kd)) fl.
Proof.
  induction fl as [|kd rest IH]; intros k e [Hf Hs] Hroom Hopen.
  - simpl. rewrite app_nil_r. reflexivity.
  - change (applyFirings clock (kd :: rest) e)
      with (applyFirings clock rest (addAnomaly (clock (fst kd)) (snd kd) e)).
    inversion Hf as [|x l [Hk Hkey] Hrest]; subst.
    simpl in Hs. inversion Hs as [|x l Hsorted Hall]; subst.
    simpl in Hroom.
    assert (Hfind : find (similarAnomaly (Anomaly.d_type (snd kd)) (Anomaly.d_title (snd kd)))
                      (anomalies e) = None).
    { apply similar_none_find. intros b Hb.
      destruct (similarAnomaly _ _ b) eqn:Esim; [|reflexivity]. exfalso.
      unfold similarAnomaly in Esim.
      apply andb_true_iff in Esim. destruct Esim as [Esim Eopen].
      apply andb_true_iff in Esim. destruct Esim as [Ety Eti].
      apply internal_AnomalyType_dec_bl in Ety. apply String.eqb_eq in Eti.
      apply negb_true_iff in Eopen.
      destruct (Hopen b Hb Eopen) as [j [Hj Hjkey]].
      assert (j = fst kd).
      { apply siteKey_injective; [lia | lia|].
        rewrite <- Hjkey, <- Hkey. unfold dataKey. rewrite Ety, Eti. reflexivity. }
      lia. }
    rewrite (IH (S (fst kd))).
    + rewrite (addAnomaly_fresh_room _ _ e Hfind) by lia.
      rewrite <- app_assoc. reflexivity.
    + split; [|exact Hsorted].
      rewrite Forall_forall in Hrest. rewrite Forall_forall. intros kd' Hin.
      destruct (Hrest kd' Hin) as [Hr Hk']. split; [|exact Hk'].
      rewrite Forall_forall in Hall. specialize (Hall (fst kd') (in_map fst _ _ Hin)). lia.
    + pose proof (addAnomaly_length (clock (fst kd)) (snd kd) e). lia.
    + rewrite (addAnomaly_fresh_room _ _ e Hfind) by lia.
      intros a Ha Hopen_a. apply in_app_or in Ha. destruct Ha as [Ha | [<- | []]].
      * destruct (Hopen a Ha Hopen_a) as [j [Hj Hjkey]]. exists j. split; [lia | exact Hjkey].
      * exists (fst kd). split; [lia|]. simpl. exact Hkey.
Qed.

(** X3 -- The eight rules of the pass carry pairwise different dedup keys,
    so they never suppress one another: on an engine that holds no
    unresolved anomaly and has room for the additions, a pass appends
    exactly one new anomaly for every rule whose guard holds, in source
    order, after what the clean-up leaves of the old collection. *)
Theorem pass_on_settled_engine (clock : Clock) (now : Z)
    (performanceData : option PerformanceAnalytics)
    (behaviorData : option BehaviorAnalytics) (healthData : option HealthAnalytics)
    (e : AIAnalyticsEngine) :
  (forall a, In a (anomalies e) -> Anomaly.autoResolved a = true) ->
  (length (anomalies e) + 8 <= 100)%nat ->
  anomalies (runAnomalyDetection clock now performanceData behaviorData healthData e)
  = anomalies (cleanupOldAnomalies now e)
    ++ map (fun kd => newAnomaly (clock (fst kd)) (snd kd))
         (passFirings performanceData behaviorData healthData).
Proof.
  intros Hsettled Hroom.
  rewrite runAnomalyDetection_firingList, !cleanupOldAnomalies_anomalies.
  rewrite (applyFirings_fresh clock _ 0 e).
  - rewrite filter_app. f_equal.
    apply forallb_filter_id. apply forallb_forall. intros a Ha.
    apply in_map_iff in Ha. destruct Ha as [kd [<- _]]. simpl. apply orb_true_r.
  - apply passFirings_sites.
  - pose proof (passFirings_length performanceData behaviorData healthData). lia.
  - intros a Ha Hopen. rewrite (Hsettled a Ha) in Hopen. discriminate.
Qed.

Lemma pass_on_settled_engine_witness :
  (length (anomalies engineWithResolved) + 8 <= 100)%nat
  /\ anomalies
       (runAnomalyDetection exampleClock 1700000060000 (Some slowPerformance) None None
          engineWithResolved)
     = anomalies (cleanupOldAnomalies 1700000060000 engineWithResolved)
       ++ map (fun kd => newAnomaly (exampleClock (fst kd)) (snd kd))
            (passFirings (Some slowPerformance) None None).
Proof.
  split; [simpl; lia|].
  apply pass_on_settled_engine.
  - intros a [<- | []]. reflexivity.
  - simpl. lia.
Defined.

(** ** Insights and recommendations: dedup, implementation, expiry *)

Lemma addInsight_found (r : Readings) (d : Insight.Data) (e : AIAnalyticsEngine)
    (i : Insight.PredictiveInsight) :
  find (similarInsight (Insight.d_type d) (Insight.d_title d)) (insights e) = Some i ->
  addInsight r d e = e.
Proof.
  intros H. unfold addInsight, find_first. simpl. rewrite H. reflexivity.
Qed.

Lemma addInsight_fresh (r : Readings) (d : Insight.Data) (e : AIAnalyticsEngine) :
  find (similarInsight (Insight.d_type d) (Insight.d_title d)) (insights e) = None ->
  insights (addInsight r d e) = sliceLast 49 (insights e) ++ [newInsight r d].
Proof.
  intros H. unfold addInsight, find_first. simpl. rewrite H.
  rewrite pruneInsights_insights. simpl.
  rewrite sliceLast_app by (simpl; lia). reflexivity.
Qed.

Lemma similarInsight_new (ty : InsightType) (ti : string) (r : Readings) (d : Insight.Data) :
  similarInsight ty ti (newInsight r d) = true ->
  Insight.d_type d = ty /\ Insight.d_title d = ti.
Proof.
  unfold similarInsight. simpl. intros H.
  apply andb_true_iff in H. destruct H as [Hty Hti]. split.
  - apply internal_InsightType_dec_bl. exact Hty.
  - apply String.eqb_eq. exact Hti.
Qed.

Lemma similarInsight_new_own (r : Readings) (d : Insight.Data) :
  similarInsight (Insight.d_type d) (Insight.d_title d) (newInsight r d) = true.
Proof.
  unfold similarInsight. simpl. rewrite String.eqb_refl.
  rewrite (internal_InsightType_dec_lb _ _ eq_refl). reflexivity.
Qed.

Lemma engineStep_insights_other (op : EngineOp) (e : AIAnalyticsEngine) :
  match op with
  | OpAddInsight _ _ | OpCleanupInsights _ => True
  | _ => insights (engineStep op e) = insights e
  end.
Proof.
  destruct op; simpl; try exact I; try reflexivity.
  - apply addAnomaly_others.
  - unfold addRecommendation. destruct (find_first _ _); [reflexivity|].
    unfold pruneRecommendations. simpl. destruct (30 <? _)%nat; reflexivity.
  - apply resolveAnomaly_others.
  - unfold markRecommendationImplemented. destruct (find_first _ _); reflexivity.
Qed.

(** In a reachable engine no two insights share type and title. *)
Lemma reachable_insight_unique (e : AIAnalyticsEngine) :
  reachable e ->
  forall ty ti, (countWhere (similarInsight ty ti) (insights e) <= 1)%nat.
Proof.
  induction 1 as [|op e Hreach IH]; intros ty ti.
  - unfold countWhere. simpl. lia.
  - pose proof (engineStep_insights_other op e) as Hother.
    destruct op; try (rewrite Hother; apply IH).
    + simpl.
      destruct (find (similarInsight (Insight.d_type d) (Insight.d_title d)) (insights e))
        as [i|] eqn:Efind.
      * rewrite (addInsight_found r d e i Efind). apply IH.
      * rewrite (addInsight_fresh r d e Efind). unfold countWhere.
        rewrite filter_app, length_app. simpl.
        destruct (similarInsight ty ti (newInsight r d)) eqn:Enew; simpl.
        -- apply similarInsight_new in Enew. destruct Enew as [<- <-].
           apply find_none_filter in Efind.
           pose proof (filter_skipn_le
                         (similarInsight (Insight.d_type d) (Insight.d_title d))
                         (length (insights e) - 49) (insights e)) as Hle.
           unfold sliceLast. rewrite Efind in Hle. simpl in Hle. lia.
        -- pose proof (filter_skipn_le (similarInsight ty ti)
                         (length (insights e) - 49) (insights e)) as Hle.
           specialize (IH ty ti). unfold countWhere in IH. unfold sliceLast. lia.
    + simpl. unfold countWhere. etransitivity; [apply filter_filter_le | apply IH].
Qed.

Lemma addInsight_leaves_one (r : Readings) (d : Insight.Data) (e : AIAnalyticsEngine) :
  exists i,
    find (similarInsight (Insight.d_type d) (Insight.d_title d))
      (insights (addInsight r d e)) = Some i.
Proof.
  destruct (find (similarInsight (Insight.d_type d) (Insight.d_title d)) (insights e))
    as [i|] eqn:Efind.
  - exists i. rewrite (addInsight_found r d e i Efind). exact Efind.
  - apply (find_present _ _ (newInsight r d)).
    + rewrite (addInsight_fresh r d e Efind). apply in_or_app. right. left. reflexivity.
    + apply similarInsight_new_own.
Qed.

(** X4 -- Insight dedup: an insight is dropped, not merged or refreshed,
    when the collection already holds one of its type and title, whatever
    the rest of its data; otherwise it is appended as the newest entry (the
    oldest making room at 50).  A rule that fires twice leaves what the
    first firing left, and in a reachable engine the collection then holds
    exactly one insight of that type and title. *)
Theorem insight_dedup_law (e : AIAnalyticsEngine) (d : Insight.Data) (r1 r2 : Readings) :
  ((exists i, In i (insights e)
              /\ Insight.type i = Insight.d_type d
              /\ Insight.title i = Insight.d_title d) ->
   addInsight r1 d e = e)
  /\ ((forall i, In i (insights e) ->
                 similarInsight (Insight.d_type d) (Insight.d_title d) i = false) ->
      insights (addInsight r1 d e) = sliceLast 49 (insights e) ++ [newInsight r1 d])
  /\ addInsight r2 d (addInsight r1 d e) = addInsight r1 d e
  /\ (reachable e ->
      countWhere (similarInsight (Insight.d_type d) (Insight.d_title d))
        (insights (addInsight r1 d e)) = 1%nat).
Proof.
  split; [|split; [|split]].
  - intros [i [Hin [Hty Hti]]].
    destruct (find_present (similarInsight (Insight.d_type d) (Insight.d_title d))
                (insights e) i Hin) as [j Hj].
    + unfold similarInsight. rewrite Hty, Hti, String.eqb_refl.
      rewrite (internal_InsightType_dec_lb _ _ eq_refl). reflexivity.
    + apply (addInsight_found r1 d e j Hj).
  - intros Hnone. apply addInsight_fresh.
    destruct (find _ (insights e)) as [x|] eqn:E; [|reflexivity].
    apply find_some in E. destruct E as [Hin Hx]. rewrite (Hnone x Hin) in Hx. discriminate.
  - destruct (addInsight_leaves_one r1 d e) as [i Hi].
    apply (addInsight_found r2 d _ i Hi).
  - intros Hreach. destruct (addInsight_leaves_one r1 d e) as [i Hi].
    pose proof (reachable_insight_unique _ (reachable_step (OpAddInsight r1 d) e Hreach)
                  (Insight.d_type d) (Insight.d_title d)) as Hle.
    simpl in Hle. apply find_some_filter in Hi. unfold countWhere in *. lia.
Qed.

Lemma addRecommendation_found (r : Readings) (d : Recommendation.Data)
    (e : AIAnalyticsEngine) (x : Recommendation.SmartRecommendation) :
  find (similarRecommendation (Recommendation.d_category d) (Recommendation.d_title d))
    (recommendations e) = Some x ->
  addRecommendation r d e = e.
Proof.
  intros H. unfold addRecommendation, find_first. simpl. rewrite H. reflexivity.
Qed.

Lemma addRecommendation_fresh (r : Readings) (d : Recommendation.Data)
    (e : AIAnalyticsEngine) :
  find (similarRecommendation (Recommendation.d_category d) (Recommendation.d_title d))
    (recommendations e) = None ->
  recommendations (addRecommendation r d e)
  = sliceLast 29 (recommendations e) ++ [newRecommendation r d].
Proof.
  intros H. unfold addRecommendation, find_first. simpl. rewrite H.
  rewrite pruneRecommendations_recommendations. simpl.
  rewrite sliceLast_app by (simpl; lia). reflexivity.
Qed.

Lemma similarRecommendation_new (c : Category) (ti : string) (r : Readings)
    (d : Recommendation.Data) :
  similarRecommendation c ti (newRecommendation r d) = true ->
  Recommendation.d_category d = c /\ Recommendation.d_title d = ti.
Proof.
  unfold similarRecommendation. simpl. rewrite andb_true_r. intros H.
  apply andb_true_iff in H. destruct H as [Hc Hti]. split.
  - apply internal_Category_dec_bl. exact Hc.
  - apply String.eqb_eq. exact Hti.
Qed.

Lemma similarRecommendation_new_own (r : Readings) (d : Recommendation.Data) :
  similarRecommendation (Recommendation.d_category d) (Recommendation.d_title d)
    (newRecommendation r d) = true.
Proof.
  unfold similarRecommendation. simpl. rewrite String.eqb_refl.
  rewrite (internal_Category_dec_lb _ _ eq_refl). reflexivity.
Qed.

Lemma implemented_not_similar (c : Category) (ti : string) (now : Z)
    (impact : option JsObject) (r : Recommendation.SmartRecommendation) :
  similarRecommendation c ti (markImplemented now impact r) = false.
Proof.
  unfold similarRecommendation. simpl. apply andb_false_r.
Qed.

Lemma updateFirst_implement_count (c : Category) (ti : string) (now : Z)
    (impact : option JsObject) (p : Recommendation.SmartRecommendation -> bool)
    (l : list Recommendation.SmartRecommendation) :
  (countWhere (similarRecommendation c ti) (updateFirst p (markImplemented now impact) l)
   <= countWhere (similarRecommendation c ti) l)%nat.
Proof.
  unfold countWhere. induction l as [|x rest IH]; simpl; [lia|].
  destruct (p x); simpl.
  - rewrite implemented_not_similar. destruct (similarRecommendation c ti x); simpl; lia.
  - destruct (similarRecommendation c ti x); simpl; lia.
Qed.

Lemma engineStep_recommendations_other (op : EngineOp) (e : AIAnalyticsEngine) :
  match op with
  | OpAddRecommendation _ _ | OpCleanupRecommendations _ | OpMarkImplemented _ _ _ => True
  | _ => recommendations (engineStep op e) = recommendations e
  end.
Proof.
  destruct op; simpl; try exact I; try reflexivity.
  - apply addAnomaly_others.
  - unfold addInsight. destruct (find_first _ _); [reflexivity|].
    unfold pruneInsights. simpl. destruct (50 <? _)%nat; reflexivity.
  - apply resolveAnomaly_others.
Qed.

(** In a reachable engine at most one recommendation that is not implemented
    carries a given category and title. *)
Lemma reachable_recommendation_unique (e : AIAnalyticsEngine) :
  reachable e ->
  forall c ti, (countWhere (similarRecommendation c ti) (recommendations e) <= 1)%nat.
Proof.
  induction 1 as [|op e Hreach IH]; intros c ti.
  - unfold countWhere. simpl. lia.
  - pose proof (engineStep_recommendations_other op e) as Hother.
    destruct op; try (rewrite Hother; apply IH).
    + simpl.
      destruct (find (similarRecommendation (Recommendation.d_category d)
                        (Recommendation.d_title d)) (recommendations e))
        as [x|] eqn:Efind.
      * rewrite (addRecommendation_found r d e x Efind). apply IH.
      * rewrite (addRecommendation_fresh r d e Efind). unfold countWhere.
        rewrite filter_app, length_app. simpl.
        destruct (similarRecommendation c ti (newRecommendation r d)) eqn:Enew; simpl.
        -- apply similarRecommendation_new in Enew. destruct Enew as [<- <-].
           apply find_none_filter in Efind.
           pose proof (filter_skipn_le
                         (similarRecommendation (Recommendation.d_category d)
                            (Recommendation.d_title d))
                         (length (recommendations e) - 29) (recommendations e)) as Hle.
           unfold sliceLast. rewrite Efind in Hle. simpl in Hle. lia.
        -- pose proof (filter_skipn_le (similarRecommendation c ti)
                         (length (recommendations e) - 29) (recommendations e)) as Hle.
           specialize (IH c ti). unfold countWhere in IH. unfold sliceLast. lia.
    + simpl. unfold countWhere. etransitivity; [apply filter_filter_le | apply IH].
    + simpl. unfold markRecommendationImplemented.
      destruct (find_first _ _); [|apply IH]. simpl.
      etransitivity; [apply updateFirst_implement_count | apply IH].
Qed.

Lemma addRecommendation_leaves_open (r : Readings) (d : Recommendation.Data)
    (e : AIAnalyticsEngine) :
  exists x,
    find (similarRecommendation (Recommendation.d_category d) (Recommendation.d_title d))
      (recommendations (addRecommendation r d e)) = Some x.
Proof.
  destruct (find (similarRecommendation (Recommendation.d_category d)
                    (Recommendation.d_title d)) (recommendations e)) as [x|] eqn:Efind.
  - exists x. rewrite (addRecommendation_found r d e x Efind). exact Efind.
  - apply (find_present _ _ (newRecommendation r d)).
    + rewrite (addRecommendation_fresh r d e Efind).
      apply in_or_app. right. left. reflexivity.
    + apply similarRecommendation_new_own.
Qed.

(** X5 -- Recommendation dedup: a recommendation is dropped when one of its
    category and title is waiting to be implemented, and a rule that fires
    twice leaves exactly one such recommendation (in a reachable engine).
    Implemented recommendations do not count: when every recommendation of
    that category and title is implemented, the rule appends a new one, not
    implemented and valid for seven days. *)
Theorem recommendation_dedup_law (e : AIAnalyticsEngine) (d : Recommendation.Data)
    (r1 r2 : Readings) :
  ((exists x, In x (recommendations e)
              /\ Recommendation.category x = Recommendation.d_category d
              /\ Recommendation.title x = Recommendation.d_title d
              /\ Recommendation.implemented x = false) ->
   addRecommendation r1 d e = e)
  /\ ((forall x, In x (recommendations e) ->
                 sameRecommendation (Recommendation.d_category d)
                   (Recommendation.d_title d) x = true ->
                 Recommendation.implemented x = true) ->
      recommendations (addRecommendation r1 d e)
      = sliceLast 29 (recommendations e) ++ [newRecommendation r1 d]
      /\ Recommendation.implemented (newRecommendation r1 d) = false
      /\ Recommendation.validUntil (newRecommendation r1 d)
         = (expiryBase r1 + 7 * 86400000)%Z)
  /\ addRecommendation r2 d (addRecommendation r1 d e) = addRecommendation r1 d e
  /\ (reachable e ->
      countWhere (similarRecommendation (Recommendation.d_category d)
                    (Recommendation.d_title d))
        (recommendations (addRecommendation r1 d e)) = 1%nat).
Proof.
  split; [|split; [|split]].
  - intros [x [Hin [Hc [Hti Himpl]]]].
    destruct (find_present (similarRecommendation (Recommendation.d_category d)
                              (Recommendation.d_title d)) (recommendations e) x Hin)
      as [y Hy].
    + unfold similarRecommendation. rewrite Hc, Hti, Himpl, String.eqb_refl.
      rewrite (internal_Category_dec_lb _ _ eq_refl). reflexivity.
    + apply (addRecommendation_found r1 d e y Hy).
  - intros Hdone. split; [|split; reflexivity].
    apply addRecommendation_fresh.
    destruct (find _ (recommendations e)) as [x|] eqn:E; [|reflexivity].
    apply find_some in E. destruct E as [Hin Hx].
    unfold similarRecommendation in Hx. apply andb_true_iff in Hx.
    destruct Hx as [Hsame Hopen].
    rewrite (Hdone x Hin Hsame) in Hopen. discriminate.
  - destruct (addRecommendation_leaves_open r1 d e) as [x Hx].
    apply (addRecommendation_found r2 d _ x Hx).
  - intros Hreach. destruct (addRecommendation_leaves_open r1 d e) as [x Hx].
    pose proof (reachable_recommendation_unique _
                  (reachable_step (OpAddRecommendation r1 d) e Hreach)
                  (Recommendation.d_category d) (Recommendation.d_title d)) as Hle.
    simpl in Hle. apply find_some_filter in Hx. unfold countWhere in *. lia.
Qed.




(** X7 -- Lifetimes: an insight lives 24 hours and a recommendation seven
    days from the clock reading taken when it was built.  A newly added one
    is still in its collection after a clean-up exactly when the clean-up
    runs before that time is over, and whatever a clean-up leaves has its
    expiry ahead. *)
Theorem insight_and_recommendation_lifetime (now : Z) (r : Readings)
    (e : AIAnalyticsEngine) :
  (forall d,
      (forall i, In i (insights e) ->
                 similarInsight (Insight.d_type d) (Insight.d_title d) i = false) ->
      (In (newInsight r d) (insights (cleanupOldInsights now (addInsight r d e)))
       <-> (now < expiryBase r + 86400000)%Z))
  /\ (forall d,
         (forall x, In x (recommendations e) ->
                    similarRecommendation (Recommendation.d_category d)
                      (Recommendation.d_title d) x = false) ->
         (In (newRecommendation r d)
            (recommendations (cleanupOldRecommendations now (addRecommendation r d e)))
          <-> (now < expiryBase r + 604800000)%Z))
  /\ (forall i, In i (insights (cleanupOldInsights now e)) ->
                In i (insights e) /\ (now < Insight.expiresAt i)%Z)
  /\ (forall x, In x (recommendations (cleanupOldRecommendations now e)) ->
                In x (recommendations e) /\ (now < Recommendation.validUntil x)%Z).
Proof.
  split; [|split; [|split]].
  - intros d Hnone. simpl. rewrite filter_In. simpl.
    rewrite addInsight_fresh
      by (destruct (find _ (insights e)) as [x|] eqn:E; [|reflexivity];
          apply find_some in E; destruct E as [Hin Hx];
          rewrite (Hnone x Hin) in Hx; discriminate).
    change DAY_MS with 86400000%Z. rewrite Z.ltb_lt. split.
    + intros [_ H]. exact H.
    + intros H. split; [|exact H]. apply in_or_app. right. left. reflexivity.
  - intros d Hnone. simpl. rewrite filter_In. simpl.
    rewrite addRecommendation_fresh
      by (destruct (find _ (recommendations e)) as [x|] eqn:E; [|reflexivity];
          apply find_some in E; destruct E as [Hin Hx];
          rewrite (Hnone x Hin) in Hx; discriminate).
    change (7 * DAY_MS)%Z with 604800000%Z. rewrite Z.ltb_lt. split.
    + intros [_ H]. exact H.
    + intros H. split; [|exact H]. apply in_or_app. right. left. reflexivity.
  - intros i Hi. simpl in Hi. apply filter_In in Hi. rewrite Z.ltb_lt in Hi. exact Hi.
  - intros x Hx. simpl in Hx. apply filter_In in Hx. rewrite Z.ltb_lt in Hx. exact Hx.
Qed.

Lemma filter_twice_implies {A : Type} (p q : A -> bool) (l : list A) :
  (forall x, q x = true -> p x = true) -> filter q (filter p l) = filter q l.
Proof.
  intros Himp. induction l as [|x rest IH]; simpl; [reflexivity|].
  destruct (p x) eqn:Ep; simpl.
  - rewrite IH. reflexivity.
  - destruct (q x) eqn:Eq; [rewrite (Himp x Eq) in Ep; discriminate | exact IH].
Qed.

(** X8 -- The anomaly clean-up never removes an unresolved anomaly, however
    old; it removes the resolved ones detected 24 hours ago or earlier (the
    time of resolution plays no part) and keeps the rest in order.  A later
    clean-up subsumes an earlier one. *)
Theorem anomaly_cleanup_keeps_unresolved (now : Z) (e : AIAnalyticsEngine) :
  (forall a, In a (anomalies e) -> Anomaly.autoResolved a = false ->
             In a (anomalies (cleanupOldAnomalies now e)))
  /\ (forall a, In a (anomalies (cleanupOldAnomalies now e)) <->
                In a (anomalies e)
                /\ (Anomaly.autoResolved a = false
                    \/ (now - 86400000 < Anomaly.detectedAt a)%Z))
  /\ (forall earlier, (earlier <= now)%Z ->
                      cleanupOldAnomalies now (cleanupOldAnomalies earlier e)
                      = cleanupOldAnomalies now e)
  /\ (forall a t anomalyId,
         In a (anomalies (cleanupOldAnomalies now (resolveAnomaly t anomalyId e))) ->
         Anomaly.autoResolved a = true ->
         (now - 86400000 < Anomaly.detectedAt a)%Z).
Proof.
  assert (Hin : forall e0 a, In a (anomalies (cleanupOldAnomalies now e0)) <->
                  In a (anomalies e0)
                  /\ (Anomaly.autoResolved a = false
                      \/ (now - 86400000 < Anomaly.detectedAt a)%Z)).
  { intros e0 a. rewrite cleanupOldAnomalies_anomalies, filter_In.
    change DAY_MS with 86400000%Z.
    rewrite orb_true_iff, negb_true_iff, Z.ltb_lt. tauto. }
  split; [|split; [|split]].
  - intros a Ha Hopen. apply Hin. split; [exact Ha | left; exact Hopen].
  - apply Hin.
  - intros earlier Hle. unfold cleanupOldAnomalies. simpl. f_equal.
    apply filter_twice_implies. intros a Ha.
    apply orb_true_iff in Ha. apply orb_true_iff. destruct Ha as [Ha | Ha]; [left | right; exact Ha].
    apply Z.ltb_lt in Ha. apply Z.ltb_lt. lia.
  - intros a t anomalyId Ha Hres. apply Hin in Ha. destruct Ha as [_ [Hopen | Hrecent]].
    + rewrite Hopen in Hres. discriminate.
    + exact Hrecent.
Qed.

(** X9 -- The system score of the dashboard is a whole-penalty score between
    10 and 100: the six deductions (20, 15, 10, 15, 20, 10) sum to 90, so
    the lower clamp at 0 never applies, and without analytics the score is
    100. *)
Theorem system_score_range (performanceData : option PerformanceAnalytics)
    (behaviorData : option BehaviorAnalytics) (healthData : option HealthAnalytics) :
  10 <= calculateSystemScore performanceData behaviorData healthData
  /\ calculateSystemScore performanceData behaviorData healthData <= 100
  /\ calculateSystemScore None None None == 100.
Proof.
  split; [|split; [|reflexivity]];
    unfold calculateSystemScore;
    destruct performanceData as [p|], behaviorData as [b|], healthData as [h|];
    try destruct (currentHealth h) as [current|]; cbv zeta;
    repeat match goal with
           | |- context [if ?c then _ else _] => destruct c
           end;
    vm_compute; discriminate.
Qed.

(** ** The order of the dashboard lists *)

Lemma insertByKey_perm {A : Type} (key : A -> Z) (x : A) (l : list A) :
  Permutation (x :: l) (insertByKey key x l).
Proof.
  induction l as [|y rest IH]; simpl; [apply Permutation_refl|].
  destruct (key y <? key x)%Z; [apply Permutation_refl|].
  etransitivity; [apply perm_swap|]. apply perm_skip. exact IH.
Qed.

Lemma insertByKey_sorted {A : Type} (key : A -> Z) (x : A) (l : list A) :
  newestFirst key l -> newestFirst key (insertByKey key x l).
Proof.
  unfold newestFirst. induction l as [|y rest IH]; intros Hsorted; simpl.
  - constructor; constructor.
  - inversion Hsorted as [|y' l' Hrest Hall]; subst.
    destruct (key y <? key x)%Z eqn:E.
    + apply Z.ltb_lt in E. constructor; [exact Hsorted|].
      constructor; [lia|]. eapply Forall_impl; [|exact Hall]. simpl. intros z Hz. lia.
    + apply Z.ltb_ge in E. constructor; [apply IH; exact Hrest|].
      apply (Permutation_Forall (insertByKey_perm key x rest)).
      constructor; [exact E | exact Hall].
Qed.

Lemma insertByKey_stable {A : Type} (key : A -> Z) (k : Z) (x : A) (l : list A) :
  newestFirst key l ->
  stampedAt key k (insertByKey key x l) = stampedAt key k l ++ stampedAt key k [x].
Proof.
  unfold newestFirst, stampedAt. induction l as [|y rest IH]; intros Hsorted; simpl.
  - reflexivity.
  - inversion Hsorted as [|y' l' Hrest Hall]; subst.
    destruct (key y <? key x)%Z eqn:E.
    + apply Z.ltb_lt in E. simpl.
      destruct (key x =? k)%Z eqn:Ex.
      * apply Z.eqb_eq in Ex.
        assert (Hnone : filter (fun z => (key z =? k)%Z) (y :: rest) = []).
        { apply find_none_filter.
          destruct (find _ (y :: rest)) as [z|] eqn:Ez; [|reflexivity].
          apply find_some in Ez. destruct Ez as [Hz Hk]. apply Z.eqb_eq in Hk.
          destruct Hz as [<- | Hz]; [lia|].
          rewrite Forall_forall in Hall. specialize (Hall z Hz). simpl in Hall. lia. }
        simpl in Hnone. rewrite Hnone. reflexivity.
      * rewrite app_nil_r. reflexivity.
    + simpl. rewrite (IH Hrest). destruct (key y =? k)%Z; reflexivity.
Qed.

Lemma sortNewestFirst_spec {A : Type} (key : A -> Z) (l acc : list A) :
  newestFirst key acc ->
  newestFirst key (fold_left (fun sorted x => insertByKey key x sorted) l acc)
  /\ Permutation (acc ++ l) (fold_left (fun sorted x => insertByKey key x sorted) l acc)
  /\ forall k,
       stampedAt key k (fold_left (fun sorted x => insertByKey key x sorted) l acc)
       = stampedAt key k acc ++ stampedAt key k l.
Proof.
  revert acc. induction l as [|x rest IH]; intros acc Hacc; simpl.
  - split; [exact Hacc|]. split; [rewrite app_nil_r; apply Permutation_refl|].
    intros k. unfold stampedAt. simpl. rewrite app_nil_r. reflexivity.
  - destruct (IH (insertByKey key x acc) (insertByKey_sorted key x acc Hacc))
      as (Hs & Hp & Hst).
    split; [exact Hs|]. split.
    + etransitivity; [|exact Hp].
      etransitivity; [apply Permutation_sym, Permutation_middle|].
      apply (Permutation_app_tail rest (insertByKey_perm key x acc)).
    + intros k. rewrite Hst, (insertByKey_stable key k x acc Hacc).
      rewrite <- app_assoc. f_equal.
      unfold stampedAt. simpl. destruct (key x =? k)%Z; reflexivity.
Qed.

(** X10 -- The three lists of the dashboard hold exactly the entries of the
    engine's collections, newest first: insights and recommendations by
    creation time, anomalies by detection time; entries with the same time
    stay in the order of the collection. *)
Theorem dashboard_lists_newest_first (performanceData : option PerformanceAnalytics)
    (behaviorData : option BehaviorAnalytics) (healthData : option HealthAnalytics)
    (e : AIAnalyticsEngine) :
  let d := getDashboard performanceData behaviorData healthData e in
  (Permutation (insights e) (dash_insights d)
   /\ newestFirst Insight.createdAt (dash_insights d)
   /\ forall t, stampedAt Insight.createdAt t (dash_insights d)
                = stampedAt Insight.createdAt t (insights e))
  /\ (Permutation (anomalies e) (dash_anomalies d)
      /\ newestFirst Anomaly.detectedAt (dash_anomalies d)
      /\ forall t, stampedAt Anomaly.detectedAt t (dash_anomalies d)
                   = stampedAt Anomaly.detectedAt t (anomalies e))
  /\ (Permutation (recommendations e) (dash_recommendations d)
      /\ newestFirst Recommendation.createdAt (dash_recommendations d)
      /\ forall t, stampedAt Recommendation.createdAt t (dash_recommendations d)
                   = stampedAt Recommendation.createdAt t (recommendations e)).
Proof.
  cbv zeta. unfold getDashboard.
  cbn [dash_insights dash_anomalies dash_recommendations]. unfold sortNewestFirst.
  split; [|split].
  - destruct (sortNewestFirst_spec Insight.createdAt (insights e) [])
      as (Hs & Hp & Hst); [constructor|].
    split; [exact Hp | split; [exact Hs | exact Hst]].
  - destruct (sortNewestFirst_spec Anomaly.detectedAt (anomalies e) [])
      as (Hs & Hp & Hst); [constructor|].
    split; [exact Hp | split; [exact Hs | exact Hst]].
  - destruct (sortNewestFirst_spec Recommendation.createdAt (recommendations e) [])
      as (Hs & Hp & Hst); [constructor|].
    split; [exact Hp | split; [exact Hs | exact Hst]].
Qed.

(** * Further properties of the collector *)

(** ** Click paths and the session id *)

Lemma pruneMetrics_session (c : AdvancedChangeLogger) :
  currentSession (pruneMetrics c) = currentSession c
  /\ currentClickPath (pruneMetrics c) = currentClickPath c.
Proof.
  unfold pruneMetrics.
  destruct (1000 <? length (performanceMetrics c))%nat; simpl;
    destruct (1000 <? length (userBehaviorMetrics c))%nat; simpl;
    destruct (1000 <? length (systemHealthMetrics c))%nat; split; reflexivity.
Qed.

Lemma collectorStep_session {CL : ChangeLogger} (op : CollectorOp) (w : World) :
  currentSession (logger (collectorStep op w)) = currentSession (logger w).
Proof.
  destruct op; simpl; try reflexivity.
  - unfold trackUserBehavior. rewrite (proj1 (pruneMetrics_session _)). reflexivity.
  - rewrite (proj1 (pruneMetrics_session _)). reflexivity.
  - destruct result; simpl; rewrite (proj1 (pruneMetrics_session _)); reflexivity.
Qed.

(** What holds of the behaviour samples and the click path in every
    reachable world. *)
Lemma behaviour_samples_invariant {CL : ChangeLogger} (w : World) :
  worldReachable w ->
  (length (currentClickPath (logger w)) <= 10)%nat
  /\ forall b, In b (userBehaviorMetrics (logger w)) ->
               (length (clickPath b) <= 10)%nat
               /\ sessionId b = currentSession (logger w).
Proof.
  induction 1 as [r log | op w Hreach [IHpath IHsamples]].
  - simpl. split; [lia | intros b []].
  - destruct op; simpl.
    + split; [|exact IHsamples].
      rewrite length_app. simpl.
      destruct (10 <? length (currentClickPath (logger w)) + 1)%nat eqn:E.
      * destruct (currentClickPath (logger w) ++ [elementInfo]) eqn:El; simpl; [lia|].
        apply (f_equal (@length string)) in El. rewrite length_app in El. simpl in El. lia.
      * apply Nat.ltb_ge in E. rewrite length_app. simpl. lia.
    + unfold trackUserBehavior.
      rewrite (proj1 (pruneMetrics_session _)), (proj2 (pruneMetrics_session _)),
        pruneMetrics_behavior. simpl.
      split; [exact IHpath|]. intros b0 Hb. apply In_sliceLast in Hb.
      apply in_app_or in Hb. destruct Hb as [Hb | [<- | []]].
      * apply IHsamples. exact Hb.
      * simpl. split; [exact IHpath | reflexivity].
    + unfold recordSystemHealth. simpl.
      rewrite (proj1 (pruneMetrics_session _)), (proj2 (pruneMetrics_session _)),
        pruneMetrics_behavior. simpl.
      split; [exact IHpath|]. intros b Hb. apply In_sliceLast in Hb.
      apply IHsamples. exact Hb.
    + split; [exact IHpath | exact IHsamples].
    + destruct result; simpl;
        rewrite (proj1 (pruneMetrics_session _)), (proj2 (pruneMetrics_session _)),
          pruneMetrics_behavior; simpl;
        (split; [exact IHpath|]); intros b Hb; apply In_sliceLast in Hb;
        apply IHsamples; exact Hb.
Qed.



(** X12 -- One session per collector: the session id is generated once,
    no operation changes it, and every behaviour sample of a reachable
    collector carries it. *)
Theorem single_session {CL : ChangeLogger} (w : World) :
  worldReachable w ->
  (forall op, currentSession (logger (collectorStep op w)) = currentSession (logger w))
  /\ (forall b, In b (userBehaviorMetrics (logger w)) ->
                sessionId b = currentSession (logger w))
  /\ (forall b1 b2, In b1 (userBehaviorMetrics (logger w)) ->
                    In b2 (userBehaviorMetrics (logger w)) ->
                    sessionId b1 = sessionId b2).
Proof.
  intros Hreach. destruct (behaviour_samples_invariant w Hreach) as [_ Hsamples].
  split; [intros op; apply collectorStep_session|].
  split; [intros b Hb; apply (Hsamples b Hb)|].
  intros b1 b2 H1 H2.
  rewrite (proj2 (Hsamples b1 H1)), (proj2 (Hsamples b2 H2)). reflexivity.
Qed.

Lemma single_session_witness :
  Forall (fun b => sessionId b = "session_1700000000000_k3x9q2m1z")
    (userBehaviorMetrics (logger exportTracked)).
Proof.
  apply Forall_forall. intros b Hb.
  exact (proj1 (proj2 (@single_session specChangeLogger exportTracked
                         (@worldReachable_step specChangeLogger _ _
                            (@worldReachable_new specChangeLogger _ _))))
           b Hb).
Defined.

(** ** Health snapshots, alerts and the score *)

Lemma len_nonneg {A : Type} (l : list A) : 0 <= len l.
Proof.
  apply ofNat_nonneg.
Qed.

Lemma len_filter_le {A : Type} (p : A -> bool) (l : list A) : len (filter p l) <= len l.
Proof.
  apply ofNat_le. apply filter_length_le.
Qed.

Lemma ratio_percent_range (n d : number) :
  0 <= n -> n <= d -> 0 < d -> 0 <= n / d * 100 /\ n / d * 100 <= 100.
Proof.
  intros Hn Hle Hd.
  assert (H0 : 0 <= n / d) by (apply Qle_shift_div_l; [exact Hd | lra]).
  assert (H1 : n / d <= 1) by (apply Qle_shift_div_r; [exact Hd | lra]).
  split; lra.
Qed.

(** What holds of every snapshot a reachable collector keeps. *)
Lemma snapshots_invariant {CL : ChangeLogger} (w : World) :
  worldReachable w ->
  forall s, In s (systemHealthMetrics (logger w)) ->
            0 <= errorRate s /\ errorRate s <= 100
            /\ 0 <= operationsPerMinute s
            /\ activeUsers s = 1 /\ databaseConnections s = 1.
Proof.
  induction 1 as [r log | op w Hreach IH]; [intros s []|].
  destruct op; simpl; try exact IH.
  - unfold trackUserBehavior. rewrite pruneMetrics_health. simpl.
    intros s Hs. apply In_sliceLast in Hs. apply IH. exact Hs.
  - rewrite pruneMetrics_health. simpl.
    intros s Hs. apply In_sliceLast in Hs.
    apply in_app_or in Hs. destruct Hs as [Hs | [<- | []]]; [apply IH; exact Hs|].
    simpl.
    set (recent := getRecentChanges (hr_now r) 1 (changeLog w)).
    assert (Hrate : 0 <= (if (0 <? length recent)%nat
                          then len (filter (fun ch => String.eqb (action_type ch) "SYSTEM")
                                      recent) / len recent * 100
                          else 0)
                    /\ (if (0 <? length recent)%nat
                        then len (filter (fun ch => String.eqb (action_type ch) "SYSTEM")
                                    recent) / len recent * 100
                        else 0) <= 100).
    { destruct (0 <? length recent)%nat eqn:E.
      - apply Nat.ltb_lt in E. apply ratio_percent_range.
        + apply len_nonneg.
        + apply len_filter_le.
        + apply ofNat_pos. exact E.
      - split; [apply Qle_refl | discriminate]. }
    destruct Hrate as [H0 H100].
    split; [exact H0|]. split; [exact H100|]. split; [apply len_nonneg|].
    split; reflexivity.
  - destruct result; simpl; rewrite pruneMetrics_health; simpl;
      intros s Hs; apply In_sliceLast in Hs; apply IH; exact Hs.
Qed.

Lemma lastOf_In {A : Type} (l : list A) (x : A) : lastOf l = Some x -> In x l.
Proof.
  unfold lastOf. destruct l as [|y rest]; [discriminate|].
  intros H. apply nth_error_In in H. exact H.
Qed.

(** X13 -- Every health snapshot that a reachable collector keeps has an
    error rate between 0 and 100 (the share of SYSTEM entries among the
    changes of the last minute, 0 when there are none), a non-negative
    operation count, and the constants 1 for active users and database
    connections. *)
Theorem health_snapshot_ranges {CL : ChangeLogger} (w : World) :
  worldReachable w ->
  (forall s, In s (systemHealthMetrics (logger w)) ->
             0 <= errorRate s /\ errorRate s <= 100
             /\ 0 <= operationsPerMinute s
             /\ activeUsers s = 1 /\ databaseConnections s = 1)
  /\ (forall r,
         getRecentChanges (hr_now r) 1 (changeLog w) = [] ->
         exists s,
           lastOf (systemHealthMetrics (logger (recordSystemHealth r w))) = Some s
           /\ errorRate s = 0 /\ operationsPerMinute s = 0
           /\ memoryUsage s = hr_memory r /\ timestamp s = hr_stamp r).
Proof.
  intros Hreach. split; [apply snapshots_invariant; exact Hreach|].
  intros r Hnone. unfold recordSystemHealth. simpl.
  rewrite pruneMetrics_health. simpl. rewrite Hnone. simpl.
  rewrite sliceLast_app by (simpl; lia). rewrite lastOf_app.
  eexists. split; [reflexivity|]. repeat split.
Qed.

Lemma health_snapshot_ranges_witness :
  Forall (fun s => 0 <= errorRate s /\ errorRate s <= 100)
    (systemHealthMetrics (logger failingWorld)).
Proof.
  apply Forall_forall. intros s Hs.
  destruct (proj1 (@health_snapshot_ranges specChangeLogger failingWorld
                     (@worldReachable_step specChangeLogger _ _
                        (@worldReachable_step specChangeLogger _ _
                           (@worldReachable_new specChangeLogger _ _))))
              s Hs) as (H0 & H100 & _).
  split; assumption.
Defined.

Lemma critical_alert_cause (c : AdvancedChangeLogger) :
  (exists a, In a (generateHealthAlerts c) /\ alert_type a = alert_critical) ->
  match lastOf (systemHealthMetrics c) with
  | None => False
  | Some s => 10 < errorRate s \/ 1000 < averageResponseTime s
  end.
Proof.
  unfold generateHealthAlerts.
  destruct (lastOf (systemHealthMetrics c)) as [s|]; [|intros [a [[] _]]].
  destruct (errorRate s >? 10) eqn:E10; [apply gtb_true_iff in E10; left; exact E10|].
  destruct (averageResponseTime s >? 1000) eqn:R1000;
    [apply gtb_true_iff in R1000; right; exact R1000|].
  intros [a [Ha Hcrit]]. exfalso.
  destruct (errorRate s >? 5), (averageResponseTime s >? 500), (memoryUsage s >? 100);
    simpl in Ha;
    repeat (destruct Ha as [<- | Ha]; [discriminate|]); destruct Ha.
Qed.

(** X14 -- Health alerts: at most one alert per metric, so at most three.
    There is no alert exactly when there is no snapshot or the last one has
    error rate at most 5, response time at most 500 ms and memory at most
    100 MB; there is a critical alert exactly when its error rate is above
    10 or its response time above 1000 ms (memory only ever warns). *)
Theorem health_alerts_characterised (c : AdvancedChangeLogger) :
  (length (generateHealthAlerts c) <= 3)%nat
  /\ (generateHealthAlerts c = [] <->
      match lastOf (systemHealthMetrics c) with
      | None => True
      | Some s => errorRate s <= 5 /\ averageResponseTime s <= 500 /\ memoryUsage s <= 100
      end)
  /\ ((exists a, In a (generateHealthAlerts c) /\ alert_type a = alert_critical) <->
      match lastOf (systemHealthMetrics c) with
      | None => False
      | Some s => 10 < errorRate s \/ 1000 < averageResponseTime s
      end).
Proof.
  unfold generateHealthAlerts.
  destruct (lastOf (systemHealthMetrics c)) as [s|].
  2:{ split; [simpl; lia|]. split; [tauto|]. split; [intros [a [[] _]] | tauto]. }
  destruct (errorRate s >? 10) eqn:E10; destruct (errorRate s >? 5) eqn:E5;
    destruct (averageResponseTime s >? 1000) eqn:R1000;
    destruct (averageResponseTime s >? 500) eqn:R500;
    destruct (memoryUsage s >? 100) eqn:M100;
    repeat match goal with
           | H : (_ >? _) = true |- _ => apply gtb_true_iff in H
           | H : (_ >? _) = false |- _ => apply gtb_false_iff in H
           end;
    (split; [simpl; lia|]);
    (split; [split; [try discriminate; intros _; repeat split; lra
                    | intros (H1 & H2 & H3); try reflexivity; exfalso; lra]|]);
    (split;
     [ intros [a [Ha Hcrit]]; simpl in Ha;
       repeat (destruct Ha as [<- | Ha]; [first [discriminate | (left; lra) | (right; lra)]|]);
       destruct Ha
     | intros [H | H];
       first [ exfalso; lra
             | (eexists; split; [left; reflexivity | reflexivity])
             | (eexists; split; [right; left; reflexivity | reflexivity]) ] ]).
Qed.

Lemma score_upper (s : SystemHealthMetrics) (c : AdvancedChangeLogger) :
  lastOf (systemHealthMetrics c) = Some s ->
  calculatePerformanceScore c
  == Qmax 0 (Qmin 100
               (100 - 2 * errorRate s
                - Qmax 0 ((averageResponseTime s - 500) / 10)
                - Qmax 0 ((memoryUsage s - 50) / 2))).
Proof.
  intros Hlast. unfold calculatePerformanceScore. rewrite Hlast.
  apply Q.max_compat; [reflexivity|]. apply Q.min_compat; [reflexivity|].
  rewrite (penalty_max (memoryUsage s >? 50) _ ((memoryUsage s - 50) / 2)).
  2:{ rewrite gtb_true_iff. split; intros H.
      - apply Qlt_shift_div_l; lra.
      - assert (0 * 2 < (memoryUsage s - 50) / 2 * 2)
          by (apply Qmult_lt_compat_r; [reflexivity | exact H]).
        assert ((memoryUsage s - 50) / 2 * 2 == memoryUsage s - 50) by field.
        lra. }
  rewrite (penalty_max (averageResponseTime s >? 500) _ ((averageResponseTime s - 500) / 10)).
  2:{ rewrite gtb_true_iff. split; intros H.
      - apply Qlt_shift_div_l; lra.
      - assert (0 * 10 < (averageResponseTime s - 500) / 10 * 10)
          by (apply Qmult_lt_compat_r; [reflexivity | exact H]).
        assert ((averageResponseTime s - 500) / 10 * 10 == averageResponseTime s - 500)
          by field.
        lra. }
  lra.
Qed.

Lemma clamp_below (x bound : number) :
  x < bound -> 0 < bound -> Qmax 0 (Qmin 100 x) < bound.
Proof.
  intros Hx Hb. apply Q.max_lub_lt; [exact Hb|].
  eapply Qle_lt_trans; [apply Q.le_min_r | exact Hx].
Qed.

(** X15 -- The alerts and the dashboard agree on bad health: whenever the
    health analytics of a reachable collector carry a critical alert, the
    performance score is below 80, so the dashboard labels system health
    "declining". *)
Theorem critical_alert_means_declining {CL : ChangeLogger} (w : World)
    (performanceData : option PerformanceAnalytics)
    (behaviorData : option BehaviorAnalytics) (e : AIAnalyticsEngine) :
  worldReachable w ->
  (exists a, In a (alerts (getSystemHealthAnalytics (logger w)))
             /\ alert_type a = alert_critical) ->
  performanceScore (getSystemHealthAnalytics (logger w)) < 80
  /\ trend_systemHealth
       (trendAnalysis
          (getDashboard performanceData behaviorData
             (Some (getSystemHealthAnalytics (logger w))) e))
     = declining.
Proof.
  intros Hreach Hcrit.
  assert (Hscore : performanceScore (getSystemHealthAnalytics (logger w)) < 80).
  { simpl in *.
    apply critical_alert_cause in Hcrit.
    destruct (lastOf (systemHealthMetrics (logger w))) as [s|] eqn:Hlast; [|destruct Hcrit].
    rewrite (score_upper s (logger w) Hlast).
    destruct (snapshots_invariant w Hreach s (lastOf_In _ _ Hlast)) as (H0 & _).
    pose proof (Q.le_max_l 0 ((averageResponseTime s - 500) / 10)) as Hr0.
    pose proof (Q.le_max_l 0 ((memoryUsage s - 50) / 2)) as Hm0.
    apply clamp_below; [|reflexivity].
    destruct Hcrit as [He | Hr].
    - lra.
    - pose proof (Q.le_max_r 0 ((averageResponseTime s - 500) / 10)) as Hr1.
      assert (50 < (averageResponseTime s - 500) / 10)
        by (apply Qlt_shift_div_l; [reflexivity | lra]).
      lra. }
  split; [exact Hscore|].
  unfold getDashboard. cbn [trendAnalysis trend_systemHealth].
  replace (performanceScore (getSystemHealthAnalytics (logger w)) >? 80) with false;
    [reflexivity|].
  symmetry. apply gtb_false_iff. apply Qlt_le_weak. exact Hscore.
Qed.

Lemma critical_alert_means_declining_witness :
  (exists a, In a (alerts (getSystemHealthAnalytics (logger failingWorld)))
             /\ alert_type a = alert_critical)
  /\ trend_systemHealth
       (trendAnalysis
          (getDashboard None None
             (Some (getSystemHealthAnalytics (logger failingWorld))) newEngine))
     = declining.
Proof.
  assert (Hcrit : exists a, In a (alerts (getSystemHealthAnalytics (logger failingWorld)))
                            /\ alert_type a = alert_critical)
    by (eexists; split; [left; reflexivity | reflexivity]).
  split; [exact Hcrit|].
  apply (@critical_alert_means_declining specChangeLogger failingWorld None None newEngine).
  - apply (@worldReachable_step specChangeLogger (OpRecordSystemHealth _)).
    apply (@worldReachable_step specChangeLogger (OpLogChange _)).
    apply (@worldReachable_new specChangeLogger).
  - exact Hcrit.
Defined.

(** ** What a tracked operation logs *)




(** X17 -- The resource count of a sample is the caller's [affectedCount]
    when that is a non-zero number, else the number of guests when there is
    at least one, else 1; so it is never 0, and at least 1 whenever the
    caller gives no count.  The sample a tracked operation appends carries
    that value. *)
Theorem affected_resources_never_zero (p : ChangeParams) :
  ~ affectedResources p == 0
  /\ (orZero (cp_affectedCount p) == 0 -> 1 <= affectedResources p)
  /\ (forall count, cp_affectedCount p = Some count -> ~ count == 0 ->
                    affectedResources p = count)
  /\ (orZero (cp_affectedCount p) == 0 ->
      forall guests, cp_guests p = Some guests -> guests <> [] ->
                     affectedResources p = len guests)
  /\ (orZero (cp_affectedCount p) == 0 ->
      cp_guests p = None \/ cp_guests p = Some [] ->
      affectedResources p = 1)
  /\ (forall {CL : ChangeLogger} {T : Type} (r : OperationReadings) (operationName : string)
             (asyncOperation : World -> Outcome T * World) (w : World) sample,
         lastOf (performanceMetrics
                   (logger (snd (logChangeWithPerformance r operationName asyncOperation
                                   p w)))) = Some sample ->
         resourcesAffected sample = affectedResources p
         /\ ~ resourcesAffected sample == 0).
Proof.
  assert (Hnz : ~ affectedResources p == 0).
  { unfold affectedResources. cbv zeta.
    destruct (Qeq_bool (orZero (cp_affectedCount p)) 0) eqn:E; simpl.
    - destruct (cp_guests p) as [guests|]; [|discriminate].
      destruct (length guests =? 0)%nat eqn:El; [discriminate|].
      apply Nat.eqb_neq in El. intros H.
      assert (0 < len guests) by (apply ofNat_pos; lia).
      rewrite H in H0. apply (Qlt_irrefl 0 H0).
    - intros H. apply Qeq_eq_bool in H. congruence. }
  split; [exact Hnz|]. split; [|split; [|split; [|split]]].
  - intros Hzero. unfold affectedResources. cbv zeta.
    apply Qeq_eq_bool in Hzero. rewrite Hzero. simpl.
    destruct (cp_guests p) as [guests|]; [|apply Qle_refl].
    destruct (length guests =? 0)%nat eqn:El; [apply Qle_refl|].
    apply Nat.eqb_neq in El. unfold len.
    change 1 with (inject_Z 1). rewrite <- Zle_Qle. lia.
  - intros count Hcount Hnonzero. unfold affectedResources. cbv zeta.
    rewrite Hcount. unfold orZero.
    destruct (Qeq_bool count 0) eqn:E.
    + apply Qeq_bool_iff in E. contradiction.
    + simpl. rewrite E. reflexivity.
  - intros Hzero guests Hguests Hsome. unfold affectedResources. cbv zeta.
    apply Qeq_eq_bool in Hzero. rewrite Hzero, Hguests. simpl.
    destruct guests as [|g rest]; [contradiction | reflexivity].
  - intros Hzero Hnone. unfold affectedResources. cbv zeta.
    apply Qeq_eq_bool in Hzero. rewrite Hzero. simpl.
    destruct Hnone as [-> | ->]; reflexivity.
  - intros CL T r operationName asyncOperation w sample.
    unfold logChangeWithPerformance.
    destruct (asyncOperation w) as [result w1]. simpl.
    destruct result; simpl; rewrite pruneMetrics_performance; simpl;
      rewrite sliceLast_app by (simpl; lia); rewrite lastOf_app;
      intros Hs; injection Hs as <-; (split; [reflexivity | exact Hnz]).
Qed.

(** ** Tables: counting by key *)

Lemma tableGet_update_same {V : Type} (key : string) (f : option V -> V) (t : Table V) :
  tableGet key (tableUpdate key f t) = Some (f (tableGet key t)).
Proof.
  induction t as [|[k v] rest IH]; simpl.
  - rewrite String.eqb_refl. reflexivity.
  - destruct (String.eqb k key) eqn:E; simpl; rewrite E; [reflexivity | exact IH].
Qed.

Lemma tableGet_update_other {V : Type} (key key' : string) (f : option V -> V)
    (t : Table V) :
  key' <> key -> tableGet key' (tableUpdate key f t) = tableGet key' t.
Proof.
  intros Hne. induction t as [|[k v] rest IH]; simpl.
  - assert (E : String.eqb key key' = false) by (apply String.eqb_neq; congruence).
    rewrite E. reflexivity.
  - destruct (String.eqb k key) eqn:E; simpl.
    + apply String.eqb_eq in E. subst k.
      assert (E' : String.eqb key key' = false) by (apply String.eqb_neq; congruence).
      rewrite E'. reflexivity.
    + destruct (String.eqb k key'); [reflexivity | exact IH].
Qed.

Lemma tableGet_none_keys {V : Type} (key : string) (t : Table V) :
  tableGet key t = None <-> ~ In key (map fst t).
Proof.
  induction t as [|[k v] rest IH]; simpl; [tauto|].
  destruct (String.eqb k key) eqn:E.
  - apply String.eqb_eq in E. split; [discriminate | intros H; exfalso; apply H; left; exact E].
  - apply String.eqb_neq in E. rewrite IH. tauto.
Qed.

Lemma tableUpdate_keys {V : Type} (key : string) (f : option V -> V) (t : Table V) :
  map fst (tableUpdate key f t)
  = match tableGet key t with
    | Some _ => map fst t
    | None => map fst t ++ [key]
    end.
Proof.
  induction t as [|[k v] rest IH]; simpl; [reflexivity|].
  destruct (String.eqb k key) eqn:E; simpl; [reflexivity|].
  rewrite IH. destruct (tableGet key rest); reflexivity.
Qed.

Lemma tableUpdate_nodup {V : Type} (key : string) (f : option V -> V) (t : Table V) :
  NoDup (map fst t) -> NoDup (map fst (tableUpdate key f t)).
Proof.
  intros Hnd. rewrite tableUpdate_keys.
  destruct (tableGet key t) eqn:E; [exact Hnd|].
  apply tableGet_none_keys in E.
  apply NoDup_app; [exact Hnd | repeat constructor; intros [] |].
  intros x Hx [<- | []]. exact (E Hx).
Qed.

Lemma tableGet_In {V : Type} (key : string) (v : V) (t : Table V) :
  NoDup (map fst t) -> (In (key, v) t <-> tableGet key t = Some v).
Proof.
  induction t as [|[k w] rest IH]; simpl; intros Hnd.
  - split; [intros [] | discriminate].
  - inversion Hnd as [|x l Hnotin Hrest]; subst.
    destruct (String.eqb k key) eqn:E.
    + apply String.eqb_eq in E. subst k. split.
      * intros [H | H]; [congruence|]. exfalso. apply Hnotin.
        apply (in_map fst) in H. exact H.
      * intros H. left. congruence.
    + apply String.eqb_neq in E. rewrite <- (IH Hrest). split.
      * intros [H | H]; [congruence | exact H].
      * intros H. right. exact H.
Qed.

Lemma countKeys_snoc (keys : list string) (key : string) :
  countKeys (keys ++ [key]) = increment key (countKeys keys).
Proof.
  unfold countKeys. rewrite fold_left_app. reflexivity.
Qed.

Lemma occurrences_snoc (keys : list string) (key key' : string) :
  occurrences (keys ++ [key]) key'
  = (occurrences keys key' + if string_dec key key' then 1 else 0)%Z.
Proof.
  unfold occurrences. rewrite count_occ_app. simpl.
  destruct (string_dec key key'); lia.
Qed.

Lemma countKeys_get (keys : list string) (key : string) :
  tableGet key (countKeys keys)
  = if (occurrences keys key =? 0)%Z then None else Some (occurrences keys key).
Proof.
  induction keys as [|k rest IH] using rev_ind; [reflexivity|].
  rewrite countKeys_snoc, occurrences_snoc. unfold increment.
  assert (Hnn : (0 <= occurrences rest key)%Z) by (unfold occurrences; lia).
  destruct (string_dec k key) as [-> | Hne].
  - rewrite tableGet_update_same, IH.
    destruct (occurrences rest key =? 0)%Z eqn:E.
    + apply Z.eqb_eq in E. rewrite E. reflexivity.
    + apply Z.eqb_neq in E.
      replace (occurrences rest key + 1 =? 0)%Z with false by (symmetry; apply Z.eqb_neq; lia).
      reflexivity.
  - rewrite tableGet_update_other by congruence. rewrite IH, Z.add_0_r. reflexivity.
Qed.

Lemma countKeys_nodup (keys : list string) : NoDup (map fst (countKeys keys)).
Proof.
  induction keys as [|k rest IH] using rev_ind; [constructor|].
  rewrite countKeys_snoc. apply tableUpdate_nodup. exact IH.
Qed.

Lemma countKeys_In (keys : list string) (key : string) (n : Z) :
  In (key, n) (countKeys keys) <-> In key keys /\ n = occurrences keys key.
Proof.
  rewrite (tableGet_In key n _ (countKeys_nodup keys)), countKeys_get.
  unfold occurrences. rewrite (count_occ_In string_dec).
  destruct (Z.of_nat (count_occ string_dec keys key) =? 0)%Z eqn:E.
  - apply Z.eqb_eq in E. split; [discriminate | intros [H _]; lia].
  - apply Z.eqb_neq in E. split.
    + intros H. injection H as <-. split; [lia | reflexivity].
    + intros [_ ->]. reflexivity.
Qed.

Lemma sumCounts_from {A : Type} (f : A -> Z) (l : list A) (acc : Z) :
  fold_left (fun sum x => (sum + f x)%Z) l acc = (acc + sumCounts f l)%Z.
Proof.
  unfold sumCounts. revert acc. induction l as [|x rest IH]; intros acc; simpl; [lia|].
  rewrite IH, (IH (f x)). lia.
Qed.

Lemma sumCounts_cons {A : Type} (f : A -> Z) (x : A) (l : list A) :
  sumCounts f (x :: l) = (f x + sumCounts f l)%Z.
Proof.
  unfold sumCounts at 1. simpl. rewrite sumCounts_from. reflexivity.
Qed.

Lemma sumCounts_app {A : Type} (f : A -> Z) (l1 l2 : list A) :
  sumCounts f (l1 ++ l2) = (sumCounts f l1 + sumCounts f l2)%Z.
Proof.
  induction l1 as [|x rest IH]; simpl; [reflexivity|].
  rewrite !sumCounts_cons, IH. lia.
Qed.

Lemma sumCounts_perm {A : Type} (f : A -> Z) (l1 l2 : list A) :
  Permutation l1 l2 -> sumCounts f l1 = sumCounts f l2.
Proof.
  induction 1; try reflexivity.
  - rewrite !sumCounts_cons. lia.
  - rewrite !sumCounts_cons. lia.
  - congruence.
Qed.

Lemma sumCounts_map {A B : Type} (g : A -> B) (f : B -> Z) (l : list A) :
  sumCounts f (map g l) = sumCounts (fun x => f (g x)) l.
Proof.
  induction l as [|x rest IH]; simpl; [reflexivity|].
  rewrite !sumCounts_cons, IH. reflexivity.
Qed.

Lemma increment_sum (key : string) (t : Table Z) :
  sumCounts snd (increment key t) = (sumCounts snd t + 1)%Z.
Proof.
  unfold increment. induction t as [|[k v] rest IH]; simpl; [reflexivity|].
  destruct (String.eqb k key); rewrite !sumCounts_cons; simpl; [lia|].
  rewrite IH. lia.
Qed.

Lemma countKeys_sum (keys : list string) :
  sumCounts snd (countKeys keys) = Z.of_nat (length keys).
Proof.
  induction keys as [|k rest IH] using rev_ind; [reflexivity|].
  rewrite countKeys_snoc, increment_sum, IH, length_app. simpl. lia.
Qed.

Lemma insertIndex_perm {V : Type} (entry : N * (string * V))
    (sorted : list (N * (string * V))) :
  Permutation (entry :: sorted) (insertIndex entry sorted).
Proof.
  induction sorted as [|y rest IH]; simpl; [apply Permutation_refl|].
  destruct (fst entry <? fst y)%N; [apply Permutation_refl|].
  etransitivity; [apply perm_swap|]. apply perm_skip. exact IH.
Qed.

Lemma objectEntries_indexed_perm {V : Type} (t : Table V) (acc : list (N * (string * V))) :
  Permutation
    (map snd
       (fold_left
          (fun acc kv =>
             match arrayIndex (fst kv) with
             | Some n => insertIndex (n, kv) acc
             | None => acc
             end)
          t acc))
    (map snd acc
     ++ filter (fun kv => match arrayIndex (fst kv) with Some _ => true | None => false end)
          t).
Proof.
  revert acc. induction t as [|kv rest IH]; intros acc; simpl.
  - rewrite app_nil_r. apply Permutation_refl.
  - destruct (arrayIndex (fst kv)) as [n|]; [|apply IH].
    etransitivity; [apply IH|].
    etransitivity;
      [apply Permutation_app_tail, Permutation_map, Permutation_sym, insertIndex_perm|].
    simpl. apply Permutation_middle.
Qed.

Lemma filter_partition_perm {A : Type} (p : A -> bool) (l : list A) :
  Permutation l (filter p l ++ filter (fun x => negb (p x)) l).
Proof.
  induction l as [|x rest IH]; simpl; [constructor|].
  destruct (p x); simpl.
  - apply perm_skip. exact IH.
  - etransitivity; [apply perm_skip, IH|]. apply Permutation_middle.
Qed.

Lemma objectEntries_perm {V : Type} (t : Table V) : Permutation t (objectEntries t).
Proof.
  unfold objectEntries.
  etransitivity;
    [apply (filter_partition_perm
              (fun kv => match arrayIndex (fst kv) with Some _ => true | None => false end))|].
  apply Permutation_app.
  - apply Permutation_sym. apply (objectEntries_indexed_perm t []).
  - match goal with
    | |- Permutation (filter ?p t) (filter ?q t) =>
        rewrite (filter_ext p q); [apply Permutation_refl|]
    end.
    intros kv. destruct (arrayIndex (fst kv)); reflexivity.
Qed.

Lemma sortByCount_spec (entries : list (string * Z)) :
  Permutation entries (sortByCount entries) /\ newestFirst snd (sortByCount entries).
Proof.
  unfold sortByCount, sortNewestFirst.
  destruct (sortNewestFirst_spec snd entries []) as (Hs & Hp & _); [constructor|].
  split; [exact Hp | exact Hs].
Qed.


(** ** Tables: the most frequent keys *)

Lemma StronglySorted_app_inv {A : Type} (R : A -> A -> Prop) (l1 l2 : list A) :
  StronglySorted R (l1 ++ l2) ->
  StronglySorted R l1 /\ StronglySorted R l2
  /\ forall x y, In x l1 -> In y l2 -> R x y.
Proof.
  induction l1 as [|a l1 IH]; simpl; intros Hs.
  - split; [constructor | split; [exact Hs | intros x y []]].
  - inversion Hs as [|a' l' Hrest Hall]; subst.
    destruct (IH Hrest) as (H1 & H2 & H12).
    rewrite Forall_app in Hall. destruct Hall as [Hall1 Hall2].
    split; [constructor; assumption | split; [exact H2|]].
    intros x y [<- | Hx] Hy.
    + rewrite Forall_forall in Hall2. apply Hall2. exact Hy.
    + apply H12; assumption.
Qed.

Lemma newestFirst_map {A B : Type} (g : A -> B) (key : B -> Z) (l : list A) :
  newestFirst (fun x => key (g x)) l -> newestFirst key (map g l).
Proof.
  unfold newestFirst. induction 1 as [|x l Hs IH Hall]; simpl; constructor.
  - exact IH.
  - rewrite Forall_map. exact Hall.
Qed.

Lemma countKeys_keys (keys : list string) (key : string) :
  In key (map fst (countKeys keys)) <-> In key keys.
Proof.
  rewrite in_map_iff. split.
  - intros [[k n] [Hk Hin]]. simpl in Hk. subst k.
    apply countKeys_In in Hin. tauto.
  - intros Hin. exists (key, occurrences keys key). split; [reflexivity|].
    apply countKeys_In. tauto.
Qed.

Lemma countKeys_length (keys : list string) :
  length (countKeys keys) = length (nodup string_dec keys).
Proof.
  rewrite <- (length_map fst). apply Permutation_length.
  apply NoDup_Permutation; [apply countKeys_nodup | apply NoDup_nodup |].
  intros k. rewrite nodup_In. apply countKeys_keys.
Qed.

(** The [n] first entries of a count table sorted by count: the [n] most
    frequent keys, each with the number of its occurrences, most frequent
    first. *)
Lemma top_counts_spec (n : nat) (keys : list string) :
  let top := firstn n (sortByCount (objectEntries (countKeys keys))) in
  length top = Nat.min n (length (nodup string_dec keys))
  /\ NoDup (map fst top)
  /\ (forall e, In e top -> In (fst e) keys /\ snd e = occurrences keys (fst e))
  /\ newestFirst snd top
  /\ (forall k, In k keys -> ~ In k (map fst top) ->
      forall e, In e top -> (occurrences keys k <= snd e)%Z)
  /\ ((length (nodup string_dec keys) <= n)%nat ->
      forall k, In k keys -> In (k, occurrences keys k) top).
Proof.
  cbv zeta.
  set (s := sortByCount (objectEntries (countKeys keys))).
  assert (Hperm : Permutation (countKeys keys) s).
  { etransitivity; [apply objectEntries_perm | apply sortByCount_spec]. }
  assert (Hsorted : newestFirst snd s) by apply sortByCount_spec.
  pose proof (firstn_skipn n s) as Hsplit.
  unfold newestFirst in Hsorted. rewrite <- Hsplit in Hsorted.
  apply StronglySorted_app_inv in Hsorted. destruct Hsorted as (Htop & _ & Hcross).
  assert (Hin : forall e, In e (firstn n s) -> In e (countKeys keys)).
  { intros e He. apply (Permutation_in _ (Permutation_sym Hperm)).
    rewrite <- Hsplit. apply in_or_app. left. exact He. }
  assert (Hlen : length s = length (nodup string_dec keys)).
  { rewrite <- (Permutation_length Hperm). apply countKeys_length. }
  split; [|split; [|split; [|split; [|split]]]].
  - rewrite length_firstn, Hlen. reflexivity.
  - assert (Hnd : NoDup (map fst s)).
    { apply (Permutation_NoDup (Permutation_map fst Hperm)). apply countKeys_nodup. }
    rewrite <- Hsplit, map_app in Hnd. apply NoDup_app_remove_r in Hnd. exact Hnd.
  - intros [k c] He. apply Hin in He. apply countKeys_In in He. exact He.
  - exact Htop.
  - intros k Hk Hnot e He.
    assert (Hks : In (k, occurrences keys k) s).
    { apply (Permutation_in _ Hperm). apply countKeys_In. tauto. }
    rewrite <- Hsplit in Hks. apply in_app_or in Hks. destruct Hks as [Hfront | Hback].
    + exfalso. apply Hnot. apply (in_map fst) in Hfront. exact Hfront.
    + exact (Hcross e (k, occurrences keys k) He Hback).
  - intros Hall k Hk. rewrite firstn_all2 by lia.
    apply (Permutation_in _ Hperm). apply countKeys_In. tauto.
Qed.

(** The same for the objects the analytics build from the entries. *)
Lemma top_table_spec {R : Type} (make : string -> Z -> R) (name : R -> string)
    (count : R -> Z) (n : nat) (keys : list string) :
  (forall k c, name (make k c) = k) ->
  (forall k c, count (make k c) = c) ->
  let listed :=
    map (fun entry => make (fst entry) (snd entry))
      (firstn n (sortByCount (objectEntries (countKeys keys)))) in
  length listed = Nat.min n (length (nodup string_dec keys))
  /\ NoDup (map name listed)
  /\ (forall r, In r listed -> In (name r) keys /\ count r = occurrences keys (name r))
  /\ newestFirst count listed
  /\ (forall k, In k keys -> ~ In k (map name listed) ->
      forall r, In r listed -> (occurrences keys k <= count r)%Z)
  /\ ((length (nodup string_dec keys) <= n)%nat ->
      forall k, In k keys -> In (make k (occurrences keys k)) listed).
Proof.
  intros Hname Hcount. cbv zeta.
  destruct (top_counts_spec n keys) as (Hlen & Hnd & Hin & Hsorted & Htop & Hall).
  set (top := firstn n (sortByCount (objectEntries (countKeys keys)))) in *.
  assert (Hnames : map name (map (fun entry => make (fst entry) (snd entry)) top)
                   = map fst top).
  { rewrite map_map. apply map_ext. intros e. apply Hname. }
  split; [|split; [|split; [|split; [|split]]]].
  - rewrite length_map. exact Hlen.
  - rewrite Hnames. exact Hnd.
  - intros r Hr. apply in_map_iff in Hr. destruct Hr as [e [<- He]].
    rewrite Hname, Hcount. apply Hin. exact He.
  - apply newestFirst_map. unfold newestFirst in *.
    eapply StronglySorted_ind
      with (P := fun l => StronglySorted
                            (fun a b => (count (make (fst b) (snd b))
                                         <= count (make (fst a) (snd a)))%Z) l);
      [constructor | | exact Hsorted].
    intros a l _ IH Hfa. constructor; [exact IH|].
    eapply Forall_impl; [|exact Hfa]. intros b Hb. rewrite !Hcount. exact Hb.
  - intros k Hk Hnot r Hr. apply in_map_iff in Hr. destruct Hr as [e [<- He]].
    rewrite Hcount. rewrite Hnames in Hnot. exact (Htop k Hk Hnot e He).
  - intros Hfew k Hk. apply in_map_iff. exists (k, occurrences keys k).
    split; [reflexivity | exact (Hall Hfew k Hk)].
Qed.


Lemma plain_keys_of_mixedOperations :
  Forall plainKey (map operation (performanceMetrics mixedOperations))
  /\ Forall plainKey
       (map errorKey (filter (fun m => negb (success m)) (performanceMetrics mixedOperations))).
Proof.
  split; repeat constructor; intros H; simpl in H; intuition discriminate.
Qed.

(** ** The analytics of operations *)

(** X18 -- The operation-frequency table of the collector lists every
    operation name of the retained samples exactly once, with the number of
    samples of that name, the most frequent first; its counts add up to the
    number of retained samples.  (Names that are members of
    [Object.prototype] are excluded: the code's counting object inherits
    them.) *)
Theorem operation_frequency_counts (c : AdvancedChangeLogger) :
  let samples := map operation (performanceMetrics c) in
  let table := getOperationFrequency c in
  Forall plainKey samples ->
  NoDup (map of_operation table)
  /\ (forall op, In op samples -> In (mkOperationFrequency op (occurrences samples op)) table)
  /\ (forall row, In row table ->
      In (of_operation row) samples
      /\ of_count row = occurrences samples (of_operation row))
  /\ sumCounts of_count table = Z.of_nat (length (performanceMetrics c))
  /\ newestFirst of_count table.
Proof.
  cbv zeta. intros _. unfold getOperationFrequency.
  set (samples := map operation (performanceMetrics c)).
  set (s := sortByCount (objectEntries (countKeys samples))).
  assert (Hperm : Permutation (countKeys samples) s).
  { etransitivity; [apply objectEntries_perm | apply sortByCount_spec]. }
  destruct (top_table_spec mkOperationFrequency of_operation of_count (length s) samples)
    as (_ & Hnd & Hin & Hsorted & _ & Hall); [reflexivity | reflexivity |].
  fold s in Hnd, Hin, Hsorted, Hall. rewrite firstn_all in Hnd, Hin, Hsorted, Hall.
  split; [exact Hnd | split; [|split; [exact Hin | split; [|exact Hsorted]]]].
  - apply Hall. rewrite <- (Permutation_length Hperm), countKeys_length. lia.
  - rewrite sumCounts_map.
    etransitivity; [apply sumCounts_perm, Permutation_sym, Hperm|].
    etransitivity; [apply (countKeys_sum samples)|].
    unfold samples. rewrite length_map. reflexivity.
Qed.

Lemma operation_frequency_counts_witness :
  In (mkOperationFrequency "ASSIGN_TABLE" 3) (getOperationFrequency mixedOperations)
  /\ sumCounts of_count (getOperationFrequency mixedOperations) = 6%Z.
Proof.
  pose proof (operation_frequency_counts mixedOperations
                (proj1 plain_keys_of_mixedOperations)) as (_ & Hall & _ & Hsum & _).
  split; [|exact Hsum].
  apply (Hall "ASSIGN_TABLE"). simpl. tauto.
Defined.


(** ** Dashboard labels that cannot move *)

Lemma sorted_non_increasing {A : Type} (sample : A -> number) (key : A -> Z) (l : list A) :
  (forall x, sample x == inject_Z (key x)) ->
  newestFirst key l -> non_increasing (map sample l).
Proof.
  intros Hsample. unfold newestFirst.
  induction 1 as [|x l Hsorted IH Hall]; simpl; [exact I|].
  destruct l as [|y rest]; simpl; [exact I|].
  split; [|exact IH].
  inversion Hall as [|y' rest' Hxy Hrest]; subst.
  rewrite !Hsample. rewrite <- Zle_Qle. exact Hxy.
Qed.

Lemma newestFirst_sliceLast {A : Type} (key : A -> Z) (n : nat) (l : list A) :
  newestFirst key l -> newestFirst key (sliceLast n l).
Proof.
  unfold newestFirst, sliceLast. intros Hsorted.
  rewrite <- (firstn_skipn (length l - n) l) in Hsorted.
  apply StronglySorted_app_inv in Hsorted. tauto.
Qed.

(** X19 -- The [efficiency] label of the dashboard is always "stable" when
    the operation-frequency table comes from the collector: the table is
    sorted by count, largest first, so its last three counts never rise and
    the trend heuristic reads 0. *)
Theorem efficiency_label_always_stable (c : AdvancedChangeLogger)
    (performanceData : PerformanceAnalytics) (behaviorData : option BehaviorAnalytics)
    (healthData : option HealthAnalytics) (e : AIAnalyticsEngine) :
  Forall plainKey (map operation (performanceMetrics c)) ->
  operationFrequency performanceData = getOperationFrequency c ->
  trend_efficiency
    (trendAnalysis (getDashboard (Some performanceData) behaviorData healthData e))
  = stable.
Proof.
  intros _ Htable. unfold getDashboard.
  cbn [trendAnalysis trend_efficiency option_map]. rewrite Htable.
  apply calculateTrendStatus_flat.
  apply (sorted_non_increasing _ of_count).
  - intros row. unfold getField, Indexed_OperationFrequency. simpl. apply orZero_some.
  - apply newestFirst_sliceLast. unfold getOperationFrequency.
    apply newestFirst_map. simpl. apply sortByCount_spec.
Qed.

Lemma efficiency_label_always_stable_witness :
  trend_efficiency (trendAnalysis (getDashboard (Some mixedAnalytics) None None newEngine))
  = stable.
Proof.
  apply (efficiency_label_always_stable mixedOperations).
  - exact (proj1 plain_keys_of_mixedOperations).
  - reflexivity.
Defined.

(** X20 -- The [userSatisfaction] label of the dashboard is always
    "stable": it samples the field [length] of the error-prone paths, which
    are objects with the fields [path] and [count] only, so every sample
    reads 0. *)
Theorem user_satisfaction_label_always_stable
    (performanceData : option PerformanceAnalytics)
    (behaviorData : option BehaviorAnalytics) (healthData : option HealthAnalytics)
    (e : AIAnalyticsEngine) :
  trend_userSatisfaction
    (trendAnalysis (getDashboard performanceData behaviorData healthData e))
  = stable.
Proof.
  unfold getDashboard. cbn [trendAnalysis trend_userSatisfaction].
  destruct behaviorData as [b|]; cbn [option_map]; [|reflexivity].
  apply calculateTrendStatus_flat.
  erewrite map_ext; [apply non_increasing_zeros|].
  intros item. reflexivity.
Qed.


(** ** The most frequent failures, actions and click paths *)

Lemma sumCounts_nonneg {A : Type} (f : A -> Z) (l : list A) :
  (forall x, In x l -> (0 <= f x)%Z) -> (0 <= sumCounts f l)%Z.
Proof.
  induction l as [|x rest IH]; intros Hpos; [unfold sumCounts; simpl; lia|].
  rewrite sumCounts_cons.
  assert (0 <= f x)%Z by (apply Hpos; left; reflexivity).
  assert (0 <= sumCounts f rest)%Z by (apply IH; intros y Hy; apply Hpos; right; exact Hy).
  lia.
Qed.

(** The listed counts add up to at most the number of counted keys, and to
    exactly that number when every key is listed. *)
Lemma top_table_sum {R : Type} (make : string -> Z -> R) (count : R -> Z) (n : nat)
    (keys : list string) :
  (forall k c, count (make k c) = c) ->
  let listed :=
    map (fun entry => make (fst entry) (snd entry))
      (firstn n (sortByCount (objectEntries (countKeys keys)))) in
  (sumCounts count listed <= Z.of_nat (length keys))%Z
  /\ ((length (nodup string_dec keys) <= n)%nat ->
      sumCounts count listed = Z.of_nat (length keys)).
Proof.
  intros Hcount. cbv zeta.
  set (s := sortByCount (objectEntries (countKeys keys))).
  assert (Hperm : Permutation (countKeys keys) s).
  { etransitivity; [apply objectEntries_perm | apply sortByCount_spec]. }
  assert (Hsum : sumCounts snd s = Z.of_nat (length keys)).
  { rewrite <- (sumCounts_perm snd _ _ Hperm). apply countKeys_sum. }
  assert (Hlisted : forall l : list (string * Z),
             sumCounts count (map (fun entry => make (fst entry) (snd entry)) l)
             = sumCounts snd l).
  { intros l. rewrite sumCounts_map. induction l as [|x rest IH]; [reflexivity|].
    rewrite !sumCounts_cons, IH, Hcount. reflexivity. }
  rewrite Hlisted. split.
  - rewrite <- Hsum. rewrite <- (firstn_skipn n s) at 2. rewrite sumCounts_app.
    assert (0 <= sumCounts snd (skipn n s))%Z; [|lia].
    apply sumCounts_nonneg. intros [k v] Hin.
    assert (Hs : In (k, v) s).
    { rewrite <- (firstn_skipn n s). apply in_or_app. right. exact Hin. }
    apply (Permutation_in _ (Permutation_sym Hperm)) in Hs.
    apply countKeys_In in Hs. destruct Hs as [_ ->]. unfold occurrences. simpl. lia.
  - intros Hfew. rewrite firstn_all2; [exact Hsum|].
    rewrite <- (Permutation_length Hperm), countKeys_length. exact Hfew.
Qed.

(** X21 -- The error patterns of the collector are the ten most frequent
    failure signatures (operation and error type) of the retained failed
    samples: each is listed once with the number of failed samples of that
    signature, the most frequent first, and no signature left out occurs
    more often than a listed one.  The listed counts add up to at most the
    number of failed samples, and to exactly that number when there are at
    most ten signatures. *)
Theorem error_patterns_top_ten (c : AdvancedChangeLogger) :
  let failures :=
    map errorKey (filter (fun m => negb (success m)) (performanceMetrics c)) in
  let listed := getErrorPatterns c in
  Forall plainKey failures ->
  length listed = Nat.min 10 (length (nodup string_dec failures))
  /\ NoDup (map pattern listed)
  /\ (forall row, In row listed ->
      In (pattern row) failures /\ ep_count row = occurrences failures (pattern row))
  /\ newestFirst ep_count listed
  /\ (forall key, In key failures -> ~ In key (map pattern listed) ->
      forall row, In row listed -> (occurrences failures key <= ep_count row)%Z)
  /\ (sumCounts ep_count listed <= Z.of_nat (length failures))%Z
  /\ ((length (nodup string_dec failures) <= 10)%nat ->
      sumCounts ep_count listed = Z.of_nat (length failures)).
Proof.
  cbv zeta. intros _. unfold getErrorPatterns.
  set (failures := map errorKey (filter (fun m => negb (success m)) (performanceMetrics c))).
  destruct (top_table_spec mkErrorPattern pattern ep_count 10 failures)
    as (Hlen & Hnd & Hin & Hsorted & Htop & _); [reflexivity | reflexivity |].
  destruct (top_table_sum mkErrorPattern ep_count 10 failures) as (Hsum & Hexact);
    [reflexivity|].
  repeat split; try assumption.
  - apply (Hin row). assumption.
  - apply (Hin row). assumption.
Qed.

Lemma error_patterns_top_ten_witness :
  getErrorPatterns mixedOperations
  = [mkErrorPattern "IMPORT_GUESTS_TypeError" 2; mkErrorPattern "ASSIGN_TABLE_Error" 1]
  /\ length (getErrorPatterns mixedOperations) = 2%nat.
Proof.
  split; [reflexivity|].
  exact (proj1 (error_patterns_top_ten mixedOperations
                  (proj2 plain_keys_of_mixedOperations))).
Defined.

(** X22 -- The error-burst rule reads the retained failures of the
    collector: with at most ten failed samples it adds nothing, and with
    more than ten failed samples of at most ten signatures it offers the
    anomaly engine an error burst that reports the number of failed samples
    and the number of signatures. *)
Theorem error_burst_reads_failures (clock : Clock) (c : AdvancedChangeLogger)
    (p : PerformanceAnalytics) (e : AIAnalyticsEngine) :
  let failures :=
    map errorKey (filter (fun m => negb (success m)) (performanceMetrics c)) in
  Forall plainKey failures ->
  errorPatterns p = getErrorPatterns c ->
  ((length failures <= 10)%nat -> errorBurstRule clock p e = e)
  /\ ((length (nodup string_dec failures) <= 10)%nat ->
      (10 < length failures)%nat ->
      errorBurstRule clock p e
      = addAnomaly (clock 1%nat)
          (errorBurstData (Z.of_nat (length failures))
             (length (nodup string_dec failures)))
          e).
Proof.
  cbv zeta. intros _ Hp. unfold errorBurstRule. rewrite Hp. unfold getErrorPatterns.
  set (failures := map errorKey (filter (fun m => negb (success m)) (performanceMetrics c))).
  destruct (top_table_spec mkErrorPattern pattern ep_count 10 failures)
    as (Hlen & _); [reflexivity | reflexivity |].
  destruct (top_table_sum mkErrorPattern ep_count 10 failures) as (Hsum & Hexact);
    [reflexivity|].
  cbv zeta in Hlen, Hsum, Hexact.
  set (listed := map (fun entry => mkErrorPattern (fst entry) (snd entry))
                   (firstn 10 (sortByCount (objectEntries (countKeys failures))))) in *.
  split.
  - intros Hfew. destruct (0 <? length listed)%nat; [|reflexivity].
    replace (10 <? sumCounts ep_count listed)%Z with false; [reflexivity|].
    symmetry. apply Z.ltb_ge. lia.
  - intros Hkinds Hmany. rewrite (Hexact Hkinds), Hlen.
    rewrite Nat.min_r by exact Hkinds.
    assert (Hsome : (0 < length (nodup string_dec failures))%nat).
    { destruct failures as [|k rest]; [simpl in Hmany; lia|].
      assert (Hk : In k (nodup string_dec (k :: rest))) by (apply nodup_In; left; reflexivity).
      destruct (nodup string_dec (k :: rest)); [destruct Hk | simpl; lia]. }
    apply Nat.ltb_lt in Hsome. rewrite Hsome.
    replace (10 <? Z.of_nat (length failures))%Z with true; [reflexivity|].
    symmetry. apply Z.ltb_lt. lia.
Qed.

Lemma error_burst_reads_failures_witness :
  errorBurstRule exampleClock mixedAnalytics newEngine = newEngine.
Proof.
  apply (proj1 (error_burst_reads_failures exampleClock mixedOperations mixedAnalytics
                  newEngine (proj2 plain_keys_of_mixedOperations) eq_refl)).
  simpl. lia.
Defined.


Lemma failedSave_reachable : @worldReachable specChangeLogger failedSave.
Proof.
  unfold failedSave. cbn [fold_left].
  do 6 apply (@worldReachable_step specChangeLogger).
  apply (@worldReachable_new specChangeLogger).
Qed.

Lemma plain_keys_of_failedSave :
  Forall plainKey (map action (userBehaviorMetrics (logger failedSave)))
  /\ Forall plainKey
       (map (fun b => joinArrow (sliceLast 3 (clickPath b)))
          (filter errorEncountered (userBehaviorMetrics (logger failedSave)))).
Proof.
  split; repeat constructor; intros H; vm_compute in H; intuition discriminate.
Qed.

(** X23 -- The most common actions of the collector are the ten most
    frequent action names of the retained behaviour samples: each is listed
    once with the number of samples of that action, the most frequent first,
    and no action left out occurs more often than a listed one. *)
Theorem most_common_actions_top_ten (c : AdvancedChangeLogger) :
  let actions := map action (userBehaviorMetrics c) in
  let listed := getMostCommonActions c in
  Forall plainKey actions ->
  length listed = Nat.min 10 (length (nodup string_dec actions))
  /\ NoDup (map ac_action listed)
  /\ (forall row, In row listed ->
      In (ac_action row) actions /\ ac_count row = occurrences actions (ac_action row))
  /\ newestFirst ac_count listed
  /\ (forall name, In name actions -> ~ In name (map ac_action listed) ->
      forall row, In row listed -> (occurrences actions name <= ac_count row)%Z).
Proof.
  cbv zeta. intros _. unfold getMostCommonActions.
  set (actions := map action (userBehaviorMetrics c)).
  destruct (top_table_spec mkActionCount ac_action ac_count 10 actions)
    as (Hlen & Hnd & Hin & Hsorted & Htop & _); [reflexivity | reflexivity |].
  repeat split; try assumption.
  - apply (Hin row). assumption.
  - apply (Hin row). assumption.
Qed.

Lemma most_common_actions_top_ten_witness :
  getMostCommonActions (logger failedSave)
  = [mkActionCount "meal_saved" 1; mkActionCount "data_exported" 1]
  /\ NoDup (map ac_action (getMostCommonActions (logger failedSave))).
Proof.
  split; [reflexivity|].
  exact (proj1 (proj2 (most_common_actions_top_ten (logger failedSave)
                         (proj1 plain_keys_of_failedSave)))).
Defined.

(** X24 -- The error-prone paths of the collector are the five most
    frequent click paths (the last three clicks, joined) of the retained
    behaviour samples that met an error, each with the number of such
    samples, the most frequent first.  The error-path rule of the anomaly
    engine, which asks for more than three listed paths, therefore asks for
    four or more distinct paths among those samples. *)
Theorem error_prone_paths_top_five (c : AdvancedChangeLogger) :
  let paths :=
    map (fun b => joinArrow (sliceLast 3 (clickPath b)))
      (filter errorEncountered (userBehaviorMetrics c)) in
  let listed := getErrorPronePaths c in
  Forall plainKey paths ->
  length listed = Nat.min 5 (length (nodup string_dec paths))
  /\ NoDup (map path listed)
  /\ (forall row, In row listed ->
      In (path row) paths /\ path_count row = occurrences paths (path row))
  /\ newestFirst path_count listed
  /\ (forall key, In key paths -> ~ In key (map path listed) ->
      forall row, In row listed -> (occurrences paths key <= path_count row)%Z)
  /\ (3 <? length listed)%nat = (3 <? length (nodup string_dec paths))%nat.
Proof.
  cbv zeta. intros _. unfold getErrorPronePaths.
  set (paths := map (fun b => joinArrow (sliceLast 3 (clickPath b)))
                  (filter errorEncountered (userBehaviorMetrics c))).
  destruct (top_table_spec mkErrorPronePath path path_count 5 paths)
    as (Hlen & Hnd & Hin & Hsorted & Htop & _); [reflexivity | reflexivity |].
  cbv zeta in Hlen.
  split; [exact Hlen | split; [exact Hnd | split; [exact Hin | split; [exact Hsorted|]]]].
  split; [exact Htop|].
  rewrite Hlen.
  destruct (3 <? length (nodup string_dec paths))%nat eqn:E.
  - apply Nat.ltb_lt in E. apply Nat.ltb_lt. lia.
  - apply Nat.ltb_ge in E. apply Nat.ltb_ge. lia.
Qed.

Lemma error_prone_paths_top_five_witness :
  getErrorPronePaths (logger failedSave)
  = [mkErrorPronePath "A.cabin-link -> INPUT#guest-name -> BUTTON#save" 1]
  /\ length (getErrorPronePaths (logger failedSave)) = 1%nat.
Proof.
  split; [reflexivity|].
  exact (proj1 (error_prone_paths_top_five (logger failedSave)
                  (proj2 plain_keys_of_failedSave))).
Defined.


(** ** Devices and sessions *)

Lemma categorizeDevice_cases (userAgent : string) :
  In (categorizeDevice userAgent) ["Mobile"; "Tablet"; "Desktop"].
Proof.
  unfold categorizeDevice.
  destruct (includes "Mobile" userAgent); [simpl; tauto|].
  destruct (includes "Tablet" userAgent); simpl; tauto.
Qed.

(** X25 -- The device breakdown has at most three rows, one for each of
    "Mobile", "Tablet" and "Desktop" that occurs among the retained
    behaviour samples, with the number of samples of that category; the
    counts add up to the number of retained samples. *)
Theorem device_breakdown_counts (c : AdvancedChangeLogger) :
  let categories :=
    map (fun b => categorizeDevice (userAgent (deviceInfo b))) (userBehaviorMetrics c) in
  let table := getDeviceBreakdown c in
  NoDup (map device table)
  /\ (length table <= 3)%nat
  /\ (forall row, In row table ->
      In (device row) ["Mobile"; "Tablet"; "Desktop"]
      /\ plainKey (device row)
      /\ In (device row) categories
      /\ device_count row = occurrences categories (device row))
  /\ (forall name, In name categories ->
      In (mkDeviceCount name (occurrences categories name)) table)
  /\ sumCounts device_count table = Z.of_nat (length (userBehaviorMetrics c)).
Proof.
  cbv zeta. unfold getDeviceBreakdown.
  set (categories := map (fun b => categorizeDevice (userAgent (deviceInfo b)))
                       (userBehaviorMetrics c)).
  pose proof (objectEntries_perm (countKeys categories)) as Hperm.
  set (entries := objectEntries (countKeys categories)) in *.
  assert (Hnames : map device (map (fun entry => mkDeviceCount (fst entry) (snd entry)) entries)
                   = map fst entries).
  { rewrite map_map. apply map_ext. intros entry. reflexivity. }
  assert (Hrow : forall row,
             In row (map (fun entry => mkDeviceCount (fst entry) (snd entry)) entries) ->
             In (device row) categories
             /\ device_count row = occurrences categories (device row)).
  { intros row Hin. apply in_map_iff in Hin. destruct Hin as [[k n] [<- Hin]].
    apply (Permutation_in _ (Permutation_sym Hperm)) in Hin.
    apply countKeys_In in Hin. exact Hin. }
  assert (Hthree : forall row,
             In row (map (fun entry => mkDeviceCount (fst entry) (snd entry)) entries) ->
             In (device row) ["Mobile"; "Tablet"; "Desktop"]).
  { intros row Hin. destruct (Hrow row Hin) as [Hcat _].
    unfold categories in Hcat. apply in_map_iff in Hcat.
    destruct Hcat as [b [<- _]]. apply categorizeDevice_cases. }
  assert (Hnd : NoDup (map device
                         (map (fun entry => mkDeviceCount (fst entry) (snd entry)) entries))).
  { rewrite Hnames. apply (Permutation_NoDup (Permutation_map fst Hperm)).
    apply countKeys_nodup. }
  split; [exact Hnd | split; [|split; [|split]]].
  - rewrite <- (length_map device).
    apply (NoDup_incl_length (l' := ["Mobile"; "Tablet"; "Desktop"]) Hnd).
    intros name Hname. apply in_map_iff in Hname. destruct Hname as [row [<- Hin]].
    apply Hthree. exact Hin.
  - intros row Hin. destruct (Hrow row Hin) as [Hcat Hcount].
    split; [apply Hthree; exact Hin | split; [|split; assumption]].
    intros Hproto. specialize (Hthree row Hin).
    simpl in Hthree. destruct Hthree as [H | [H | [H | []]]];
      rewrite <- H in Hproto; simpl in Hproto; intuition discriminate.
  - intros name Hname. apply in_map_iff. exists (name, occurrences categories name).
    split; [reflexivity|].
    apply (Permutation_in _ Hperm). apply countKeys_In. tauto.
  - rewrite sumCounts_map.
    etransitivity; [apply sumCounts_perm, Permutation_sym, Hperm|].
    etransitivity; [apply (countKeys_sum categories)|].
    unfold categories. rewrite length_map. reflexivity.
Qed.

Lemma nodup_single (sid : string) (l : list string) :
  (forall x, In x l -> x = sid) ->
  length (nodup string_dec l) = (if (0 <? length l)%nat then 1 else 0)%nat.
Proof.
  induction l as [|x rest IH]; intros Hall; [reflexivity|].
  simpl nodup.
  assert (Hrest : forall y, In y rest -> y = sid) by (intros y Hy; apply Hall; right; exact Hy).
  destruct (in_dec string_dec x rest) as [Hin | Hnot].
  - rewrite (IH Hrest). destruct rest as [|y rest']; [destruct Hin | reflexivity].
  - destruct rest as [|y rest']; [reflexivity|].
    exfalso. apply Hnot. left.
    rewrite (Hall x (or_introl eq_refl)). apply Hrest. left. reflexivity.
Qed.

Lemma objectEntries_single {V : Type} (key : string) (v : V) :
  objectEntries [(key, v)] = [(key, v)].
Proof.
  unfold objectEntries. cbn [fold_left filter fst].
  destruct (arrayIndex key); reflexivity.
Qed.

Lemma session_table_single (sid : string) (l : list UserBehaviorMetrics) (s : SessionSpan) :
  (forall b, In b l -> sessionId b = sid) ->
  fold_left
    (fun t b =>
       tableUpdate (sessionId b)
         (fun v =>
            match v with
            | None => mkSessionSpan (ub_timestamp b) (ub_timestamp b)
            | Some s => mkSessionSpan (span_start s) (Z.max (span_end s) (ub_timestamp b))
            end)
         t)
    l [(sid, s)]
  = [(sid, mkSessionSpan (span_start s)
             (fold_left Z.max (map ub_timestamp l) (span_end s)))].
Proof.
  revert s. induction l as [|b rest IH]; intros s Hall.
  - destruct s. reflexivity.
  - cbn [fold_left map]. rewrite (Hall b (or_introl eq_refl)).
    cbn [tableUpdate]. rewrite String.eqb_refl.
    rewrite IH by (intros b' Hb'; apply Hall; right; exact Hb').
    reflexivity.
Qed.

Lemma fold_max_ge (l : list Z) (a : Z) : (a <= fold_left Z.max l a)%Z.
Proof.
  revert a. induction l as [|x rest IH]; intros a; simpl; [lia|].
  specialize (IH (Z.max a x)). lia.
Qed.

Lemma session_prefix_plain (r : Readings) : plainKey (freshId "session_" r).
Proof.
  unfold plainKey, freshId. intros H. simpl in H. intuition discriminate.
Qed.

Lemma reachable_session_plain {CL : ChangeLogger} (w : World) :
  worldReachable w -> plainKey (currentSession (logger w)).
Proof.
  induction 1 as [r log | op w Hreach IH].
  - apply session_prefix_plain.
  - rewrite collectorStep_session. exact IH.
Qed.

(** With one session, the average session duration is the duration of that
    session. *)
Lemma one_session_duration (c : AdvancedChangeLogger) :
  (forall b, In b (userBehaviorMetrics c) -> sessionId b = currentSession c) ->
  match userBehaviorMetrics c with
  | [] => getAverageSessionDuration c == 0
  | first :: later =>
      getAverageSessionDuration c
      == inject_Z (fold_left Z.max (map ub_timestamp later) (ub_timestamp first)
                   - ub_timestamp first)
  end.
Proof.
  intros Hall. unfold getAverageSessionDuration.
  destruct (userBehaviorMetrics c) as [|first later].
  - reflexivity.
  - cbn [fold_left tableUpdate].
    rewrite (session_table_single (sessionId first)).
    + rewrite objectEntries_single. cbn [map snd span_end span_start length Nat.ltb Nat.leb].
      unfold sumOf, len. cbn [fold_left length].
      change (inject_Z (Z.of_nat 1)) with 1. field.
    + intros b Hb. rewrite (Hall b (or_intror Hb)), (Hall first (or_introl eq_refl)).
      reflexivity.
Qed.

(** X26 -- A running collector has one session: its analytics report one
    session as soon as there is a behaviour sample (none before), and the
    average session duration is the time from the oldest retained sample
    to the latest time stamp, never negative.  The session id is no member
    of [Object.prototype]. *)
Theorem one_session_analytics {CL : ChangeLogger} (w : World) :
  worldReachable w ->
  let samples := userBehaviorMetrics (logger w) in
  plainKey (currentSession (logger w))
  /\ totalSessionsOf (logger w) = (if (0 <? length samples)%nat then 1 else 0)%nat
  /\ match samples with
     | [] => getAverageSessionDuration (logger w) == 0
     | first :: later =>
         getAverageSessionDuration (logger w)
         == inject_Z (fold_left Z.max (map ub_timestamp later) (ub_timestamp first)
                      - ub_timestamp first)
     end
  /\ 0 <= getAverageSessionDuration (logger w).
Proof.
  intros Hreach. cbv zeta.
  destruct (behaviour_samples_invariant w Hreach) as [_ Hsamples].
  assert (Hall : forall b, In b (userBehaviorMetrics (logger w)) ->
                           sessionId b = currentSession (logger w))
    by (intros b Hb; apply (Hsamples b Hb)).
  pose proof (one_session_duration (logger w) Hall) as Hduration.
  split; [apply reachable_session_plain; exact Hreach|].
  split; [|split; [exact Hduration|]].
  - unfold totalSessionsOf.
    rewrite (nodup_single (currentSession (logger w))), length_map; [reflexivity|].
    intros sid Hsid. apply in_map_iff in Hsid. destruct Hsid as [b [<- Hb]].
    apply Hall. exact Hb.
  - destruct (userBehaviorMetrics (logger w)) as [|first later].
    + rewrite Hduration. apply Qle_refl.
    + rewrite Hduration.
      pose proof (fold_max_ge (map ub_timestamp later) (ub_timestamp first)) as Hmax.
      change 0 with (inject_Z 0). rewrite <- Zle_Qle. lia.
Qed.

Lemma one_session_analytics_witness :
  totalSessionsOf (logger failedSave) = 1%nat
  /\ getAverageSessionDuration (logger failedSave) == 60000.
Proof.
  pose proof (@one_session_analytics specChangeLogger failedSave failedSave_reachable)
    as (_ & Htotal & Hduration & _).
  split; [exact Htotal | exact Hduration].
Defined.

(** X27 -- The capacity-planning rule never fires on the analytics of a
    running collector: it asks for more than 1000 operations or more than
    50 sessions, and the collector retains at most 1000 operation samples
    and has one session. *)
Theorem capacity_rule_never_due {CL : ChangeLogger} (w : World) :
  worldReachable w ->
  capacityPlanningDue (Z.of_nat (length (performanceMetrics (logger w))))
    (Z.of_nat (totalSessionsOf (logger w)))
  = false.
Proof.
  intros Hreach.
  assert (Hcap : loggerCapped (logger w)).
  { induction Hreach as [r log | op w Hreach IH].
    - repeat split; simpl; lia.
    - apply collectorStep_capped. exact IH. }
  destruct (behaviour_samples_invariant w Hreach) as [_ Hsamples].
  assert (Hone : (totalSessionsOf (logger w) <= 1)%nat).
  { unfold totalSessionsOf.
    rewrite (nodup_single (currentSession (logger w))).
    - destruct (0 <? _)%nat; lia.
    - intros sid Hsid. apply in_map_iff in Hsid. destruct Hsid as [b [<- Hb]].
      apply (Hsamples b Hb). }
  destruct Hcap as [Hops _]. unfold capacityPlanningDue.
  apply orb_false_iff. split; apply Z.ltb_ge; lia.
Qed.

Lemma capacity_rule_never_due_witness :
  capacityPlanningDue
    (Z.of_nat (length (performanceMetrics (logger failedSave))))
    (Z.of_nat (totalSessionsOf (logger failedSave)))
  = false.
Proof.
  exact (@capacity_rule_never_due specChangeLogger failedSave failedSave_reachable).
Defined.


(** * The insight pass *)

Lemma similarInsight_key (ty : InsightType) (ti : string) (i : Insight.PredictiveInsight) :
  similarInsight ty ti i = true <-> insightKey i = (ty, ti).
Proof.
  unfold similarInsight, insightKey. rewrite andb_true_iff, String.eqb_eq. split.
  - intros [Hty Hti]. apply internal_InsightType_dec_bl in Hty. congruence.
  - intros H. injection H as Hty Hti. split; [|exact Hti].
    apply internal_InsightType_dec_lb. exact Hty.
Qed.

Lemma addInsight_others (r : Readings) (d : Insight.Data) (e : AIAnalyticsEngine) :
  anomalies (addInsight r d e) = anomalies e
  /\ recommendations (addInsight r d e) = recommendations e.
Proof.
  unfold addInsight. destruct (find_first _ _); [split; reflexivity|].
  unfold pruneInsights. simpl. destruct (50 <? _)%nat; split; reflexivity.
Qed.

Lemma insightsGrow_refl (clock : Clock) (e : AIAnalyticsEngine) :
  insightsGrow clock 0 e e.
Proof.
  repeat split; try reflexivity; [intros i Hi; left; exact Hi | lia | tauto].
Qed.

Lemma insightsGrow_trans (clock : Clock) (n m : nat) (e e1 e2 : AIAnalyticsEngine) :
  insightsGrow clock n e e1 -> insightsGrow clock m e1 e2 ->
  insightsGrow clock (n + m) e e2.
Proof.
  intros (Ha1 & Hr1 & Hi1 & Hl1 & Hn1) (Ha2 & Hr2 & Hi2 & Hl2 & Hn2).
  repeat split; try congruence; [|lia|tauto].
  intros i Hi. destruct (Hi2 i Hi) as [Hold | Hnew]; [apply Hi1; exact Hold | right; exact Hnew].
Qed.

Lemma insightsGrow_weaken (clock : Clock) (n m : nat) (e e' : AIAnalyticsEngine) :
  (n <= m)%nat -> insightsGrow clock n e e' -> insightsGrow clock m e e'.
Proof.
  intros Hle (Ha & Hr & Hi & Hl & Hn). repeat split; try assumption. lia.
Qed.

Lemma addInsight_grows (clock : Clock) (k : nat) (d : Insight.Data) (e : AIAnalyticsEngine) :
  (k < 6)%nat ->
  In (Insight.d_type d, Insight.d_title d) insightKinds ->
  insightsGrow clock 1 e (addInsight (clock k) d e).
Proof.
  intros Hk Hkind. destruct (addInsight_others (clock k) d e) as [Ha Hr].
  split; [exact Ha | split; [exact Hr|]].
  destruct (find (similarInsight (Insight.d_type d) (Insight.d_title d)) (insights e))
    as [found|] eqn:Efind.
  - rewrite (addInsight_found _ _ _ _ Efind).
    split; [intros i Hi; left; exact Hi | split; [lia | tauto]].
  - rewrite (addInsight_fresh _ _ _ Efind). split; [|split].
    + intros i Hi. apply in_app_or in Hi. destruct Hi as [Hold | [<- | []]].
      * left. apply In_sliceLast in Hold. exact Hold.
      * right. split; [exact Hkind|]. exists k. repeat split. exact Hk.
    + rewrite length_app. simpl. pose proof (sliceLast_le 49 (insights e)) as H49.
      unfold sliceLast in *. rewrite length_skipn in *. lia.
    + intros Hnd. rewrite map_app. apply NoDup_app.
      * rewrite (sliceLast_split 49 (insights e)), map_app in Hnd.
        apply NoDup_app_remove_l in Hnd. exact Hnd.
      * repeat constructor. intros [].
      * intros key Hkey [<- | []]. apply in_map_iff in Hkey.
        destruct Hkey as [i [Hi Hin]]. apply In_sliceLast in Hin.
        apply (find_none _ _ Efind) in Hin.
        assert (Hsim : similarInsight (Insight.d_type d) (Insight.d_title d) i = true)
          by (apply similarInsight_key; exact Hi).
        congruence.
Qed.

Lemma generatePerformancePredictions_grows (clock : Clock) (loadNow : Z)
    (performanceData : option PerformanceAnalytics) (changeHistory : list ChangeLogEntry)
    (e : AIAnalyticsEngine) :
  insightsGrow clock 2 e
    (generatePerformancePredictions clock loadNow performanceData changeHistory e).
Proof.
  destruct performanceData as [p|]; simpl;
    [|apply (insightsGrow_weaken clock 0); [lia | apply insightsGrow_refl]].
  apply (insightsGrow_trans clock 1 1 e (performanceDegradationRule clock p e)).
  - unfold performanceDegradationRule.
    destruct (3 <? _)%nat;
      [|apply (insightsGrow_weaken clock 0); [lia | apply insightsGrow_refl]].
    cbv zeta. destruct (_ >? 20);
      [|apply (insightsGrow_weaken clock 0); [lia | apply insightsGrow_refl]].
    apply addInsight_grows; [lia | simpl; tauto].
  - unfold increasedLoadRule. cbv zeta.
    destruct (_ >? _);
      [|apply (insightsGrow_weaken clock 0); [lia | apply insightsGrow_refl]].
    apply addInsight_grows; [lia | simpl; tauto].
Qed.

Lemma generateBehaviorPredictions_grows (clock : Clock)
    (behaviorData : option BehaviorAnalytics) (e : AIAnalyticsEngine) :
  insightsGrow clock 2 e (generateBehaviorPredictions clock behaviorData e).
Proof.
  destruct behaviorData as [b|]; simpl;
    [|apply (insightsGrow_weaken clock 0); [lia | apply insightsGrow_refl]].
  apply (insightsGrow_trans clock 1 1 e (peakUsageRule clock b e)).
  - unfold peakUsageRule.
    destruct (0 <? _)%nat;
      [|apply (insightsGrow_weaken clock 0); [lia | apply insightsGrow_refl]].
    apply addInsight_grows; [lia | simpl; tauto].
  - unfold userErrorPatternsRule.
    destruct (0 <? _)%nat;
      [|apply (insightsGrow_weaken clock 0); [lia | apply insightsGrow_refl]].
    apply addInsight_grows; [lia | simpl; tauto].
Qed.

Lemma generateSystemHealthPredictions_grows (clock : Clock)
    (healthData : option HealthAnalytics) (e : AIAnalyticsEngine) :
  insightsGrow clock 1 e (generateSystemHealthPredictions clock healthData e).
Proof.
  unfold generateSystemHealthPredictions.
  destruct healthData as [h|];
    [|apply (insightsGrow_weaken clock 0); [lia | apply insightsGrow_refl]].
  destruct (5 <? _)%nat;
    [|apply (insightsGrow_weaken clock 0); [lia | apply insightsGrow_refl]].
  cbv zeta. destruct (_ || _);
    [|apply (insightsGrow_weaken clock 0); [lia | apply insightsGrow_refl]].
  apply addInsight_grows; [lia | simpl; tauto].
Qed.

Lemma generateOptimizationInsights_grows (clock : Clock)
    (performanceData : option PerformanceAnalytics)
    (behaviorData : option BehaviorAnalytics) (healthData : option HealthAnalytics)
    (e : AIAnalyticsEngine) :
  insightsGrow clock 1 e
    (generateOptimizationInsights clock performanceData behaviorData healthData e).
Proof.
  unfold generateOptimizationInsights. cbv zeta.
  destruct (_ <? 80);
    [|apply (insightsGrow_weaken clock 0); [lia | apply insightsGrow_refl]].
  apply addInsight_grows; [lia | simpl; tauto].
Qed.

Lemma insight_rules_grow (clock : Clock) (loadNow : Z)
    (changeHistory : list ChangeLogEntry)
    (performanceData : option PerformanceAnalytics)
    (behaviorData : option BehaviorAnalytics) (healthData : option HealthAnalytics)
    (e : AIAnalyticsEngine) :
  insightsGrow clock 6 e
    (generateOptimizationInsights clock performanceData behaviorData healthData
       (generateSystemHealthPredictions clock healthData
          (generateBehaviorPredictions clock behaviorData
             (generatePerformancePredictions clock loadNow performanceData
                changeHistory e)))).
Proof.
  set (e1 := generatePerformancePredictions clock loadNow performanceData changeHistory e).
  set (e2 := generateBehaviorPredictions clock behaviorData e1).
  set (e3 := generateSystemHealthPredictions clock healthData e2).
  apply (insightsGrow_trans clock 5 1 e e3); [|apply generateOptimizationInsights_grows].
  apply (insightsGrow_trans clock 4 1 e e2); [|apply generateSystemHealthPredictions_grows].
  apply (insightsGrow_trans clock 2 2 e e1); [|apply generateBehaviorPredictions_grows].
  apply generatePerformancePredictions_grows.
Qed.

(** X28 -- One insight pass leaves the anomalies and the recommendations
    alone and adds at most six insights.  Every insight it leaves is still
    valid at the clean-up, and is either one the engine had before or a new
    one from one of the six rules, with the id and the stamp of that call. *)
Theorem insight_pass_adds_at_most_six (clock : Clock) (loadNow now : Z)
    (changeHistory : list ChangeLogEntry)
    (performanceData : option PerformanceAnalytics)
    (behaviorData : option BehaviorAnalytics) (healthData : option HealthAnalytics)
    (e : AIAnalyticsEngine) :
  let e' :=
    generatePredictiveInsights clock loadNow now changeHistory performanceData
      behaviorData healthData e in
  anomalies e' = anomalies e
  /\ recommendations e' = recommendations e
  /\ (forall i, In i (insights e') ->
      (now < Insight.expiresAt i)%Z
      /\ (In i (insights e)
          \/ (In (insightKey i) insightKinds
              /\ exists k, (k < 6)%nat /\ Insight.id i = freshId "insight_" (clock k)
                           /\ Insight.createdAt i = stampTime (clock k))))
  /\ (length (insights e') <= length (insights e) + 6)%nat.
Proof.
  cbv zeta. unfold generatePredictiveInsights. cbv zeta.
  destruct (insight_rules_grow clock loadNow changeHistory performanceData behaviorData
              healthData e) as (Ha & Hr & Hi & Hl & _).
  unfold cleanupOldInsights. cbn [insights anomalies recommendations].
  split; [exact Ha | split; [exact Hr | split]].
  - intros i Hin. apply filter_In in Hin. destruct Hin as [Hin Hvalid].
    split; [apply Z.ltb_lt; exact Hvalid | apply Hi; exact Hin].
  - etransitivity; [apply filter_length_le | exact Hl].
Qed.


(** Keys stay distinct when entries are filtered out. *)
Lemma distinct_keys_filter {Item Key : Type} (keyOf : Item -> Key) (keep : Item -> bool)
    (items : list Item) :
  NoDup (map keyOf items) -> NoDup (map keyOf (filter keep items)).
Proof.
  induction items as [|x rest IH]; simpl; intros Hnd; [constructor|].
  inversion Hnd as [|y l' Hnotin Hrest]; subst.
  destruct (keep x); simpl; [|apply IH; exact Hrest].
  constructor; [|apply IH; exact Hrest].
  intros Hin. apply Hnotin. apply in_map_iff in Hin. destruct Hin as [z [Hz Hzin]].
  apply filter_In in Hzin. apply in_map_iff. exists z. tauto.
Qed.

Lemma addInsight_distinct_keys (r : Readings) (d : Insight.Data) (e : AIAnalyticsEngine) :
  NoDup (map insightKey (insights e)) ->
  NoDup (map insightKey (insights (addInsight r d e))).
Proof.
  intros Hnd.
  destruct (find (similarInsight (Insight.d_type d) (Insight.d_title d)) (insights e))
    as [found|] eqn:Efind.
  - rewrite (addInsight_found _ _ _ _ Efind). exact Hnd.
  - rewrite (addInsight_fresh _ _ _ Efind), map_app. apply NoDup_app.
    + rewrite (sliceLast_split 49 (insights e)), map_app in Hnd.
      apply NoDup_app_remove_l in Hnd. exact Hnd.
    + repeat constructor. intros [].
    + intros key Hkey [<- | []]. apply in_map_iff in Hkey.
      destruct Hkey as [i [Hi Hin]]. apply In_sliceLast in Hin.
      apply (find_none _ _ Efind) in Hin.
      assert (Hsim : similarInsight (Insight.d_type d) (Insight.d_title d) i = true)
        by (apply similarInsight_key; exact Hi).
      congruence.
Qed.

(** In every engine state no two insights share type and title. *)
Lemma reachable_distinct_keys (e : AIAnalyticsEngine) :
  reachable e -> NoDup (map insightKey (insights e)).
Proof.
  induction 1 as [|op e Hreach IH]; [constructor|].
  pose proof (engineStep_insights_other op e) as Hsame.
  destruct op; try (rewrite Hsame; exact IH).
  - simpl. apply addInsight_distinct_keys. exact IH.
  - simpl. apply distinct_keys_filter. exact IH.
Qed.

(** Each insight rule is one mutation of the collections, or none. *)
Lemma insight_rule_reachable (guard : bool) (r : Readings) (d : Insight.Data)
    (e : AIAnalyticsEngine) :
  reachable e -> reachable (if guard then addInsight r d e else e).
Proof.
  intros Hreach. destruct guard; [|exact Hreach].
  apply (reachable_step (OpAddInsight r d)). exact Hreach.
Qed.

Lemma generatePredictiveInsights_reachable (clock : Clock) (loadNow now : Z)
    (changeHistory : list ChangeLogEntry)
    (performanceData : option PerformanceAnalytics)
    (behaviorData : option BehaviorAnalytics) (healthData : option HealthAnalytics)
    (e : AIAnalyticsEngine) :
  reachable e ->
  reachable (generatePredictiveInsights clock loadNow now changeHistory performanceData
               behaviorData healthData e).
Proof.
  intros Hreach. unfold generatePredictiveInsights. cbv zeta.
  apply (reachable_step (OpCleanupInsights now)).
  unfold generateOptimizationInsights. cbv zeta. apply insight_rule_reachable.
  unfold generateSystemHealthPredictions.
  assert (Hbehavior : reachable
            (generateBehaviorPredictions clock behaviorData
               (generatePerformancePredictions clock loadNow performanceData
                  changeHistory e))).
  { unfold generateBehaviorPredictions, generatePerformancePredictions.
    assert (Hperformance : reachable
              match performanceData with
              | Some p =>
                  increasedLoadRule clock loadNow p changeHistory
                    (performanceDegradationRule clock p e)
              | None => e
              end).
    { destruct performanceData as [p|]; [|exact Hreach].
      unfold increasedLoadRule. cbv zeta. apply insight_rule_reachable.
      unfold performanceDegradationRule.
      destruct (3 <? length (performanceTrends p))%nat; [|exact Hreach].
      cbv zeta. apply insight_rule_reachable. exact Hreach. }
    destruct behaviorData as [b|]; [|exact Hperformance].
    unfold userErrorPatternsRule, peakUsageRule.
    apply insight_rule_reachable, insight_rule_reachable. exact Hperformance. }
  destruct healthData as [h|]; [|exact Hbehavior].
  destruct (5 <? length (resourceUsage h))%nat; [|exact Hbehavior].
  cbv zeta. apply insight_rule_reachable. exact Hbehavior.
Qed.

(** X29 -- In every state of the engine no two insights share type and
    title, so the six rules of the insight pass account for at most six of
    the insights held, one for each rule, however often the pass runs.  The
    pass is a sequence of mutations of the collections, so this holds after
    it as well.  Insights under other titles, such as those of the pattern
    analysis, are not bounded by this. *)
Theorem rule_insights_at_most_six (e : AIAnalyticsEngine) :
  reachable e ->
  NoDup (map insightKey (insights e))
  /\ (countWhere ruleInsight (insights e) <= 6)%nat
  /\ (forall kind, In kind insightKinds ->
                   (countWhere (similarInsight (fst kind) (snd kind)) (insights e) <= 1)%nat)
  /\ (forall clock loadNow now changeHistory performanceData behaviorData healthData,
         let e' :=
           generatePredictiveInsights clock loadNow now changeHistory performanceData
             behaviorData healthData e in
         reachable e' /\ (countWhere ruleInsight (insights e') <= 6)%nat).
Proof.
  assert (Hbound : forall e0, reachable e0 ->
                     (countWhere ruleInsight (insights e0) <= 6)%nat).
  { intros e0 Hreach0. unfold countWhere.
    rewrite <- (length_map insightKey).
    apply (NoDup_incl_length (l' := insightKinds)).
    - apply distinct_keys_filter. apply reachable_distinct_keys. exact Hreach0.
    - intros key Hkey. apply in_map_iff in Hkey. destruct Hkey as [i [<- Hin]].
      apply filter_In in Hin. destruct Hin as [_ Hrule].
      unfold ruleInsight in Hrule. apply existsb_exists in Hrule.
      destruct Hrule as [[ty ti] [Hkind Hsim]]. simpl in Hsim.
      apply similarInsight_key in Hsim. rewrite Hsim. exact Hkind. }
  intros Hreach.
  split; [apply reachable_distinct_keys; exact Hreach|].
  split; [apply Hbound; exact Hreach|]. split.
  - intros kind _. apply reachable_insight_unique. exact Hreach.
  - intros clock loadNow now changeHistory performanceData behaviorData healthData.
    cbv zeta.
    pose proof (generatePredictiveInsights_reachable clock loadNow now changeHistory
                  performanceData behaviorData healthData e Hreach) as Hafter.
    split; [exact Hafter | apply Hbound; exact Hafter].
Qed.

Lemma rule_insights_at_most_six_witness :
  (countWhere ruleInsight (insights engineAfterInsightPass) <= 6)%nat
  /\ map Insight.title (insights engineAfterInsightPass)
     = ["Performance Degradation Predicted"; "Peak Usage Period Predicted";
        "User Error Patterns Identified"].
Proof.
  split; [|reflexivity].
  apply (proj1 (proj2 (rule_insights_at_most_six engineAfterInsightPass
                         (generatePredictiveInsights_reachable _ _ _ _ _ _ _ _
                            reachable_new)))).
Defined.

Lemma trend_of_three (a b c : number) :
  calculateTrendDirection [a; b; c]
  = (ofNat ((if b >? a then 1 else 0) + (if c >? b then 1 else 0)) / ofNat 2) * 100.
Proof.
  unfold calculateTrendDirection, count_loop, trend_step, at_index. simpl.
  destruct (b >? a), (c >? b); reflexivity.
Qed.

(** X30 -- The degradation insight needs one rise: with more than three
    hourly buckets, the rule offers its insight as soon as one of the last
    three average durations is above the one before it, and the trend it
    reports is then 50 or 100, so the predicted response time is one and a
    half times or twice the current average.  It does nothing when the last
    three averages never rise, or with three buckets or fewer. *)
Theorem degradation_insight_needs_one_rise (clock : Clock) (p : PerformanceAnalytics)
    (e : AIAnalyticsEngine) :
  let recent := map pt_averageDuration (sliceLast 3 (performanceTrends p)) in
  let trend := calculateTrendDirection recent in
  ((3 < length (performanceTrends p))%nat /\ ~ non_increasing recent ->
   (trend == 50 \/ trend == 100)
   /\ performanceDegradationRule clock p e
      = addInsight (clock 0%nat)
          (performanceDegradationData (averageDuration p) trend (performanceTrends p)) e)
  /\ ((length (performanceTrends p) <= 3)%nat \/ non_increasing recent ->
      performanceDegradationRule clock p e = e).
Proof.
  cbv zeta. unfold performanceDegradationRule. cbv zeta.
  destruct (3 <? length (performanceTrends p))%nat eqn:Elen.
  - apply Nat.ltb_lt in Elen.
    assert (Hthree : length (map pt_averageDuration (sliceLast 3 (performanceTrends p)))
                     = 3%nat)
      by (rewrite length_map, sliceLast_length; lia).
    destruct (map pt_averageDuration (sliceLast 3 (performanceTrends p)))
      as [|a [|b [|c [|d rest]]]]; try discriminate Hthree.
    rewrite trend_of_three. simpl non_increasing.
    destruct (b >? a) eqn:Eba; destruct (c >? b) eqn:Ecb;
      try apply gtb_true_iff in Eba; try apply gtb_true_iff in Ecb;
      try apply gtb_false_iff in Eba; try apply gtb_false_iff in Ecb.
    + split; [intros _; split; [right; reflexivity | reflexivity]|].
      intros [Hlen | [Hle _]]; [lia | exfalso; lra].
    + split; [intros _; split; [left; reflexivity | reflexivity]|].
      intros [Hlen | [Hle _]]; [lia | exfalso; lra].
    + split; [intros _; split; [left; reflexivity | reflexivity]|].
      intros [Hlen | [_ [Hle _]]]; [lia | exfalso; lra].
    + split; [|intros _; reflexivity].
      intros [_ Hnot]. exfalso. apply Hnot. repeat split; assumption.
  - apply Nat.ltb_ge in Elen. split; [intros [Hlen _]; lia | intros _; reflexivity].
Qed.
